(** * pykmn: the Generation I binary layout codec of [pykmn.engine.gen1]

    A shallow embedding of [src/pykmn/engine/gen1.py] and
    [src/pykmn/engine/rng.py]: Python integers are [Z], byte buffers are
    [list Z], dictionaries are [gmap]s, exceptions are values of [py_error]
    and a raised exception keeps the writes that happened before it. *)

From Stdlib Require Import ZArith Lia Bool List.
From Stdlib Require Import PrimFloat FloatOps SpecFloat.
From stdpp Require Import base option list gmap strings pretty.

Local Open Scope Z_scope.

(** ** Exceptions and the result type *)

Inductive py_error : Type :=
| AttributeError (cls attr : string)
| AssertionError (msg : string)
| ValueError (msg : string)
| KeyError (key : string)
| IndexError
| OverflowError
| TypeError
| ZeroDivisionError
| CreationError
| Softlock (msg : string)
| TruncatedTrace.

Inductive res (A : Type) : Type :=
| Ok (a : A)
| Raise (e : py_error).
Arguments Ok {A} a.
Arguments Raise {A} e.

Definition res_bind {A B} (m : res A) (k : A -> res B) : res B :=
  match m with
  | Ok a => k a
  | Raise e => Raise e
  end.

Declare Scope res_scope.
Delimit Scope res_scope with res.
Notation "x <- m ;; k" := (res_bind m (fun x => k))
  (at level 100, m at next level, right associativity) : res_scope.

Definition py_assert (b : bool) (msg : string) : res unit :=
  if b then Ok tt else Raise (AssertionError msg).

(** ** Python floats: IEEE 754 binary64

    [math.sqrt], [/], [math.trunc] and [math.floor] go through C doubles.
    They are modelled with the kernel's binary64 numbers ([PrimFloat], round
    to nearest even), so that every rounding and every truncation is the one
    the interpreter performs. *)

Module Float.

(** An integer as an exact binary value (mantissa and exponent 0). *)
Definition exact (z : Z) : spec_float :=
  match z with
  | Z0 => S754_zero false
  | Zpos p => S754_finite false p 0
  | Zneg p => S754_finite true p 0
  end.

(** A rounded value as a double; beyond the range is [OverflowError]. *)
Definition finite (f : spec_float) : res float :=
  match f with
  | S754_infinity _ => Raise OverflowError
  | _ => Ok (SF2Prim f)
  end.

(** [float(z)]: the nearest double. *)
Definition of_int (z : Z) : res float :=
  finite (binary_normalize prec emax z 0 false).

(** [math.sqrt(z)] of an integer. *)
Definition math_sqrt (z : Z) : res float :=
  (x <- of_int z ;;
   if PrimFloat.ltb x PrimFloat.zero
   then Raise (ValueError "math domain error")
   else Ok (PrimFloat.sqrt x))%res.

(** [x / z] of a float by an integer. *)
Definition div_int (x : float) (z : Z) : res float :=
  (y <- of_int z ;;
   if PrimFloat.is_zero y then Raise ZeroDivisionError
   else Ok (PrimFloat.div x y))%res.

(** [a / b] of two integers: the correctly rounded quotient. *)
Definition int_truediv (a b : Z) : res float :=
  if b =? 0 then Raise ZeroDivisionError
  else finite (SFdiv prec emax (exact a) (exact b)).

(** [math.trunc(x)]: towards zero. *)
Definition math_trunc (x : float) : res Z :=
  match Prim2SF x with
  | S754_zero _ => Ok 0
  | S754_finite s m e =>
      let a := match e with
               | Zneg k => Z.shiftr (Zpos m) (Zpos k)
               | _ => Z.shiftl (Zpos m) e
               end in
      Ok (if s then - a else a)
  | S754_infinity _ => Raise OverflowError
  | S754_nan => Raise (ValueError "cannot convert float NaN to integer")
  end.

(** [math.floor(x)]: towards minus infinity. *)
Definition math_floor (x : float) : res Z :=
  match Prim2SF x with
  | S754_zero _ => Ok 0
  | S754_finite s m e =>
      Ok (match e with
          | Zneg k => Z.shiftr (if s then Zneg m else Zpos m) (Zpos k)
          | _ => Z.shiftl (if s then Zneg m else Zpos m) e
          end)
  | S754_infinity _ => Raise OverflowError
  | S754_nan => Raise (ValueError "cannot convert float NaN to integer")
  end.

End Float.

(** ** [Status] *)

Inductive _InnerStatusEnum : Type :=
| HEALTHY | SLEEP | POISON | BURN | FREEZE | PARALYSIS.

Definition _InnerStatusEnum_value (v : _InnerStatusEnum) : Z :=
  match v with
  | HEALTHY => 0
  | SLEEP => 4
  | POISON => 8
  | BURN => 16
  | FREEZE => 32
  | PARALYSIS => 64
  end.

Module Status.

Record t : Type := mk {
  value : _InnerStatusEnum;
  duration : option Z;
  is_self_inflicted : option bool
}.

(** [Status.__init__]: a tuple is a sleep, anything else an enum member. *)
Definition __init__ (v : _InnerStatusEnum + Z * bool) : t :=
  match v with
  | inr (d, s) => mk SLEEP (Some d) (Some s)
  | inl e => mk e None None
  end.

Definition paralyzed : t := __init__ (inl PARALYSIS).
Definition burned : t := __init__ (inl BURN).
Definition poisoned : t := __init__ (inl POISON).
Definition frozen : t := __init__ (inl FREEZE).
Definition healthy : t := __init__ (inl HEALTHY).
Definition sleep (duration : Z) (is_self_inflicted : bool) : t :=
  __init__ (inr (duration, is_self_inflicted)).

(** The truth value of an attribute that is [None] or a [bool]. *)
Definition truthy (b : option bool) : bool :=
  match b with
  | Some true => true
  | _ => false
  end.

Definition to_int (self : t) : Z :=
  match duration self with
  | Some d => if truthy (is_self_inflicted self) then Z.lor 128 d else d
  | None => _InnerStatusEnum_value (value self)
  end.

End Status.

(** ** [statcalc] *)

Definition statcalc (base_value : Z) (is_HP : bool) (level dv experience : Z)
  : res Z :=
  (t <- (root <- Float.math_sqrt experience ;;
         quarter <- Float.div_int root 4 ;;
         Float.math_trunc quarter) ;;
   let core := 2 * (base_value + dv) + t in
   let factor := if is_HP then level + 10 else 5 in
   l <- (ratio <- Float.int_truediv level 100 ;; Float.math_trunc ratio) ;;
   Ok ((core * l + factor) mod 2 ^ 16))%res.

(** The same formula over the integers, as the specification words it:
    integer square root, truncating division. *)
Definition statcalc_formula (base_value : Z) (is_HP : bool)
  (level dv experience : Z) : Z :=
  ((2 * (base_value + dv) + Z.quot (Z.sqrt experience) 4) * Z.quot level 100
   + (if is_HP then level + 10 else 5)) mod 65536.

(** [check_range f lo n]: [f] holds at [lo], [lo + 1], ..., [lo + n - 1]. *)
Definition check_range (f : Z -> bool) (lo : Z) (n : N) : bool :=
  snd (N.iter n (fun p => (fst p + 1, snd p && f (fst p))) (lo, true)).

(** On [e], the float computation [math.trunc(math.sqrt(e) / 4)] is the
    quarter of the integer square root. *)
Definition sqrt_quarter_agrees (e : Z) : bool :=
  match (root <- Float.math_sqrt e ;; quarter <- Float.div_int root 4 ;;
         Float.math_trunc quarter)%res with
  | Ok t => t =? Z.quot (Z.sqrt e) 4
  | Raise _ => false
  end.

(** On [l], the float computation [math.trunc(l / 100)] is the truncated
    integer quotient. *)
Definition level_ratio_agrees (l : Z) : bool :=
  match (ratio <- Float.int_truediv l 100 ;; Float.math_trunc ratio)%res with
  | Ok t => t =? Z.quot l 100
  | Raise _ => false
  end.

(** ** Static data and layout tables

    [pykmn.data.gen1] is read-only data that the codec imports
    ([MOVE_IDS], [MOVES], [SPECIES], [SPECIES_IDS], [TYPES], the two reverse
    lookups, [LAYOUT_OFFSETS] and [LAYOUT_SIZES]).  The tables are parameters
    of the embedding: every function below takes them as arguments. *)

Inductive stat_key : Type := hp_ | atk_ | def_ | spe_ | spc_.

Record Gen1StatData : Type := mkStats {
  st_hp : Z; st_atk : Z; st_def : Z; st_spe : Z; st_spc : Z
}.

(** [stats[stat]] *)
Definition stat_get (s : Gen1StatData) (k : stat_key) : Z :=
  match k with
  | hp_ => st_hp s | atk_ => st_atk s | def_ => st_def s
  | spe_ => st_spe s | spc_ => st_spc s
  end.

Record SpeciesData : Type := mkSpecies {
  species_stats : Gen1StatData;
  species_types : list string
}.

Record StaticData : Type := mkStatic {
  MOVE_IDS : gmap string Z;
  MOVES : gmap string Z;
  SPECIES : gmap string SpeciesData;
  SPECIES_IDS : gmap string Z;
  TYPES : list string;
  MOVE_ID_LOOKUP : gmap Z string;
  SPECIES_ID_LOOKUP : gmap Z string
}.

(** [LAYOUT_OFFSETS['Pokemon']], [LAYOUT_OFFSETS['Side']] and
    [LAYOUT_SIZES]. *)
Record Layout : Type := mkLayout {
  Pokemon_stats : nat;
  Pokemon_moves : nat;
  Pokemon_hp : nat;
  Pokemon_status : nat;
  Pokemon_species : nat;
  Pokemon_types : nat;
  Pokemon_level : nat;
  Side_pokemon : nat;
  Side_active : nat;
  Side_order : nat;
  Side_last_selected_move : nat;
  Side_last_used_move : nat;
  SIZE_Pokemon : nat;
  SIZE_Side : nat
}.

(** [d[key]] on a dictionary keyed by strings. *)
Definition dict_get {V} (d : gmap string V) (key : string) : res V :=
  match d !! key with
  | Some v => Ok v
  | None => Raise (KeyError key)
  end.

(** [d[id]] on a reverse lookup keyed by integers. *)
Definition lookup_get (d : gmap Z string) (id : Z) : res string :=
  match d !! id with
  | Some v => Ok v
  | None => Raise (KeyError "id")
  end.

(** [l.index(x)]: the first position of [x]. *)
Fixpoint list_index (x : string) (l : list string) : option nat :=
  match l with
  | [] => None
  | y :: l' => if String.eqb x y then Some O else S <$> list_index x l'
  end.

Definition py_index (l : list string) (x : string) : res nat :=
  match list_index x l with
  | Some i => Ok i
  | None => Raise (ValueError "is not in list")
  end.

(** [l[i]] on a list or tuple. *)
Definition py_nth {A} (l : list A) (i : nat) : res A :=
  match l !! i with
  | Some a => Ok a
  | None => Raise IndexError
  end.

(** ** The helpers of [pykmn.engine.common] *)

(** Modelled from the spec: [pack_u16_as_bytes] of [pykmn/engine/common.py],
    which is not among the sources; the specification fixes 16-bit
    little-endian counters. *)
Definition pack_u16_as_bytes (n : Z) : list Z :=
  [Z.land n 255; Z.land (Z.shiftr n 8) 255].

(** Modelled from the spec: [unpack_u16_from_bytes] of
    [pykmn/engine/common.py], the inverse of the little-endian packing. *)
Definition unpack_u16_from_bytes (a b : Z) : Z :=
  Z.lor (Z.shiftl b 8) a.

(** Modelled from the spec: [pack_two_u4s] of [pykmn/engine/common.py]: the
    type pair is two 4-bit nibbles in one byte, the first one low. *)
Definition pack_two_u4s (a b : Z) : Z :=
  Z.lor (Z.land a 15) (Z.shiftl (Z.land b 15) 4).

(** Modelled from the spec: [unpack_two_u4s] of [pykmn/engine/common.py]. *)
Definition unpack_two_u4s (n : Z) : Z * Z :=
  (Z.land n 15, Z.land (Z.shiftr n 4) 15).

(** ** Byte buffers

    A method of an object that owns a [uint8_t[]] buffer is a computation on
    the contents of that buffer.  An exception leaves the buffer as the
    writes before it made it. *)

Definition BufM (A : Type) : Type := list Z -> res A * list Z.

Definition buf_ret {A} (a : A) : BufM A := fun b => (Ok a, b).

Definition buf_bind {A B} (m : BufM A) (k : A -> BufM B) : BufM B :=
  fun b =>
    match m b with
    | (Ok a, b') => k a b'
    | (Raise e, b') => (Raise e, b')
    end.

Definition buf_lift {A} (r : res A) : BufM A := fun b => (r, b).

Declare Scope buf_scope.
Delimit Scope buf_scope with buf.
Notation "x <- m ;; k" := (buf_bind m (fun x => k))
  (at level 100, m at next level, right associativity) : buf_scope.
Notation "m ;;; k" := (buf_bind m (fun _ => k))
  (at level 100, right associativity) : buf_scope.

(** What fits a [uint8_t]. *)
Definition is_byte (v : Z) : bool := (0 <=? v) && (v <=? 255).

(** [buf[i] = v] on a [uint8_t[]]: the index is bounds-checked and the value
    must be a byte. *)
Definition setitem (i : nat) (v : Z) : BufM unit :=
  fun b =>
    if (i <? length b)%nat then
      if is_byte v then (Ok tt, <[i := v]> b)
      else (Raise OverflowError, b)
    else (Raise IndexError, b).

Fixpoint setitems (i : nat) (vs : list Z) : BufM unit :=
  match vs with
  | [] => buf_ret tt
  | v :: vs' => (setitem i v ;;; setitems (S i) vs')%buf
  end.

(** [buf[i:j] = vs]: both bounds inside the array, as many values as the
    slice has items, assigned one by one. *)
Definition setslice (i j : nat) (vs : list Z) : BufM unit :=
  fun b =>
    if (i <=? j)%nat && (j <=? length b)%nat then
      if (length vs =? j - i)%nat then setitems i vs b
      else (Raise (ValueError "need a slice of matching length"), b)
    else (Raise IndexError, b).

(** [buf[i]] *)
Definition getitem (b : list Z) (i : nat) : res Z := py_nth b i.

(** [(byte1, byte2) = buf[i:i + 2]] *)
Definition getpair (b : list Z) (i : nat) : res (Z * Z) :=
  if (i + 2 <=? length b)%nat then
    (x <- py_nth b i ;; y <- py_nth b (i + 1) ;; Ok (x, y))%res
  else Raise IndexError.

(** [splice off vs b]: [b] with [vs] written over it from offset [off]. *)
Definition splice (off : nat) (vs b : list Z) : list Z :=
  take off b ++ vs ++ drop (off + length vs) b.

(** ** [Pokemon] *)

Record ExtraPokemonData : Type := mkExtra {
  x_hp : option Z;
  x_status : option Z;
  x_level : option Z;
  x_stats : option Gen1StatData;
  x_types : option (string * string);
  x_move_pp : option (list Z);
  x_dvs : option Gen1StatData;
  x_exp : option Gen1StatData
}.

(** A [PokemonInitializer]: a pair, or a triple with the extra dictionary. *)
Record PokemonInitializer : Type := mkInit {
  species_name : string;
  move_names : list string;
  extra_data : option ExtraPokemonData
}.

Definition no_extra : ExtraPokemonData :=
  mkExtra None None None None None None None None.

Definition default_dvs : Gen1StatData := mkStats 15 15 15 15 15.
Definition default_exp : Gen1StatData := mkStats 65535 65535 65535 65535 65535.

(** What [initialize] has in its local variables when packing starts. *)
Record Resolved : Type := mkResolved {
  r_hp : Z;
  r_status : Z;
  r_level : Z;
  r_stats : Gen1StatData;
  r_types : string * string;
  r_move_pp : option (list Z)
}.

Section Pokemon.
Variable D : StaticData.
Variable L : Layout.

(** [Pokemon.__init__]: only the length of the buffer is checked. *)
Definition Pokemon___init__ (len_bytes : nat) : res unit :=
  py_assert (len_bytes =? SIZE_Pokemon L)%nat "Pokemon data bytes".

(** The species' stats at this level: [statcalc] on every stat. *)
Definition computed_stats (base : Gen1StatData) (level : Z)
  (dvs exp : Gen1StatData) : res Gen1StatData :=
  (h <- statcalc (st_hp base) true level (st_hp dvs) (st_hp exp) ;;
   a <- statcalc (st_atk base) false level (st_atk dvs) (st_atk exp) ;;
   d <- statcalc (st_def base) false level (st_def dvs) (st_def exp) ;;
   s <- statcalc (st_spe base) false level (st_spe dvs) (st_spe exp) ;;
   c <- statcalc (st_spc base) false level (st_spc dvs) (st_spc exp) ;;
   Ok (mkStats h a d s c))%res.

(** Lines 197-254 of [gen1.py]: defaults, the extra dictionary, the species
    lookup.  Nothing is written yet. *)
Definition resolve (data : PokemonInitializer) : res Resolved :=
  let x := default no_extra (extra_data data) in
  let hp := x_hp x in
  let status := default 0 (x_status x) in
  let level := default 100 (x_level x) in
  let stats := x_stats x in
  let types := x_types x in
  let move_pp := x_move_pp x in
  let dvs := default default_dvs (x_dvs x) in
  let exp := default default_exp (x_exp x) in
  (st <-
     (if String.eqb (species_name data) "None" then
        Ok (default (mkStats 0 0 0 0 0) stats,
            default ("Normal", "Normal") types)
      else
        match SPECIES D !! species_name data with
        | Some sp =>
            stats' <- match stats with
                      | Some s => Ok s
                      | None => computed_stats (species_stats sp) level dvs exp
                      end ;;
            types' <- match types with
                      | Some t => Ok t
                      | None =>
                          first_type <- py_nth (species_types sp) 0 ;;
                          second_type <-
                            (if (1 <? length (species_types sp))%nat
                             then py_nth (species_types sp) 1
                             else Ok first_type) ;;
                          Ok (first_type, second_type)
                      end ;;
            Ok (stats', types')
        | None => Raise (ValueError "is not a valid species in Generation I.")
        end) ;;
   let hp' := default (st_hp (fst st)) hp in
   Ok (mkResolved hp' status level (fst st) (snd st) move_pp))%res.

(** [for stat in ['hp', 'atk', 'def', 'spe', 'spc']]: two bytes each. *)
Fixpoint pack_stats (stats : Gen1StatData) (keys : list stat_key)
  (offset : nat) : BufM nat :=
  match keys with
  | [] => buf_ret offset
  | k :: keys' =>
      (setslice offset (offset + 2) (pack_u16_as_bytes (stat_get stats k)) ;;;
       pack_stats stats keys' (offset + 2))%buf
  end.

(** The PP a move slot gets when none is supplied. *)
Definition default_pp (name : string) (move_id : Z) : res Z :=
  if move_id =? 0 then Ok 0
  else
    (base <- dict_get (MOVES D) name ;;
     q <- Float.int_truediv (base * 8) 5 ;;
     Float.math_floor q)%res.

(** The body of [for move_index in range(4)]: the id and PP of one slot. *)
Definition move_slot (names : list string) (move_pp : option (list Z))
  (move_index : nat) : res (Z * Z) :=
  if (length names <=? move_index)%nat then Ok (0, 0)
  else
    (name <- py_nth names move_index ;;
     move_id <- dict_get (MOVE_IDS D) name ;;
     pp <- match move_pp with
           | None => default_pp name move_id
           | Some pps => py_nth pps move_index
           end ;;
     Ok (move_id, pp))%res.

Fixpoint pack_moves (names : list string) (move_pp : option (list Z))
  (indices : list nat) (offset : nat) : BufM nat :=
  match indices with
  | [] => buf_ret offset
  | move_index :: indices' =>
      (slot <- buf_lift (move_slot names move_pp move_index) ;;
       setitem offset (fst slot) ;;;
       setitem (offset + 1) (snd slot) ;;;
       pack_moves names move_pp indices' (offset + 1 + 1))%buf
  end.

Definition buf_assert (b : bool) (msg : string) : BufM unit :=
  buf_lift (py_assert b msg).

(** [Pokemon.initialize] *)
Definition Pokemon_initialize (data : PokemonInitializer) : BufM unit :=
  (r <- buf_lift (resolve data) ;;
   let offset := Pokemon_stats L in
   offset <- pack_stats (r_stats r) [hp_; atk_; def_; spe_; spc_] offset ;;
   buf_assert (offset =? Pokemon_moves L)%nat "moves" ;;;
   offset <- pack_moves (move_names data) (r_move_pp r) [0; 1; 2; 3]%nat offset ;;
   buf_assert (offset =? Pokemon_hp L)%nat "hp" ;;;
   setslice offset (offset + 2) (pack_u16_as_bytes (r_hp r)) ;;;
   let offset := (offset + 2)%nat in
   buf_assert (offset =? Pokemon_status L)%nat "status" ;;;
   setitem offset (r_status r) ;;;
   let offset := (offset + 1)%nat in
   buf_assert (offset =? Pokemon_species L)%nat "species" ;;;
   species_id <- buf_lift (dict_get (SPECIES_IDS D) (species_name data)) ;;
   setitem offset species_id ;;;
   let offset := (offset + 1)%nat in
   buf_assert (offset =? Pokemon_types L)%nat "types" ;;;
   type1 <- buf_lift (py_index (TYPES D) (fst (r_types r))) ;;
   type2 <- buf_lift (py_index (TYPES D) (snd (r_types r))) ;;
   setitem offset (pack_two_u4s (Z.of_nat type1) (Z.of_nat type2)) ;;;
   let offset := (offset + 1)%nat in
   buf_assert (offset =? Pokemon_level L)%nat "level" ;;;
   setitem offset (r_level r) ;;;
   let offset := (offset + 1)%nat in
   buf_assert (offset =? SIZE_Pokemon L)%nat "size")%buf.

(** *** The record [initialize] writes

    The same record as a value: what the assertions of [initialize] say about
    the layout, and the 24 bytes as a function of the initializer. *)

(** The assertions [assert offset == LAYOUT_OFFSETS['Pokemon'][...]] of
    [initialize], and the one of [Pokemon.__init__] on the buffer. *)
Definition Pokemon_layout_ok : Prop :=
  (Pokemon_moves L = Pokemon_stats L + 10 /\
   Pokemon_hp L = Pokemon_moves L + 8 /\
   Pokemon_status L = Pokemon_hp L + 2 /\
   Pokemon_species L = Pokemon_status L + 1 /\
   Pokemon_types L = Pokemon_species L + 1 /\
   Pokemon_level L = Pokemon_types L + 1 /\
   SIZE_Pokemon L = Pokemon_level L + 1)%nat.

Definition check_byte (v : Z) : res Z :=
  if is_byte v then Ok v else Raise OverflowError.

Definition stats_bytes (stats : Gen1StatData) (keys : list stat_key) : list Z :=
  flat_map (fun k => pack_u16_as_bytes (stat_get stats k)) keys.

Definition checked_slot (names : list string) (move_pp : option (list Z))
  (move_index : nat) : res (list Z) :=
  (slot <- move_slot names move_pp move_index ;;
   id <- check_byte (fst slot) ;;
   pp <- check_byte (snd slot) ;;
   Ok [id; pp])%res.

Definition Pokemon_image (data : PokemonInitializer) : res (list Z) :=
  (r <- resolve data ;;
   s0 <- checked_slot (move_names data) (r_move_pp r) 0 ;;
   s1 <- checked_slot (move_names data) (r_move_pp r) 1 ;;
   s2 <- checked_slot (move_names data) (r_move_pp r) 2 ;;
   s3 <- checked_slot (move_names data) (r_move_pp r) 3 ;;
   status <- check_byte (r_status r) ;;
   species_id <- dict_get (SPECIES_IDS D) (species_name data) ;;
   species_id <- check_byte species_id ;;
   type1 <- py_index (TYPES D) (fst (r_types r)) ;;
   type2 <- py_index (TYPES D) (snd (r_types r)) ;;
   types <- check_byte (pack_two_u4s (Z.of_nat type1) (Z.of_nat type2)) ;;
   level <- check_byte (r_level r) ;;
   Ok (stats_bytes (r_stats r) [hp_; atk_; def_; spe_; spc_]
       ++ s0 ++ s1 ++ s2 ++ s3 ++ pack_u16_as_bytes (r_hp r)
       ++ [status; species_id; types; level]))%res.

(** The image with its fields in place: the stats, the four (id, PP) slots,
    the HP, then status, species id, type byte and level. *)
Definition record_image (r : Resolved) (s0 s1 s2 s3 : Z * Z) (sid t : Z)
  : list Z :=
  stats_bytes (r_stats r) [hp_; atk_; def_; spe_; spc_]
  ++ [fst s0; snd s0; fst s1; snd s1; fst s2; snd s2; fst s3; snd s3]
  ++ pack_u16_as_bytes (r_hp r) ++ [r_status r; sid; t; r_level r].

(** *** The readers *)

Definition Pokemon_stats_reader (b : list Z) : res Gen1StatData :=
  let offset := Pokemon_stats L in
  (h <- getpair b offset ;;
   a <- getpair b (offset + 2) ;;
   d <- getpair b (offset + 2 + 2) ;;
   s <- getpair b (offset + 2 + 2 + 2) ;;
   c <- getpair b (offset + 2 + 2 + 2 + 2) ;;
   Ok (mkStats (unpack_u16_from_bytes (fst h) (snd h))
               (unpack_u16_from_bytes (fst a) (snd a))
               (unpack_u16_from_bytes (fst d) (snd d))
               (unpack_u16_from_bytes (fst s) (snd s))
               (unpack_u16_from_bytes (fst c) (snd c))))%res.

(** [moves()]: the generator over [range(0, 8, 2)] with its filter. *)
Fixpoint moves_from (b : list Z) (offset : nat) (ns : list nat)
  : res (list string) :=
  match ns with
  | [] => Ok []
  | n :: ns' =>
      (id <- getitem b (offset + n) ;;
       if id =? 0 then moves_from b offset ns'
       else
         name <- lookup_get (MOVE_ID_LOOKUP D) id ;;
         rest <- moves_from b offset ns' ;;
         Ok (name :: rest))%res
  end.

Definition Pokemon_moves_reader (b : list Z) : res (list string) :=
  moves_from b (Pokemon_moves L) [0; 2; 4; 6]%nat.

(** [pp_left()]: the generator over [range(1, 9, 2)] with its filter. *)
Fixpoint pp_from (b : list Z) (offset : nat) (ns : list nat)
  : res (list Z) :=
  match ns with
  | [] => Ok []
  | n :: ns' =>
      (id <- getitem b (offset + n - 1) ;;
       if id =? 0 then pp_from b offset ns'
       else
         pp <- getitem b (offset + n) ;;
         rest <- pp_from b offset ns' ;;
         Ok (pp :: rest))%res
  end.

Definition Pokemon_pp_left (b : list Z) : res (list Z) :=
  pp_from b (Pokemon_moves L) [1; 3; 5; 7]%nat.

Fixpoint moves_with_pp_from (b : list Z) (offset : nat) (ns : list nat)
  : res (list (string * Z)) :=
  match ns with
  | [] => Ok []
  | n :: ns' =>
      (id <- getitem b (offset + n) ;;
       if id =? 0 then moves_with_pp_from b offset ns'
       else
         name <- lookup_get (MOVE_ID_LOOKUP D) id ;;
         pp <- getitem b (offset + n + 1) ;;
         rest <- moves_with_pp_from b offset ns' ;;
         Ok ((name, pp) :: rest))%res
  end.

Definition Pokemon_moves_with_pp (b : list Z) : res (list (string * Z)) :=
  moves_with_pp_from b (Pokemon_moves L) [0; 2; 4; 6]%nat.

Definition Pokemon_hp_reader (b : list Z) : res Z :=
  (p <- getpair b (Pokemon_hp L) ;;
   Ok (unpack_u16_from_bytes (fst p) (snd p)))%res.

Definition Pokemon_status_reader (b : list Z) : res Z :=
  getitem b (Pokemon_status L).

Definition Pokemon_species_reader (b : list Z) : res string :=
  (id <- getitem b (Pokemon_species L) ;;
   lookup_get (SPECIES_ID_LOOKUP D) id)%res.

Definition Pokemon_types_reader (b : list Z) : res (string * string) :=
  (byte <- getitem b (Pokemon_types L) ;;
   let t := unpack_two_u4s byte in
   type1 <- py_nth (TYPES D) (Z.to_nat (fst t)) ;;
   type2 <- py_nth (TYPES D) (Z.to_nat (snd t)) ;;
   Ok (type1, type2))%res.

Definition Pokemon_level_reader (b : list Z) : res Z :=
  getitem b (Pokemon_level L).

(** *** The move slots as a list

    What [moves()] and [pp_left()] compute, read off the four (id, PP) slots
    instead of the buffer. *)

Fixpoint slots_moves (slots : list (Z * Z)) : res (list string) :=
  match slots with
  | [] => Ok []
  | (id, _) :: slots' =>
      if id =? 0 then slots_moves slots'
      else
        (name <- lookup_get (MOVE_ID_LOOKUP D) id ;;
         rest <- slots_moves slots' ;;
         Ok (name :: rest))%res
  end.

Fixpoint slots_pp (slots : list (Z * Z)) : list Z :=
  match slots with
  | [] => []
  | (id, pp) :: slots' =>
      if id =? 0 then slots_pp slots' else pp :: slots_pp slots'
  end.

(** A name of the move table that stands for a move: its id is not 0 and
    the reverse lookup gives the name back. *)
Definition real_move (name : string) : Prop :=
  exists id, MOVE_IDS D !! name = Some id /\ id <> 0 /\
             MOVE_ID_LOOKUP D !! id = Some name.

(** A name of the move table whose id fits the 8 bits of a move slot. *)
Definition byte_move (name : string) : Prop :=
  exists id, MOVE_IDS D !! name = Some id /\ 0 <= id <= 255.

End Pokemon.

(** ** The [ffi] store: arrays and views

    [ffi.new("uint8_t[]", n)] allocates a zero-filled array.  Slicing a
    [cdata] array, [x[start:stop]], gives a [cdata] that is a view of the
    same memory, not a copy: a write through the view is a write into the
    array it was cut from.  The store is the list of allocated arrays; a
    [cdata] names an array and a window of it. *)

Definition heap : Type := list (list Z).

Record cdata : Type := mkCdata {
  c_block : nat;
  c_off : nat;
  c_len : nat
}.

Definition HeapM (A : Type) : Type := heap -> res A * heap.

Definition heap_ret {A} (a : A) : HeapM A := fun h => (Ok a, h).

Definition heap_bind {A B} (m : HeapM A) (k : A -> HeapM B) : HeapM B :=
  fun h =>
    match m h with
    | (Ok a, h') => k a h'
    | (Raise e, h') => (Raise e, h')
    end.

Definition heap_lift {A} (r : res A) : HeapM A := fun h => (r, h).

Declare Scope heap_scope.
Delimit Scope heap_scope with heap.
Notation "x <- m ;; k" := (heap_bind m (fun x => k))
  (at level 100, m at next level, right associativity) : heap_scope.
Notation "m ;;; k" := (heap_bind m (fun _ => k))
  (at level 100, right associativity) : heap_scope.

(** [ffi.new("uint8_t[]", n)] *)
Definition ffi_new (n : nat) : HeapM cdata :=
  fun h => (Ok (mkCdata (length h) 0 n), h ++ [replicate n 0]).

(** [c[start:stop]]: a view, bounds-checked against the array. *)
Definition cdata_slice (c : cdata) (start stop : nat) : res cdata :=
  if (start <=? stop)%nat && (stop <=? c_len c)%nat
  then Ok (mkCdata (c_block c) (c_off c + start) (stop - start))
  else Raise IndexError.

(** The bytes a [cdata] currently shows. *)
Definition contents (h : heap) (c : cdata) : list Z :=
  match h !! c_block c with
  | Some blk => take (c_len c) (drop (c_off c) blk)
  | None => []
  end.

(** Running a buffer computation through a [cdata]: it sees the window and
    its writes land in the array the window belongs to. *)
Definition via {A} (c : cdata) (m : BufM A) : HeapM A :=
  fun h =>
    match h !! c_block c with
    | Some blk =>
        let '(r, w) := m (take (c_len c) (drop (c_off c) blk)) in
        (r, <[c_block c := take (c_off c) blk ++ w
                            ++ drop (c_off c + c_len c) blk]> h)
    | None => (Raise IndexError, h)
    end.

(** ** [Side] *)

Inductive SideInitializer : Type :=
| SideList (team : list PokemonInitializer)
| SideDict (team : list PokemonInitializer)
           (last_selected_move last_used_move : option string).

(** A [Pokemon] object is its [_bytes]; a [Side] has its [_bytes] and the
    tuple [team] of the six [Pokemon] built over slices of them. *)
Record Side : Type := mkSide {
  Side_bytes : cdata;
  Side_team : list cdata
}.

Section Side.
Variable D : StaticData.
Variable L : Layout.

(** [Pokemon.new] *)
Definition Pokemon_new (initial_data : PokemonInitializer) : HeapM cdata :=
  (p <- ffi_new (SIZE_Pokemon L) ;;
   heap_lift (Pokemon___init__ L (c_len p)) ;;;
   via p (Pokemon_initialize D L initial_data) ;;;
   heap_ret p)%heap.

(** The loop [for _ in range(6)] of [Side.__init__]. *)
Fixpoint Side_slices (_bytes : cdata) (n : nat) (offset : nat)
  : res (list cdata * nat) :=
  match n with
  | O => Ok ([], offset)
  | S n' =>
      (p <- cdata_slice _bytes offset (offset + SIZE_Pokemon L) ;;
       _ <- Pokemon___init__ L (c_len p) ;;
       rest <- Side_slices _bytes n' (offset + SIZE_Pokemon L) ;;
       Ok (p :: fst rest, snd rest))%res
  end.

(** [Side.__init__] *)
Definition Side___init__ (_bytes : cdata) : res Side :=
  (r <- Side_slices _bytes 6 (Side_pokemon L) ;;
   _ <- py_assert (snd r =? Side_active L)%nat "active" ;;
   Ok (mkSide _bytes (fst r)))%res.

(** [for i, pokemon_data in enumerate(team)]: initialise [self.team[i]]. *)
Fixpoint Side_init_team (self : Side) (i : nat) (team : list PokemonInitializer)
  (order : list Z) : HeapM (list Z) :=
  match team with
  | [] => heap_ret order
  | pokemon_data :: team' =>
      (p <- heap_lift (py_nth (Side_team self) i) ;;
       via p (Pokemon_initialize D L pokemon_data) ;;;
       Side_init_team self (S i) team' (order ++ [Z.of_nat i + 1]))%heap
  end.

(** [for i, slot in enumerate(order)] *)
Fixpoint Side_write_order (self : Side) (i : nat) (order : list Z)
  : HeapM unit :=
  match order with
  | [] => heap_ret tt
  | slot :: order' =>
      (via (Side_bytes self) (setitem (Side_order L + i) slot) ;;;
       Side_write_order self (S i) order')%heap
  end.

Definition Side_set_move (self : Side) (offset : nat) (name : option string)
  : HeapM unit :=
  match name with
  | Some n =>
      (id <- heap_lift (dict_get (MOVE_IDS D) n) ;;
       via (Side_bytes self) (setitem offset id))%heap
  | None => heap_ret tt
  end.

(** [Side.initialize] *)
Definition Side_initialize (self : Side) (data : SideInitializer)
  : HeapM unit :=
  (team <-
     match data with
     | SideDict team last_selected_move last_used_move =>
         Side_set_move self (Side_last_selected_move L) last_selected_move ;;;
         Side_set_move self (Side_last_used_move L) last_used_move ;;;
         heap_ret team
     | SideList team => heap_ret team
     end ;;
   order <- Side_init_team self 0 team [] ;;
   Side_write_order self 0 order)%heap.

(** [Side.new] *)
Definition Side_new (data : SideInitializer) : HeapM Side :=
  (b <- ffi_new (SIZE_Side L) ;;
   side <- heap_lift (Side___init__ b) ;;
   Side_initialize side data ;;;
   heap_ret side)%heap.

Definition Side_last_used_move_reader (h : heap) (self : Side) : res string :=
  (id <- getitem (contents h (Side_bytes self)) (Side_last_used_move L) ;;
   lookup_get (MOVE_ID_LOOKUP D) id)%res.

Definition Side_last_selected_move_reader (h : heap) (self : Side)
  : res string :=
  (id <- getitem (contents h (Side_bytes self)) (Side_last_selected_move L) ;;
   lookup_get (MOVE_ID_LOOKUP D) id)%res.

End Side.

(** What [Side.__init__] asserts of the layout, and the place of the order
    array: six [Pokemon] from [Side_pokemon] up to [Side_active], the six
    order bytes after them, all inside the side. *)
Definition Side_layout_ok (L : Layout) : Prop :=
  (Side_active L = Side_pokemon L + 6 * SIZE_Pokemon L /\
   Side_active L <= Side_order L /\
   Side_order L + 6 <= SIZE_Side L)%nat.

(** The window of slot [i] in the bytes of a side. *)
Definition slot_bytes (L : Layout) (side_bytes : list Z) (i : nat) : list Z :=
  take (SIZE_Pokemon L) (drop (Side_pokemon L + i * SIZE_Pokemon L) side_bytes).

(** ** Bit strings ([bitstring.Bits])

    A [Bits] value is its sequence of bits, first bit first. *)

Definition Bits : Type := list bool.

(** The [n] low bits of [v], most significant first. *)
Definition uint_bits (v : Z) (n : nat) : Bits :=
  map (fun i => Z.testbit v (Z.of_nat i)) (rev (seq 0 n)).

(** [Bits(bool=b)] *)
Definition Bits_bool (b : bool) : Bits := [b].

(** [Bits(uint=v, length=n)]: refused when [v] does not fit in [n] bits. *)
Definition Bits_uint (v : Z) (n : nat) : res Bits :=
  if (0 <=? v) && (v <? 2 ^ Z.of_nat n) then Ok (uint_bits v n)
  else Raise CreationError.

(** [Bits(bytes)] *)
Definition Bits_bytes (bs : list Z) : Bits :=
  concat (map (fun b => uint_bits b 8) bs).

(** The [k] bytes of [v], least significant first. *)
Fixpoint le_bytes (v : Z) (k : nat) : list Z :=
  match k with
  | O => []
  | S k' => Z.land v 255 :: le_bytes (Z.shiftr v 8) k'
  end.

(** [Bits(uintne=v, length=n)]: whole bytes in the byte order of the host,
    which is taken little-endian. *)
Definition Bits_uintne (v : Z) (n : nat) : res Bits :=
  if (n mod 8 =? 0)%nat && (0 <=? v) && (v <? 2 ^ Z.of_nat n)
  then Ok (Bits_bytes (le_bytes v (n / 8)))
  else Raise CreationError.

(** [Bits().join(parts)] *)
Definition Bits_join (parts : list Bits) : Bits := concat parts.

Fixpoint bits_value (bs : list bool) (acc : Z) : Z :=
  match bs with
  | [] => acc
  | b :: bs' => bits_value bs' (2 * acc + (if b then 1 else 0))
  end.

(** [bits.tobytes()]: the last byte is padded with zero bits. *)
Fixpoint Bits_tobytes_fuel (fuel : nat) (bs : Bits) : list Z :=
  match fuel, bs with
  | O, _ => []
  | _, [] => []
  | S fuel', _ =>
      bits_value (take 8 (bs ++ replicate 7 false)) 0
      :: Bits_tobytes_fuel fuel' (drop 8 bs)
  end.

Definition Bits_tobytes (bs : Bits) : list Z :=
  Bits_tobytes_fuel (length bs) bs.

(** Sequencing the parts of a [join]: they are built left to right. *)
Fixpoint res_all {A} (parts : list (res A)) : res (list A) :=
  match parts with
  | [] => Ok []
  | p :: parts' => (x <- p ;; xs <- res_all parts' ;; Ok (x :: xs))%res
  end.

(** ** [Volatiles] *)

Record Volatiles : Type := mkVolatiles {
  Bide : bool;
  Thrashing : bool;
  MultiHit : bool;
  Flinch : bool;
  Charging : bool;
  Binding : bool;
  Invulnerable : bool;
  Confusion : bool;
  Mist : bool;
  FocusEnergy : bool;
  Substitute : bool;
  Recharging : bool;
  Rage : bool;
  LeechSeed : bool;
  Toxic : bool;
  LightScreen : bool;
  Reflect : bool;
  Transform : bool;
  confusion : Z;
  attacks : Z;
  state : Z;
  substitute : Z;
  transform : Z;
  disabled_duration : Z;
  disabled_move : Z;
  toxic : Z
}.

(** [Volatiles._to_bits] *)
Definition Volatiles__to_bits (self : Volatiles) : res Bits :=
  (parts <- res_all [
     Ok (Bits_bool (Bide self));
     Ok (Bits_bool (Thrashing self));
     Ok (Bits_bool (MultiHit self));
     Ok (Bits_bool (Flinch self));
     Ok (Bits_bool (Charging self));
     Ok (Bits_bool (Binding self));
     Ok (Bits_bool (Invulnerable self));
     Ok (Bits_bool (Confusion self));
     Ok (Bits_bool (Mist self));
     Ok (Bits_bool (FocusEnergy self));
     Ok (Bits_bool (Substitute self));
     Ok (Bits_bool (Recharging self));
     Ok (Bits_bool (Rage self));
     Ok (Bits_bool (LeechSeed self));
     Ok (Bits_bool (Toxic self));
     Ok (Bits_bool (LightScreen self));
     Ok (Bits_bool (Reflect self));
     Ok (Bits_bool (Transform self));
     Bits_uint (confusion self) 3;
     Bits_uint (attacks self) 3;
     Bits_uintne (state self) 16;
     Bits_uintne (substitute self) 8;
     Bits_uint (transform self) 4;
     Bits_uint (disabled_duration self) 4;
     Bits_uint (disabled_move self) 3;
     Bits_uint (toxic self) 5
   ] ;;
   let bits := Bits_join parts in
   _ <- py_assert (length bits =? 8 * 8)%nat
          "Volatiles should be 64 bits long." ;;
   Ok bits)%res.

(** Every counter fits the width its field is packed with. *)
Definition Volatiles_fits (v : Volatiles) : Prop :=
  0 <= confusion v < 8 /\ 0 <= attacks v < 8 /\ 0 <= state v < 65536 /\
  0 <= substitute v < 256 /\ 0 <= transform v < 16 /\
  0 <= disabled_duration v < 16 /\ 0 <= disabled_move v < 8 /\
  0 <= toxic v < 32.

(** The 64-bit record the fields of a [Volatiles] make up, in declaration
    order: eighteen flags, then the counters at their widths. *)
Definition Volatiles_record (v : Volatiles) : Bits :=
  [Bide v; Thrashing v; MultiHit v; Flinch v; Charging v; Binding v;
   Invulnerable v; Confusion v; Mist v; FocusEnergy v; Substitute v;
   Recharging v; Rage v; LeechSeed v; Toxic v; LightScreen v; Reflect v;
   Transform v]
  ++ uint_bits (confusion v) 3 ++ uint_bits (attacks v) 3
  ++ Bits_bytes (le_bytes (state v) 2) ++ Bits_bytes (le_bytes (substitute v) 1)
  ++ uint_bits (transform v) 4 ++ uint_bits (disabled_duration v) 4
  ++ uint_bits (disabled_move v) 3 ++ uint_bits (toxic v) 5.

(** ** [ShowdownRNG], [Battle] and the engine

    [lib] is the compiled engine: its functions and constants are
    parameters. *)

Record ShowdownRNG : Type := mkRNG { _psrng : list Z }.

Inductive Player : Type := P1 | P2.

Record Choice : Type := mkChoice { _pkmn_choice : Z }.

Record Battle : Type := mkBattle {
  _pkmn_battle : list Z;
  _bits : Bits
}.

(** The attributes [rng.py] gives a [ShowdownRNG]: the instance attribute
    [_psrng] and the two methods of the class. *)
Inductive RNG_attr : Type := RNG__psrng | RNG___init__ | RNG_next.

(** [rng.<name>] for the names [rng.py] and [gen1.py] use. *)
Definition ShowdownRNG_getattr (name : string) : res RNG_attr :=
  if String.eqb name "_psrng" then Ok RNG__psrng
  else if String.eqb name "__init__" then Ok RNG___init__
  else if String.eqb name "next" then Ok RNG_next
  else Raise (AttributeError "ShowdownRNG" name).

(** [_pack_move_indexes] *)
Definition _pack_move_indexes (p1 p2 : Z) : res Bits :=
  let length := 16%nat in
  (parts <- res_all [Bits_uintne p1 length; Bits_uintne p2 length] ;;
   Ok (Bits_join parts))%res.

Section Engine.
Variable pkmn_psrng_init : Z -> list Z.
Variable pkmn_psrng_next : list Z -> Z * list Z.
Variable PKMN_GEN1_BATTLE_SIZE : nat.
Variable PKMN_OPTIONS_SIZE : nat.
(** [pkmn_gen1_battle_choices battle player request len]: the number of
    choices (a [uint8_t]) and what the engine wrote to [out]. *)
Variable pkmn_gen1_battle_choices : list Z -> Z -> Z -> nat -> nat * list Z.
Variable Result : Type.
Variable ChoiceType : Type.
Variable p1_choice_type : Result -> ChoiceType.
Variable p2_choice_type : Result -> ChoiceType.
Variable ChoiceType_value : ChoiceType -> Z.
Variable Player_value : Player -> Z.

(** [ShowdownRNG.__init__] *)
Definition ShowdownRNG___init__ (seed : Z) : ShowdownRNG :=
  mkRNG (pkmn_psrng_init seed).

(** [ShowdownRNG.next]: the number, and the generator advanced. *)
Definition ShowdownRNG_next (self : ShowdownRNG) : Z * ShowdownRNG :=
  let '(n, s) := pkmn_psrng_next (_psrng self) in (n, mkRNG s).

(** [rng._to_bits()]: the attribute is looked up on the object, then called
    without arguments.  None of the three attributes the object has gives a
    bit string that way: [_psrng] is not callable, [__init__] lacks its
    argument and [next()] is an integer. *)
Definition ShowdownRNG__to_bits (rng : ShowdownRNG) : res Bits :=
  (a <- ShowdownRNG_getattr "_to_bits" ;;
   match a with
   | RNG__psrng => Raise TypeError
   | RNG___init__ => Raise TypeError
   | RNG_next => Raise TypeError
   end)%res.

(** [Battle.__init__]; [h] is the store the two sides live in. *)
Definition Battle___init__ (h : heap) (p1_side p2_side : Side)
  (start_turn last_damage p1_move_idx p2_move_idx : Z) (rng : ShowdownRNG)
  : res Battle :=
  (parts <- res_all [
     Ok (Bits_bytes (contents h (Side_bytes p1_side)));
     Ok (Bits_bytes (contents h (Side_bytes p2_side)));
     Bits_uintne start_turn 16;
     Bits_uintne last_damage 16;
     _pack_move_indexes p1_move_idx p2_move_idx;
     ShowdownRNG__to_bits rng
   ] ;;
   let battle_data := Bits_join parts in
   _ <- py_assert (length battle_data =? PKMN_GEN1_BATTLE_SIZE * 8)%nat
          "The battle data has the wrong length." ;;
   Ok (mkBattle (Bits_tobytes battle_data) battle_data))%res.

(** [for i in range(num_choices): choices.append(Choice(raw_choices[i]))] *)
Fixpoint collect_choices (raw_choices : list Z) (idxs : list nat)
  : res (list Choice) :=
  match idxs with
  | [] => Ok []
  | i :: idxs' =>
      (c <- py_nth raw_choices i ;;
       rest <- collect_choices raw_choices idxs' ;;
       Ok (mkChoice c :: rest))%res
  end.

(** [requested_kind]: the choice type the previous result asks of the
    player. *)
Definition requested_kind (player : Player) (previous_turn_result : Result)
  : ChoiceType :=
  match player with
  | P1 => p1_choice_type previous_turn_result
  | P2 => p2_choice_type previous_turn_result
  end.

(** [raw_choices] after the call: an array of [PKMN_OPTIONS_SIZE] items,
    zero-filled by [ffi.new], that the engine filled from the front. *)
Definition raw_choices_after (written : list Z) : list Z :=
  take PKMN_OPTIONS_SIZE (written ++ replicate PKMN_OPTIONS_SIZE 0).

(** [Battle.possible_choices] *)
Definition Battle_possible_choices (self : Battle) (player : Player)
  (previous_turn_result : Result) : res (list Choice) :=
  let '(num_choices, written) :=
    pkmn_gen1_battle_choices (_pkmn_battle self) (Player_value player)
      (ChoiceType_value (requested_kind player previous_turn_result))
      PKMN_OPTIONS_SIZE in
  let raw_choices := raw_choices_after written in
  if (num_choices =? 0)%nat
  then Raise (Softlock "Zero choices are available.")
  else collect_choices raw_choices (seq 0 num_choices).

End Engine.

(** ** The protocol parser *)

Module Protocol.

(** Modelled from the spec: a per-message decoder of
    [pykmn/engine/protocol.py], which is not among the sources.  A decoder
    consumes a message-specific number of bytes after the message-type
    byte: [fixed_args] of them, then the [trailing_args] that the reason
    byte among those selects; it renders one line, or none. *)
Record Decoder : Type := mkDecoder {
  fixed_args : nat;
  trailing_args : list Z -> nat;
  render : list Z -> list Z -> res (option string)
}.

(** Argument [i] of a message whose bytes have been taken. *)
Definition arg (args : list Z) (i : nat) : Z := default 0 (args !! i).

(** Modelled from the spec: the participant reference.  An identifier byte
    encodes a (player, team-slot) pair and is rendered
    [p{1|2}a: Pokémon #{slot}]; bit 3 selects the player. *)
Definition ident (b : Z) : string :=
  ("p" ++ (if (Z.land b 8 =? 0)%Z then "1" else "2") ++ "a: Pokémon #"
   ++ pretty (Z.land b 7))%string.

(** Modelled from the spec: the status suffix of an HP value, one of the
    abbreviations [tox], [brn], [slp], [par], [frz], [psn] after a space,
    read off the status byte (bit 7, bit 4, the sleep counter in the low
    three bits, bit 6, bit 5, bit 3), or nothing for a healthy status. *)
Definition status_suffix (status : Z) : string :=
  if Z.testbit status 7 then " tox"
  else if Z.testbit status 4 then " brn"
  else if negb (Z.land status 7 =? 0)%Z then " slp"
  else if Z.testbit status 6 then " par"
  else if Z.testbit status 5 then " frz"
  else if Z.testbit status 3 then " psn"
  else "".

(** Modelled from the spec: numeric HP values are rendered [current/max],
    each a 16-bit little-endian counter, followed by the status suffix. *)
Definition hp_text (lo hi max_lo max_hi status : Z) : string :=
  (pretty (unpack_u16_from_bytes lo hi) ++ "/"
   ++ pretty (unpack_u16_from_bytes max_lo max_hi)
   ++ status_suffix status)%string.

(** Modelled from the spec: what a [Cant] message gives as its cause, by
    reason byte; the tests of [src/tests] pin [Disable] at 5, followed by
    the id of the disabled move, and [nopp] at 7. *)
Definition Cant_reasons : list string :=
  ["slp"; "frz"; "par"; "partiallytrapped"; "flinch"; "Disable"; "recharge";
   "nopp"]%string.

(** Modelled from the spec: the [[from]] annotation of a [Damage] message,
    by reason byte; the tests of [src/tests] pin none at 0, [confusion] at 3
    and [recoil] at 5, the last followed by the identifier of its source. *)
Definition Damage_reasons : list string :=
  [""; "psn"; "brn"; "confusion"; "Leech Seed"; "recoil"]%string.

(** Modelled from the spec: the annotation of a [Heal] message, by reason
    byte; the tests of [src/tests] pin none at 0, [[silent]] at 1 and
    [[from] drain] at 2, the last followed by the identifier of its
    source. *)
Definition Heal_reasons : list string :=
  [""; "|[silent]"; "|[from] drain"]%string.

Section Parser.
(** [pykmn.data.protocol.MESSAGES]: the message-type byte is an index into
    this table of message names. *)
Variable MESSAGES : list string.
Variable MOVE_ID_LOOKUP : gmap Z string.
Variable SPECIES_ID_LOOKUP : gmap Z string.
(** The decoders of the message types whose argument layout the
    specification leaves open (status changes, boosts, field effects, the
    markers): they are parameters of the parser. *)
Variable open_decoder : string -> Decoder.

(** Modelled from the spec: [Move]: source, move id, target, reason; the
    reason 1 is followed by the id of the move it comes from. *)
Definition Move_decoder : Decoder :=
  mkDecoder 4
    (fun args => if arg args 3 =? 1 then 1%nat else 0%nat)
    (fun args more =>
       (move <- lookup_get MOVE_ID_LOOKUP (arg args 1) ;;
        let line := ("|move|" ++ ident (arg args 0) ++ "|" ++ move ++ "|"
                     ++ ident (arg args 2))%string in
        if arg args 3 =? 1 then
          from <- lookup_get MOVE_ID_LOOKUP (arg more 0) ;;
          Ok (Some (line ++ "|[from] " ++ from)%string)
        else Ok (Some line))%res).

(** Modelled from the spec: [Switch]: identifier, species id, level, HP,
    maximum HP (16 bits each) and status. *)
Definition Switch_decoder : Decoder :=
  mkDecoder 8 (fun _ => 0%nat)
    (fun args _ =>
       (species <- lookup_get SPECIES_ID_LOOKUP (arg args 1) ;;
        Ok (Some ("|switch|" ++ ident (arg args 0) ++ "|" ++ species
                  ++ ", L" ++ pretty (arg args 2) ++ "|"
                  ++ hp_text (arg args 3) (arg args 4) (arg args 5)
                       (arg args 6) (arg args 7))%string))%res).

(** Modelled from the spec: [Cant]: identifier and reason; the reason
    [Disable] is followed by the id of the disabled move. *)
Definition Cant_decoder : Decoder :=
  mkDecoder 2
    (fun args => if arg args 1 =? 5 then 1%nat else 0%nat)
    (fun args more =>
       (reason <- (if 0 <=? arg args 1
                   then py_nth Cant_reasons (Z.to_nat (arg args 1))
                   else Raise IndexError) ;;
        let line := ("|cant|" ++ ident (arg args 0) ++ "|" ++ reason)%string in
        if arg args 1 =? 5 then
          move <- lookup_get MOVE_ID_LOOKUP (arg more 0) ;;
          Ok (Some (line ++ "|" ++ move)%string)
        else Ok (Some line))%res).

(** Modelled from the spec: [Faint]: the identifier. *)
Definition Faint_decoder : Decoder :=
  mkDecoder 1 (fun _ => 0%nat)
    (fun args _ => Ok (Some ("|faint|" ++ ident (arg args 0))%string)).

(** Modelled from the spec: [Turn]: the 16-bit turn number. *)
Definition Turn_decoder : Decoder :=
  mkDecoder 2 (fun _ => 0%nat)
    (fun args _ =>
       Ok (Some ("|turn|"
                 ++ pretty (unpack_u16_from_bytes (arg args 0) (arg args 1)))
                 %string)).

(** Modelled from the spec: [Win]: the player, 0 for the first. *)
Definition Win_decoder : Decoder :=
  mkDecoder 1 (fun _ => 0%nat)
    (fun args _ =>
       Ok (Some ("|win|p" ++ (if (arg args 0 =? 0)%Z then "1" else "2"))
                 %string)).

(** Modelled from the spec: [Tie]: no argument. *)
Definition Tie_decoder : Decoder :=
  mkDecoder 0 (fun _ => 0%nat) (fun _ _ => Ok (Some "|tie"%string)).

(** Modelled from the spec: [Damage]: identifier, HP, maximum HP, status
    and reason; the reason [recoil] is followed by the identifier of the
    Pokémon it comes from. *)
Definition Damage_decoder : Decoder :=
  mkDecoder 7
    (fun args => if arg args 6 =? 5 then 1%nat else 0%nat)
    (fun args more =>
       (reason <- (if 0 <=? arg args 6
                   then py_nth Damage_reasons (Z.to_nat (arg args 6))
                   else Raise IndexError) ;;
        let line := ("|-damage|" ++ ident (arg args 0) ++ "|"
                     ++ hp_text (arg args 1) (arg args 2) (arg args 3)
                          (arg args 4) (arg args 5)
                     ++ (if String.eqb reason "" then ""
                         else "|[from] " ++ reason))%string in
        Ok (Some (if arg args 6 =? 5
                  then (line ++ "|[of] " ++ ident (arg more 0))%string
                  else line)))%res).

(** Modelled from the spec: [Heal]: identifier, HP, maximum HP, status and
    reason; the reason [drain] is followed by the identifier of the Pokémon
    it comes from. *)
Definition Heal_decoder : Decoder :=
  mkDecoder 7
    (fun args => if arg args 6 =? 2 then 1%nat else 0%nat)
    (fun args more =>
       (reason <- (if 0 <=? arg args 6
                   then py_nth Heal_reasons (Z.to_nat (arg args 6))
                   else Raise IndexError) ;;
        let line := ("|-heal|" ++ ident (arg args 0) ++ "|"
                     ++ hp_text (arg args 1) (arg args 2) (arg args 3)
                          (arg args 4) (arg args 5)
                     ++ reason)%string in
        Ok (Some (if arg args 6 =? 2
                  then (line ++ "|[of] " ++ ident (arg more 0))%string
                  else line)))%res).

(** Modelled from the spec: [SuperEffective]: the identifier. *)
Definition SuperEffective_decoder : Decoder :=
  mkDecoder 1 (fun _ => 0%nat)
    (fun args _ =>
       Ok (Some ("|-supereffective|" ++ ident (arg args 0))%string)).

(** Modelled from the spec: the dispatch on the message type: the ten
    messages whose layout the specification and the tests of [src/tests]
    fix, and the open ones. *)
Definition decoder_of (name : string) : Decoder :=
  if String.eqb name "Move" then Move_decoder
  else if String.eqb name "Switch" then Switch_decoder
  else if String.eqb name "Cant" then Cant_decoder
  else if String.eqb name "Faint" then Faint_decoder
  else if String.eqb name "Turn" then Turn_decoder
  else if String.eqb name "Win" then Win_decoder
  else if String.eqb name "Tie" then Tie_decoder
  else if String.eqb name "Damage" then Damage_decoder
  else if String.eqb name "Heal" then Heal_decoder
  else if String.eqb name "SuperEffective" then SuperEffective_decoder
  else open_decoder name.

(** Modelled from the spec: the cursor takes [n] bytes, and fewer than [n]
    remaining bytes is [TruncatedTrace]. *)
Definition take_bytes (n : nat) (trace : list Z) : res (list Z * list Z) :=
  if (n <=? length trace)%nat then Ok (take n trace, drop n trace)
  else Raise TruncatedTrace.

(** Modelled from the spec: decoding one message: its bytes are taken
    first, the fixed ones and then the ones the reason byte selects, never
    more; then the line is rendered. *)
Definition decode_message (name : string) (trace : list Z)
  : res (option string * list Z) :=
  let d := decoder_of name in
  (args <- take_bytes (fixed_args d) trace ;;
   more <- take_bytes (trailing_args d (fst args)) (snd args) ;;
   line <- render d (fst args) (fst more) ;;
   Ok (line, snd more))%res.

(** Modelled from the spec: the state machine of [parse_protocol]: read one
    message-type byte, dispatch, repeat until the cursor reaches the end of
    the trace.  Every round consumes at least one byte, so the length of the
    trace bounds the number of rounds. *)
Fixpoint parse_rounds (rounds : nat) (trace : list Z) : res (list string) :=
  match rounds, trace with
  | _, [] => Ok []
  | O, _ :: _ => Ok []
  | S rounds', kind :: trace' =>
      (name <- (if 0 <=? kind then py_nth MESSAGES (Z.to_nat kind)
                else Raise IndexError) ;;
       m <- decode_message name trace' ;;
       lines <- parse_rounds rounds' (snd m) ;;
       Ok (match fst m with
           | Some line => line :: lines
           | None => lines
           end))%res
  end.

Definition parse_protocol (trace : list Z) : res (list string) :=
  parse_rounds (length trace) trace.

(** The message of type [name] is cut short by the end of the trace: fewer
    bytes follow its type byte than the message requires. *)
Definition cut_short (name : string) (rest : list Z) : Prop :=
  let d := decoder_of name in
  (length rest < fixed_args d)%nat
  \/ (length rest
      < fixed_args d + trailing_args d (take (fixed_args d) rest))%nat.

End Parser.

End Protocol.

(** The engine's message table, for the executable examples. *)
Definition sample_messages : list string :=
  ["None"; "LastStill"; "LastMiss"; "Move"; "Switch"; "Cant"; "Faint";
   "Turn"; "Win"; "Tie"; "Damage"; "Heal"; "Status"; "CureStatus"; "Boost";
   "ClearAllBoost"; "Fail"; "Miss"; "HitCount"; "Prepare"; "MustRecharge";
   "Activate"; "FieldActivate"; "Start"; "End"; "OHKO"; "Crit";
   "SuperEffective"; "Resisted"; "Immune"; "Transform"]%string.

(** The move and species names the tests of the parser use. *)
Definition sample_move_names : gmap Z string :=
  list_to_map [(94, "Psychic"); (118, "Metronome"); (126, "Fire Blast");
               (151, "Acid Armor")]%string.

Definition sample_species_names : gmap Z string :=
  list_to_map [(6, "Charizard"); (151, "Mew")]%string.

(** A stand-in for the open decoders: no argument, no line. *)
Definition silent_decoder : string -> Protocol.Decoder :=
  fun _ => Protocol.mkDecoder 0 (fun _ => 0%nat) (fun _ _ => Ok None).

(** The parser on the example tables. *)
Definition sample_parse (trace : list Z) : res (list string) :=
  Protocol.parse_protocol sample_messages sample_move_names
    sample_species_names silent_decoder trace.

(** ** Tables for the executable examples *)

(** The layout the assertions of [gen1.py] are written for: a 24-byte
    [Pokemon], six of them at the start of a 184-byte [Side]. *)
Definition gen1_layout : Layout :=
  mkLayout 0 10 18 20 21 22 23 0 144 176 182 183 24 184.

(** An excerpt of the static tables: the entries the tests of [src/tests]
    name, with [None] as entry 0 of the moves and of the species.  [gen1.py]
    relies on both entries: [initialize] looks [SPECIES_IDS['None']] up for
    the species [None], and gives a move whose id is 0 the PP 0 under the
    comment "None move". *)
Definition sample_data : StaticData :=
  mkStatic
    (list_to_map [("None", 0); ("Psychic", 94); ("Metronome", 118);
                  ("Fire Blast", 126)]%string)
    (list_to_map [("Psychic", 10); ("Metronome", 10);
                  ("Fire Blast", 5)]%string)
    (list_to_map
       [("Charizard", mkSpecies (mkStats 78 84 78 100 85) ["Fire"; "Flying"]);
        ("Mew", mkSpecies (mkStats 100 100 100 100 100) ["Psychic"])]%string)
    (list_to_map [("None", 0); ("Charizard", 6); ("Mew", 151)]%string)
    ["Normal"; "Fighting"; "Flying"; "Poison"; "Ground"; "Rock"; "Bug";
     "Ghost"; "Fire"; "Water"; "Grass"; "Electric"; "Psychic"; "Ice";
     "Dragon"]%string
    (list_to_map [(0, "None"); (94, "Psychic"); (118, "Metronome");
                  (126, "Fire Blast")]%string)
    (list_to_map [(0, "None"); (6, "Charizard"); (151, "Mew")]%string).

(** A [Volatiles] with every counter in range. *)
Definition sample_volatiles : Volatiles :=
  mkVolatiles true false false false false false false true false false true
    false false false true false false false 5 2 40000 37 3 4 2 17.

(** The initializers of the examples. *)
Definition mew_stats : Gen1StatData := mkStats 300 200 210 220 230.

Definition mew_explicit (names : list string) (move_pp : list Z)
  : PokemonInitializer :=
  mkInit "Mew" names
    (Some (mkExtra (Some 250) (Some 8) (Some 50) (Some mew_stats)
             (Some ("Psychic", "Normal")%string) (Some move_pp) None None)).

(** A team of two on the example tables. *)
Definition sample_team : list PokemonInitializer :=
  [mkInit "Mew" ["Psychic"; "Metronome"] None;
   mkInit "Charizard" ["Fire Blast"] None].

(** An engine that always answers with the same count and choices. *)
Definition constant_engine (n : nat) (written : list Z)
  : list Z -> Z -> Z -> nat -> nat * list Z :=
  fun _ _ _ _ => (n, written).

(** ** Checks that are settled by evaluation on a whole range *)

Definition u16_roundtrip_at (n : Z) : bool :=
  match pack_u16_as_bytes n with
  | [a; b] => unpack_u16_from_bytes a b =? n
  | _ => false
  end.

Definition u4s_roundtrip_at (n : Z) : bool :=
  let a := n / 16 in
  let b := n mod 16 in
  let byte := pack_two_u4s a b in
  is_byte byte && (fst (unpack_two_u4s byte) =? a)
  && (snd (unpack_two_u4s byte) =? b).

(** ** [Move] *)

Record Move : Type := mkMove {
  Move_name : string;
  Move_id : Z
}.

(** [Bits(int=v, length=n)]: two's complement on [n] bits, refused when [v]
    is not in [-2^(n-1), 2^(n-1))]. *)
Definition Bits_int (v : Z) (n : nat) : res Bits :=
  if (- 2 ^ (Z.of_nat n - 1) <=? v) && (v <? 2 ^ (Z.of_nat n - 1))
  then Ok (uint_bits v n)
  else Raise CreationError.

(** [Bits(intne=v, length=n)]: whole bytes of the two's complement, in the
    byte order of the host, taken little-endian as for [uintne]. *)
Definition Bits_intne (v : Z) (n : nat) : res Bits :=
  if (n mod 8 =? 0)%nat && (- 2 ^ (Z.of_nat n - 1) <=? v)
     && (v <? 2 ^ (Z.of_nat n - 1))
  then Ok (Bits_bytes (le_bytes v (n / 8)))
  else Raise CreationError.

Section Moves.
Variable D : StaticData.

(** [Move.__init__] *)
Definition Move___init__ (name : string) : res Move :=
  match MOVE_IDS D !! name with
  | None => Raise (ValueError "is not a valid move in Generation I.")
  | Some id => Ok (mkMove name id)
  end.

(** [Move._to_bits] *)
Definition Move__to_bits (self : Move) : res Bits :=
  Bits_uintne (Move_id self) 8.

(** [Move._to_slot_bits] *)
Definition Move__to_slot_bits (self : Move) (pp : option Z) : res Bits :=
  (pp <- match pp with
         | Some pp => Ok pp
         | None =>
             base <- dict_get (MOVES D) (Move_name self) ;;
             q <- Float.int_truediv (base * 8) 5 ;;
             Float.math_trunc q
         end ;;
   parts <- res_all [Move__to_bits self; Bits_uintne pp 8] ;;
   Ok (Bits_join parts))%res.

(** The function [moves] of the module: [Move(move) for move in args]. *)
Fixpoint moves (args : list string) : res (list Move) :=
  match args with
  | [] => Ok []
  | move :: args' =>
      (m <- Move___init__ move ;;
       ms <- moves args' ;;
       Ok (m :: ms))%res
  end.

End Moves.

(** ** [Boosts] *)

Record Boosts : Type := mkBoosts {
  attack : Z;
  defense : Z;
  speed : Z;
  special : Z;
  accuracy : Z;
  evasion : Z
}.

(** [Boosts._to_bits] *)
Definition Boosts__to_bits (self : Boosts) : res Bits :=
  (parts <- res_all [
     Bits_int (attack self) 4;
     Bits_int (defense self) 4;
     Bits_int (speed self) 4;
     Bits_int (special self) 4;
     Bits_int (accuracy self) 4;
     Bits_int (evasion self) 4;
     Bits_intne 0 8
   ] ;;
   Ok (Bits_join parts))%res.

(** Every boost fits a signed nibble. *)
Definition Boosts_fits (b : Boosts) : Prop :=
  -8 <= attack b < 8 /\ -8 <= defense b < 8 /\ -8 <= speed b < 8 /\
  -8 <= special b < 8 /\ -8 <= accuracy b < 8 /\ -8 <= evasion b < 8.

(** The value of nibble [i] of a bit string, read as an unsigned number. *)
Definition nibble (bits : Bits) (i : nat) : Z :=
  bits_value (take 4 (drop (4 * i) bits)) 0.

(** ** [_pack_stats] *)

Definition _pack_stats (stats : Gen1StatData) : res Bits :=
  (parts <- res_all [
     Bits_uintne (st_hp stats) 16;
     Bits_uintne (st_atk stats) 16;
     Bits_uintne (st_def stats) 16;
     Bits_uintne (st_spe stats) 16;
     Bits_uintne (st_spc stats) 16
   ] ;;
   let bits := Bits_join parts in
   _ <- py_assert (length bits =? 10 * 8)%nat "Stats length" ;;
   Ok bits)%res.

(** Every stat fits 16 bits. *)
Definition stats_fit (s : Gen1StatData) : Prop :=
  0 <= st_hp s < 65536 /\ 0 <= st_atk s < 65536 /\ 0 <= st_def s < 65536 /\
  0 <= st_spe s < 65536 /\ 0 <= st_spc s < 65536.

(** ** Predicates on buffer computations and further range checks *)

(** A buffer computation that leaves the length of the buffer alone,
    whether it returns or raises. *)
Definition keeps_length {A} (m : BufM A) : Prop :=
  forall b : list Z, length (snd (m b)) = length b.

(** On [base], [math.floor(base * 8 / 5)] and [math.trunc(base * 8 / 5)] are
    both the integer quotient. *)
Definition default_pp_agrees (base : Z) : bool :=
  match Float.int_truediv (base * 8) 5 with
  | Ok q =>
      match Float.math_floor q, Float.math_trunc q with
      | Ok f, Ok t => (f =? base * 8 / 5) && (t =? base * 8 / 5)
      | _, _ => false
      end
  | Raise _ => false
  end.

(** The [n] bits of [v] read back as an unsigned number give [v]. *)
Definition uint_roundtrip_at (n : nat) (v : Z) : bool :=
  bits_value (uint_bits v n) 0 =? v.

(** The nibble of a signed [v] read back unsigned is [v] modulo 16. *)
Definition nibble_roundtrip_at (v : Z) : bool :=
  bits_value (uint_bits v 4) 0 =? v mod 16.

(** The 16-bit range of a field of [Battle.__init__]. *)
Definition fits16 (v : Z) : bool := (0 <=? v) && (v <? 65536).

(** A layout whose two last-move bytes of a side lie after the order array. *)
Definition Side_moves_layout_ok (L : Layout) : Prop :=
  (Side_order L + 6 <= Side_last_selected_move L /\
   Side_order L + 6 <= Side_last_used_move L /\
   Side_last_selected_move L <> Side_last_used_move L /\
   Side_last_selected_move L < SIZE_Side L /\
   Side_last_used_move L < SIZE_Side L)%nat.

(** * Properties *)

(** ** Checking a property on a range by evaluation *)

Lemma check_range_iter (f : Z -> bool) (lo : Z) (n : N) :
  let r := N.iter n (fun p => (fst p + 1, snd p && f (fst p))) (lo, true) in
  fst r = lo + Z.of_N n /\
  (snd r = true <-> forall z, lo <= z < lo + Z.of_N n -> f z = true).
Proof.
  induction n as [|n IH] using N.peano_ind; cbn zeta.
  - cbn. split; [lia|]. split; [intros _ z Hz; lia | reflexivity].
  - rewrite N.iter_succ. cbn zeta in IH. destruct IH as [IH1 IH2].
    destruct (N.iter n _ _) as [i ok]. cbn [fst snd] in *. subst i.
    split; [lia|]. rewrite andb_true_iff, IH2. split.
    + intros [Hlo Hn] z Hz.
      destruct (Z.eq_dec z (lo + Z.of_N n)) as [->|Hne]; [exact Hn|].
      apply Hlo. lia.
    + intros H. split; [intros z Hz|]; apply H; lia.
Qed.

Lemma check_range_sound (f : Z -> bool) (lo : Z) (n : N) :
  check_range f lo n = true ->
  forall z, lo <= z < lo + Z.of_N n -> f z = true.
Proof. unfold check_range. intros H. by apply check_range_iter. Qed.

(** ** [list.index] *)

Lemma list_index_lookup (x : string) (l : list string) (i : nat) :
  list_index x l = Some i -> l !! i = Some x.
Proof.
  revert i. induction l as [|y l IH]; intros i; cbn; [done|].
  destruct (String.eqb_spec x y) as [->|Hne].
  - by intros [= <-].
  - destruct (list_index x l) as [j|]; [|done]. cbn.
    intros [= <-]. by apply IH.
Qed.

Lemma list_index_lt (x : string) (l : list string) (i : nat) :
  list_index x l = Some i -> (i < length l)%nat.
Proof. intros H. apply list_index_lookup in H. by eapply lookup_lt_Some. Qed.

Lemma list_index_elem_of (x : string) (l : list string) :
  x ∈ l -> exists i, list_index x l = Some i.
Proof.
  induction l as [|y l IH]; [by intros ?%elem_of_nil|].
  intros Hx. cbn. destruct (String.eqb_spec x y) as [->|Hne]; [by eexists|].
  apply elem_of_cons in Hx as [->|Hx]; [done|].
  destruct (IH Hx) as [i ->]. by eexists.
Qed.

(** ** The byte helpers *)

Lemma u16_roundtrip_table : check_range u16_roundtrip_at 0 65536 = true.
Proof. vm_compute. reflexivity. Qed.

Lemma u4s_roundtrip_table : check_range u4s_roundtrip_at 0 256 = true.
Proof. vm_compute. reflexivity. Qed.

Lemma unpack_pack_u16 (n : Z) :
  0 <= n <= 65535 ->
  unpack_u16_from_bytes (Z.land n 255) (Z.land (Z.shiftr n 8) 255) = n.
Proof.
  intros Hn.
  pose proof (check_range_sound _ _ _ u16_roundtrip_table n ltac:(lia)) as H.
  unfold u16_roundtrip_at, pack_u16_as_bytes in H. by apply Z.eqb_eq in H.
Qed.

Lemma unpack_pack_two_u4s (a b : Z) :
  0 <= a < 16 -> 0 <= b < 16 ->
  is_byte (pack_two_u4s a b) = true
  /\ unpack_two_u4s (pack_two_u4s a b) = (a, b).
Proof.
  intros Ha Hb.
  pose proof (check_range_sound _ _ _ u4s_roundtrip_table (a * 16 + b)
                ltac:(lia)) as H.
  unfold u4s_roundtrip_at in H.
  replace ((a * 16 + b) / 16) with a in H
    by (apply (Z.div_unique (a * 16 + b) 16 a b); lia).
  replace ((a * 16 + b) mod 16) with b in H
    by (apply (Z.mod_unique (a * 16 + b) 16 a b); lia).
  apply andb_true_iff in H as [H H3]. apply andb_true_iff in H as [H1 H2].
  apply Z.eqb_eq in H2, H3. split; [done|].
  unfold unpack_two_u4s in *. cbn [fst snd] in *. by rewrite H2, H3.
Qed.

(** ** The float tables *)

(** Every 16-bit experience value, by evaluation. *)
Lemma sqrt_quarter_table : check_range sqrt_quarter_agrees 0 65536 = true.
Proof. vm_compute. reflexivity. Qed.

(** Every level a byte can hold, and the negative ones of that size. *)
Lemma level_ratio_table : check_range level_ratio_agrees (-256) 512 = true.
Proof. vm_compute. reflexivity. Qed.

Lemma sqrt_quarter_exact (e : Z) :
  0 <= e <= 65535 ->
  (root <- Float.math_sqrt e ;; quarter <- Float.div_int root 4 ;;
   Float.math_trunc quarter)%res = Ok (Z.quot (Z.sqrt e) 4).
Proof.
  intros He.
  pose proof (check_range_sound _ _ _ sqrt_quarter_table e ltac:(lia)) as H.
  unfold sqrt_quarter_agrees in H.
  destruct (res_bind _ _) as [t|err]; [|discriminate].
  apply Z.eqb_eq in H. by subst.
Qed.

Lemma level_ratio_exact (l : Z) :
  -256 <= l < 256 ->
  (ratio <- Float.int_truediv l 100 ;; Float.math_trunc ratio)%res
  = Ok (Z.quot l 100).
Proof.
  intros Hl.
  pose proof (check_range_sound _ _ _ level_ratio_table l ltac:(lia)) as H.
  unfold level_ratio_agrees in H.
  destruct (res_bind _ _) as [t|err]; [|discriminate].
  apply Z.eqb_eq in H. by subst.
Qed.

(** ** [statcalc] *)

Lemma statcalc_eq (base_value dv level experience : Z) (is_HP : bool) :
  -256 <= level < 256 -> 0 <= experience <= 65535 ->
  statcalc base_value is_HP level dv experience
  = Ok (statcalc_formula base_value is_HP level dv experience).
Proof.
  intros Hl He. unfold statcalc, statcalc_formula.
  rewrite (sqrt_quarter_exact _ He). cbn [res_bind].
  rewrite (level_ratio_exact _ Hl). cbn [res_bind].
  reflexivity.
Qed.

(** A negative experience is a [math domain error], not a number. *)
Lemma statcalc_negative_experience (base_value dv level : Z) (is_HP : bool) :
  statcalc base_value is_HP level dv (-1)
  = Raise (ValueError "math domain error").
Proof. reflexivity. Qed.




(** ** [Status] *)

Lemma Status_to_int_sleep (d : Z) (s : bool) :
  Status.to_int (Status.sleep d s) = if s then Z.lor 128 d else d.
Proof. by destruct s. Qed.

(** C10: [Status.sleep(0, False).to_int()] is 0, the encoding of
    [Status.healthy()]; for every duration [d] a sleep that is not
    self-inflicted encodes as [d] and a self-inflicted one as [0x80 | d]. *)
Theorem Status_sleep_zero_is_healthy :
  Status.to_int (Status.sleep 0 false) = 0
  /\ Status.to_int Status.healthy = 0
  /\ Status.to_int (Status.sleep 0 false) = Status.to_int Status.healthy
  /\ (forall d : Z, Status.to_int (Status.sleep d false) = d)
  /\ (forall d : Z, Status.to_int (Status.sleep d true) = Z.lor 128 d).
Proof. repeat split. Qed.

(** ** [Volatiles] *)

Lemma length_uint_bits (v : Z) (n : nat) : length (uint_bits v n) = n.
Proof. unfold uint_bits. by rewrite length_map, length_rev, length_seq. Qed.

Lemma Bits_uint_fits (v : Z) (n : nat) :
  0 <= v < 2 ^ Z.of_nat n -> Bits_uint v n = Ok (uint_bits v n).
Proof.
  intros [H1 H2]. unfold Bits_uint.
  apply Z.leb_le in H1. apply Z.ltb_lt in H2. by rewrite H1, H2.
Qed.

Lemma Bits_uint_unfit (v : Z) (n : nat) :
  ~ 0 <= v < 2 ^ Z.of_nat n -> Bits_uint v n = Raise CreationError.
Proof.
  intros H. unfold Bits_uint.
  destruct (0 <=? v) eqn:E1; [|reflexivity].
  destruct (v <? 2 ^ Z.of_nat n) eqn:E2; [|reflexivity].
  apply Z.leb_le in E1. apply Z.ltb_lt in E2. lia.
Qed.

Lemma Bits_uintne_fits (v : Z) (k : nat) :
  0 <= v < 2 ^ Z.of_nat (8 * k) ->
  Bits_uintne v (8 * k) = Ok (Bits_bytes (le_bytes v k)).
Proof.
  intros [H1 H2]. unfold Bits_uintne.
  apply Z.leb_le in H1. apply Z.ltb_lt in H2. rewrite H1, H2.
  replace (8 * k)%nat with (k * 8)%nat by lia.
  rewrite Nat.Div0.mod_mul, Nat.div_mul by lia. reflexivity.
Qed.

Lemma Bits_uintne_unfit (v : Z) (n : nat) :
  ~ 0 <= v < 2 ^ Z.of_nat n -> Bits_uintne v n = Raise CreationError.
Proof.
  intros H. unfold Bits_uintne.
  destruct (n `mod` 8 =? 0)%nat; [|reflexivity].
  destruct (0 <=? v) eqn:E1; [|reflexivity].
  destruct (v <? 2 ^ Z.of_nat n) eqn:E2; [|reflexivity].
  apply Z.leb_le in E1. apply Z.ltb_lt in E2. lia.
Qed.

Lemma length_Volatiles_record (v : Volatiles) :
  length (Volatiles_record v) = 64%nat.
Proof. reflexivity. Qed.

(** Packing either produces the whole record or is refused: no field is
    ever cut down to its width. *)
Lemma Volatiles__to_bits_cases (v : Volatiles) :
  (Volatiles_fits v /\ Volatiles__to_bits v = Ok (Volatiles_record v))
  \/ (~ Volatiles_fits v /\ Volatiles__to_bits v = Raise CreationError).
Proof.
  unfold Volatiles_fits, Volatiles__to_bits. cbn [res_all res_bind].
  destruct (decide (0 <= confusion v < 8)) as [H1|H1];
    [rewrite (Bits_uint_fits _ 3 H1)
    |right; split; [tauto|]; by rewrite (Bits_uint_unfit _ 3 H1)].
  destruct (decide (0 <= attacks v < 8)) as [H2|H2];
    [rewrite (Bits_uint_fits _ 3 H2)
    |right; split; [tauto|]; by rewrite (Bits_uint_unfit _ 3 H2)].
  destruct (decide (0 <= state v < 65536)) as [H3|H3];
    [rewrite (Bits_uintne_fits _ 2 H3 : Bits_uintne (state v) 16 = _)
    |right; split; [tauto|]; by rewrite (Bits_uintne_unfit _ 16 H3)].
  destruct (decide (0 <= substitute v < 256)) as [H4|H4];
    [rewrite (Bits_uintne_fits _ 1 H4 : Bits_uintne (substitute v) 8 = _)
    |right; split; [tauto|]; by rewrite (Bits_uintne_unfit _ 8 H4)].
  destruct (decide (0 <= transform v < 16)) as [H5|H5];
    [rewrite (Bits_uint_fits _ 4 H5)
    |right; split; [tauto|]; by rewrite (Bits_uint_unfit _ 4 H5)].
  destruct (decide (0 <= disabled_duration v < 16)) as [H6|H6];
    [rewrite (Bits_uint_fits _ 4 H6)
    |right; split; [tauto|]; by rewrite (Bits_uint_unfit _ 4 H6)].
  destruct (decide (0 <= disabled_move v < 8)) as [H7|H7];
    [rewrite (Bits_uint_fits _ 3 H7)
    |right; split; [tauto|]; by rewrite (Bits_uint_unfit _ 3 H7)].
  destruct (decide (0 <= toxic v < 32)) as [H8|H8];
    [rewrite (Bits_uint_fits _ 5 H8)
    |right; split; [tauto|]; by rewrite (Bits_uint_unfit _ 5 H8)].
  left. split; [tauto|]. reflexivity.
Qed.

Lemma Volatiles__to_bits_fits (v : Volatiles) :
  Volatiles_fits v -> Volatiles__to_bits v = Ok (Volatiles_record v).
Proof. destruct (Volatiles__to_bits_cases v) as [[_ H]|[H _]]; tauto. Qed.

(** A counter that is too wide for its field is refused, not truncated. *)
Example Volatiles_confusion_8_refused :
  Volatiles__to_bits
    (mkVolatiles false false false false false false false false false false
       false false false false false false false false 8 0 0 0 0 0 0 0)
  = Raise CreationError.
Proof. reflexivity. Qed.

(** C8: whenever [Volatiles._to_bits] succeeds, the bit string has exactly
    64 bits; it is the untruncated concatenation of the fields, and each
    counter fits its width (a value that does not fit is refused). *)
Theorem Volatiles_to_bits_64 (v : Volatiles) (bits : Bits)
  (Hpacked : Volatiles__to_bits v = Ok bits) :
  length bits = 64%nat /\ bits = Volatiles_record v /\ Volatiles_fits v.
Proof.
  destruct (Volatiles__to_bits_cases v) as [[Hfit H]|[_ H]];
    rewrite H in Hpacked; [|discriminate].
  injection Hpacked as <-. auto using length_Volatiles_record.
Qed.

Lemma Volatiles_to_bits_64_witness :
  Volatiles__to_bits sample_volatiles = Ok (Volatiles_record sample_volatiles)
  /\ length (Volatiles_record sample_volatiles) = 64%nat.
Proof.
  assert (H : Volatiles__to_bits sample_volatiles
              = Ok (Volatiles_record sample_volatiles))
    by (vm_compute; reflexivity).
  split; [exact H|].
  exact (proj1 (Volatiles_to_bits_64 sample_volatiles _ H)).
Defined.

(** ** [Battle.__init__] *)

Lemma ShowdownRNG_has_no__to_bits :
  ShowdownRNG_getattr "_to_bits" = Raise (AttributeError "ShowdownRNG" "_to_bits").
Proof. reflexivity. Qed.

Lemma res_all_raise_never_ok {A} (parts : list (res A)) (e : py_error)
  (xs : list A) :
  res_all (parts ++ [Raise e]) <> Ok xs.
Proof.
  revert xs. induction parts as [|[a|e0] parts IH]; intros xs; cbn; [done| |done].
  destruct (res_all (parts ++ [Raise e])) as [ys|e'] eqn:E; [|done].
  by destruct (IH ys).
Qed.

(** Whatever the sides, the counters and the declared size, constructing a
    [Battle] does not return. *)
Lemma Battle___init___never_Ok (PKMN_GEN1_BATTLE_SIZE : nat) (h : heap)
  (p1_side p2_side : Side) (start_turn last_damage p1_move_idx p2_move_idx : Z)
  (rng : ShowdownRNG) (b : Battle) :
  Battle___init__ PKMN_GEN1_BATTLE_SIZE h p1_side p2_side start_turn
    last_damage p1_move_idx p2_move_idx rng <> Ok b.
Proof.
  unfold Battle___init__.
  set (parts := res_all _).
  assert (Hparts : forall xs, parts <> Ok xs).
  { intros xs. subst parts.
    apply (res_all_raise_never_ok
             [Ok (Bits_bytes (contents h (Side_bytes p1_side)));
              Ok (Bits_bytes (contents h (Side_bytes p2_side)));
              Bits_uintne start_turn 16; Bits_uintne last_damage 16;
              _pack_move_indexes p1_move_idx p2_move_idx]
             (AttributeError "ShowdownRNG" "_to_bits")). }
  destruct parts as [xs|e]; [by destruct (Hparts xs)|done].
Qed.

(** C1 (as the code behaves): with the default counters, [Battle(p1_side,
    p2_side, rng=rng)] raises [AttributeError] for every pair of sides, every
    [ShowdownRNG] and every declared battle size, before any length is
    compared: the class [ShowdownRNG] has no [_to_bits]. *)
Theorem Battle___init___AttributeError (PKMN_GEN1_BATTLE_SIZE : nat)
  (h : heap) (p1_side p2_side : Side) (rng : ShowdownRNG) :
  Battle___init__ PKMN_GEN1_BATTLE_SIZE h p1_side p2_side 0 0 0 0 rng
  = Raise (AttributeError "ShowdownRNG" "_to_bits").
Proof. reflexivity. Qed.

(** ** [Battle.possible_choices] *)

Lemma collect_choices_seq (raw : list Z) (start n : nat) :
  (start + n <= length raw)%nat ->
  collect_choices raw (seq start n) = Ok (mkChoice <$> take n (drop start raw)).
Proof.
  revert start. induction n as [|n IH]; intros start Hlen; [done|].
  cbn [seq collect_choices]. unfold py_nth.
  destruct (lookup_lt_is_Some_2 raw start ltac:(lia)) as [c Hc].
  rewrite Hc. cbn [res_bind]. rewrite IH by lia. cbn [res_bind].
  rewrite (drop_S _ _ _ Hc). reflexivity.
Qed.

Lemma collect_choices_length (raw : list Z) (idxs : list nat)
  (cs : list Choice) :
  collect_choices raw idxs = Ok cs -> length cs = length idxs.
Proof.
  revert cs. induction idxs as [|i idxs IH]; intros cs; cbn.
  - by intros [= <-].
  - destruct (py_nth raw i); [|done]. cbn.
    destruct (collect_choices raw idxs) as [rest|]; [|done]. cbn.
    intros [= <-]. cbn. by rewrite (IH rest).
Qed.

Lemma length_raw_choices_after (size : nat) (written : list Z) :
  length (raw_choices_after size written) = size.
Proof.
  unfold raw_choices_after.
  rewrite length_take, length_app, length_replicate. lia.
Qed.

Section Choices.
Variable PKMN_OPTIONS_SIZE : nat.
Variable pkmn_gen1_battle_choices : list Z -> Z -> Z -> nat -> nat * list Z.
Variable Result : Type.
Variable ChoiceType : Type.
Variable p1_choice_type : Result -> ChoiceType.
Variable p2_choice_type : Result -> ChoiceType.
Variable ChoiceType_value : ChoiceType -> Z.
Variable Player_value : Player -> Z.

(** C6: [possible_choices] raises [Softlock] whenever the engine counts zero
    choices; it never returns an empty list; and when the engine counts
    [n > 0] choices (within the [PKMN_OPTIONS_SIZE] items it was given room
    for) the result is exactly the first [n] items of [raw_choices], in the
    engine's order. *)
Theorem possible_choices_Softlock_or_all
  (self : Battle) (player : Player) (previous_turn_result : Result)
  (num_choices : nat) (written : list Z)
  (Hengine :
     pkmn_gen1_battle_choices (_pkmn_battle self) (Player_value player)
       (ChoiceType_value
          (requested_kind Result ChoiceType p1_choice_type p2_choice_type
             player previous_turn_result))
       PKMN_OPTIONS_SIZE
     = (num_choices, written)) :
  let possible_choices :=
    Battle_possible_choices PKMN_OPTIONS_SIZE pkmn_gen1_battle_choices Result
      ChoiceType p1_choice_type p2_choice_type ChoiceType_value Player_value
      self player previous_turn_result in
  (num_choices = 0%nat ->
   possible_choices = Raise (Softlock "Zero choices are available."))
  /\ possible_choices <> Ok []
  /\ ((0 < num_choices <= PKMN_OPTIONS_SIZE)%nat ->
      possible_choices
      = Ok (mkChoice
              <$> take num_choices
                    (raw_choices_after PKMN_OPTIONS_SIZE written))
      /\ exists cs, possible_choices = Ok cs /\ length cs = num_choices).
Proof.
  cbn zeta. unfold Battle_possible_choices. rewrite Hengine.
  split; [by intros ->|]. split.
  - destruct num_choices as [|n]; [done|]. cbn [Nat.eqb].
    intros H. by apply collect_choices_length in H.
  - intros [Hpos Hsize]. destruct num_choices as [|n]; [lia|]. cbn [Nat.eqb].
    rewrite collect_choices_seq
      by (rewrite length_raw_choices_after; lia).
    rewrite drop_0. split; [done|]. eexists. split; [done|].
    rewrite length_fmap, length_take, length_raw_choices_after. lia.
Qed.

End Choices.

Lemma possible_choices_Softlock_or_all_witness :
  Battle_possible_choices 9 (constant_engine 3 [1; 5; 9]) unit unit
    (fun _ => tt) (fun _ => tt) (fun _ => 1) (fun _ => 1)
    (mkBattle [] []) P1 tt
  = Ok [mkChoice 1; mkChoice 5; mkChoice 9].
Proof.
  destruct (possible_choices_Softlock_or_all 9 (constant_engine 3 [1; 5; 9])
              unit unit (fun _ => tt) (fun _ => tt) (fun _ => 1) (fun _ => 1)
              (mkBattle [] []) P1 tt 3%nat [1; 5; 9] eq_refl)
    as (_ & _ & H).
  destruct (H ltac:(lia)) as [-> _]. reflexivity.
Defined.

(** ** The protocol parser *)

Section ParserFacts.
Variable MESSAGES : list string.
Variable MOVE_ID_LOOKUP : gmap Z string.
Variable SPECIES_ID_LOOKUP : gmap Z string.
Variable open_decoder : string -> Protocol.Decoder.

Abbreviation parse_protocol :=
  (Protocol.parse_protocol MESSAGES MOVE_ID_LOOKUP SPECIES_ID_LOOKUP
     open_decoder).
Abbreviation parse_rounds :=
  (Protocol.parse_rounds MESSAGES MOVE_ID_LOOKUP SPECIES_ID_LOOKUP
     open_decoder).
Abbreviation decode_message :=
  (Protocol.decode_message MOVE_ID_LOOKUP SPECIES_ID_LOOKUP open_decoder).
Abbreviation cut_short :=
  (Protocol.cut_short MOVE_ID_LOOKUP SPECIES_ID_LOOKUP open_decoder).

Lemma take_bytes_Ok (n : nat) (trace args rest : list Z) :
  Protocol.take_bytes n trace = Ok (args, rest) ->
  (n <= length trace)%nat /\ args = take n trace /\ rest = drop n trace.
Proof.
  unfold Protocol.take_bytes.
  destruct (Nat.leb_spec n (length trace)); [|done].
  by intros [= <- <-].
Qed.

Lemma take_bytes_app (n : nat) (trace tail args rest : list Z) :
  Protocol.take_bytes n trace = Ok (args, rest) ->
  Protocol.take_bytes n (trace ++ tail) = Ok (args, rest ++ tail).
Proof.
  intros H. apply take_bytes_Ok in H as (Hn & -> & ->).
  unfold Protocol.take_bytes. rewrite length_app.
  destruct (Nat.leb_spec n (length trace + length tail)); [|lia].
  by rewrite take_app_le, drop_app_le by lia.
Qed.

(** A decoded message leaves a suffix of the trace. *)
Lemma decode_message_length (name : string) (trace rest : list Z)
  (line : option string) :
  decode_message name trace = Ok (line, rest) ->
  (length rest <= length trace)%nat.
Proof.
  unfold Protocol.decode_message. cbn zeta. intros H.
  destruct (Protocol.take_bytes _ trace) as [[args r1]|] eqn:E1; [|done].
  cbn [res_bind fst snd] in H.
  destruct (Protocol.take_bytes _ r1) as [[more r2]|] eqn:E2; [|done].
  cbn [res_bind fst snd] in H.
  destruct (Protocol.render _ args more) as [l|]; [|done].
  cbn [res_bind] in H. injection H as _ <-.
  apply take_bytes_Ok in E1 as (_ & _ & ->), E2 as (_ & _ & ->).
  rewrite !length_drop. lia.
Qed.

(** A decoder looks at its own bytes only: what follows the message does
    not change how it is decoded. *)
Lemma decode_message_app (name : string) (trace tail rest : list Z)
  (line : option string) :
  decode_message name trace = Ok (line, rest) ->
  decode_message name (trace ++ tail) = Ok (line, rest ++ tail).
Proof.
  unfold Protocol.decode_message. cbn zeta. intros H.
  destruct (Protocol.take_bytes _ trace) as [[args r1]|] eqn:E1; [|done].
  cbn [res_bind fst snd] in H.
  destruct (Protocol.take_bytes _ r1) as [[more r2]|] eqn:E2; [|done].
  cbn [res_bind fst snd] in H.
  rewrite (take_bytes_app _ _ tail _ _ E1). cbn [res_bind fst snd].
  rewrite (take_bytes_app _ _ tail _ _ E2). cbn [res_bind fst snd].
  destruct (Protocol.render _ args more) as [l|]; [|done].
  cbn [res_bind] in H |- *. by injection H as -> ->.
Qed.

(** The bound on the number of rounds is never reached. *)
Lemma parse_rounds_fuel (f1 : nat) :
  forall (f2 : nat) (trace : list Z),
    (length trace <= f1)%nat -> (length trace <= f2)%nat ->
    parse_rounds f1 trace = parse_rounds f2 trace.
Proof.
  induction f1 as [|f1 IH]; intros f2 trace H1 H2.
  - destruct trace; [by destruct f2|cbn in H1; lia].
  - destruct trace as [|kind trace]; [by destruct f2|].
    destruct f2 as [|f2]; [cbn in H2; lia|]. cbn [length] in H1, H2.
    cbn [Protocol.parse_rounds].
    destruct (if 0 <=? kind then py_nth MESSAGES (Z.to_nat kind)
              else Raise IndexError) as [name|]; [|done].
    cbn [res_bind].
    destruct (decode_message name trace) as [[line rest]|] eqn:E; [|done].
    cbn [res_bind fst snd]. apply decode_message_length in E.
    by rewrite (IH f2 rest) by lia.
Qed.

Lemma parse_dispatch (k : nat) (name : string) (trace : list Z) :
  MESSAGES !! k = Some name ->
  parse_protocol (Z.of_nat k :: trace)
  = (m <- decode_message name trace ;;
     lines <- parse_protocol (snd m) ;;
     Ok (match fst m with
         | Some line => line :: lines
         | None => lines
         end))%res.
Proof.
  intros Hk. unfold Protocol.parse_protocol.
  cbn [length Protocol.parse_rounds].
  destruct (Z.leb_spec 0 (Z.of_nat k)); [|lia].
  rewrite Nat2Z.id. unfold py_nth. rewrite Hk. cbn [res_bind].
  destruct (decode_message name trace) as [[line rest]|] eqn:E; [|done].
  cbn [res_bind fst snd]. apply decode_message_length in E.
  by rewrite (parse_rounds_fuel (length trace) (length rest) rest) by lia.
Qed.

(** A message cut short at the start of what is left of the trace. *)
Lemma parse_cut_short (k : nat) (name : string) (rest : list Z) :
  MESSAGES !! k = Some name -> cut_short name rest ->
  parse_protocol (Z.of_nat k :: rest) = Raise TruncatedTrace.
Proof.
  intros Hk Hcut. rewrite (parse_dispatch _ _ _ Hk).
  unfold Protocol.decode_message, Protocol.cut_short in *. cbn zeta in *.
  unfold Protocol.take_bytes at 1.
  destruct (Nat.leb_spec
              (Protocol.fixed_args
                 (Protocol.decoder_of MOVE_ID_LOOKUP SPECIES_ID_LOOKUP
                    open_decoder name)) (length rest)) as [Hfixed|Hfixed];
    [|done].
  cbn [res_bind fst snd]. unfold Protocol.take_bytes.
  rewrite length_drop.
  destruct Hcut as [Hcut|Hcut]; [lia|].
  match goal with
  | |- context [(?n <=? ?m)%nat] =>
      destruct (Nat.leb_spec n m) as [Hmore|Hmore]; [lia|]
  end.
  reflexivity.
Qed.

(** Parsing goes message by message: after a part of the trace that parses
    on its own, the parser is at the start of what follows. *)
Lemma parse_rounds_app (f : nat) :
  forall (trace : list Z) (lines : list string),
    (length trace <= f)%nat ->
    parse_rounds f trace = Ok lines ->
    forall tail : list Z,
      parse_protocol (trace ++ tail)
      = (more <- parse_protocol tail ;; Ok (lines ++ more))%res.
Proof.
  induction f as [|f IH]; intros trace lines Hf Hparse tail.
  - destruct trace; [|cbn in Hf; lia]. cbn in Hparse. injection Hparse as <-.
    cbn [app]. by destruct (parse_protocol tail).
  - destruct trace as [|kind trace].
    { cbn in Hparse. injection Hparse as <-. cbn [app].
      by destruct (parse_protocol tail). }
    cbn [length] in Hf. cbn [Protocol.parse_rounds] in Hparse.
    unfold Protocol.parse_protocol at 1.
    cbn [app length Protocol.parse_rounds].
    destruct (if 0 <=? kind then py_nth MESSAGES (Z.to_nat kind)
              else Raise IndexError) as [name|]; [|done].
    cbn [res_bind] in Hparse |- *.
    destruct (decode_message name trace) as [[line rest]|] eqn:E; [|done].
    cbn [res_bind fst snd] in Hparse.
    rewrite (decode_message_app _ _ tail _ _ E). cbn [res_bind fst snd].
    pose proof (decode_message_length _ _ _ _ E) as Hrest.
    destruct (parse_rounds f rest) as [ls|] eqn:Els; [|done].
    cbn [res_bind] in Hparse. injection Hparse as <-.
    rewrite (parse_rounds_fuel (length (trace ++ tail))
               (length (rest ++ tail)) (rest ++ tail))
      by (rewrite !length_app; lia).
    change (parse_rounds (length (rest ++ tail)) (rest ++ tail))
      with (parse_protocol (rest ++ tail)).
    rewrite (IH rest ls ltac:(lia) Els tail).
    destruct (parse_protocol tail) as [more|]; [|done].
    cbn [res_bind]. by destruct line.
Qed.

(** C9: the reference cases of the parser.  With [Move], [Turn] and [Tie]
    at the indices [MESSAGES.index] gives them and move 94 named Psychic,
    [[Move, 1, 94, 9, 0]], [[Turn, 50, 0]] and [[Tie]] parse to the three
    expected lines; and wherever it stands in the trace, after any number
    of complete messages, a message of any type of the table with fewer
    bytes left after its type byte than it requires fails with
    [TruncatedTrace]. *)
Theorem parse_protocol_reference_cases (Move_id Turn_id Tie_id : nat)
  (HMove : list_index "Move" MESSAGES = Some Move_id)
  (HTurn : list_index "Turn" MESSAGES = Some Turn_id)
  (HTie : list_index "Tie" MESSAGES = Some Tie_id)
  (HPsychic : MOVE_ID_LOOKUP !! 94 = Some "Psychic"%string) :
  parse_protocol [Z.of_nat Move_id; 1; 94; 9; 0]
  = Ok ["|move|p1a: Pokémon #1|Psychic|p2a: Pokémon #1"%string]
  /\ parse_protocol [Z.of_nat Turn_id; 50; 0] = Ok ["|turn|50"%string]
  /\ parse_protocol [Z.of_nat Tie_id] = Ok ["|tie"%string]
  /\ (forall (complete : list Z) (lines : list string) (k : nat)
             (name : string) (rest : list Z),
        parse_protocol complete = Ok lines ->
        MESSAGES !! k = Some name ->
        cut_short name rest ->
        parse_protocol (complete ++ Z.of_nat k :: rest)
        = Raise TruncatedTrace).
Proof.
  apply list_index_lookup in HMove, HTurn, HTie.
  split; [|split; [|split]].
  - rewrite (parse_dispatch _ _ _ HMove).
    unfold Protocol.decode_message. cbn. unfold lookup_get.
    rewrite HPsychic. reflexivity.
  - rewrite (parse_dispatch _ _ _ HTurn). reflexivity.
  - rewrite (parse_dispatch _ _ _ HTie). reflexivity.
  - intros complete lines k name rest Hcomplete Hk Hcut.
    rewrite (parse_rounds_app (length complete) complete lines
               ltac:(lia) Hcomplete).
    by rewrite (parse_cut_short k name rest Hk Hcut).
Qed.

End ParserFacts.

Lemma parse_protocol_reference_cases_witness :
  sample_parse [3; 1; 94; 9; 0]
  = Ok ["|move|p1a: Pokémon #1|Psychic|p2a: Pokémon #1"%string]
  /\ sample_parse [7; 50; 0; 4; 3] = Raise TruncatedTrace
  /\ sample_parse [7; 50; 0; 10; 4; 126; 1; 30; 2; 64; 5]
     = Raise TruncatedTrace.
Proof.
  destruct (parse_protocol_reference_cases sample_messages sample_move_names
              sample_species_names silent_decoder 3 7 9
              eq_refl eq_refl eq_refl eq_refl) as (H1 & H2 & _ & H4).
  split; [exact H1|]. split.
  - apply (H4 [7; 50; 0] ["|turn|50"%string] 4%nat "Switch"%string [3]);
      [exact H2|reflexivity|]. left. cbn. lia.
  - apply (H4 [7; 50; 0] ["|turn|50"%string] 10%nat "Damage"%string
             [4; 126; 1; 30; 2; 64; 5]); [exact H2|reflexivity|].
    right. cbn. lia.
Defined.

(** The cases of [TestProtocolParsing] that are not skipped, on the example
    tables. *)
Example test_move :
  sample_parse [3; 1; 94; 9; 0]
  = Ok ["|move|p1a: Pokémon #1|Psychic|p2a: Pokémon #1"%string]
  /\ sample_parse [3; 3; 126; 9; 1; 118]
     = Ok ["|move|p1a: Pokémon #3|Fire Blast|p2a: Pokémon #1|[from] Metronome"
           %string].
Proof. split; vm_compute; reflexivity. Qed.

Example test_switch :
  sample_parse [4; 3; 6; 73; 189; 0; 58; 1; 128]
  = Ok ["|switch|p1a: Pokémon #3|Charizard, L73|189/314 tox"%string].
Proof. vm_compute. reflexivity. Qed.

Example test_cant :
  sample_parse [5; 9; 7] = Ok ["|cant|p2a: Pokémon #1|nopp"%string]
  /\ sample_parse [5; 9; 5; 151]
     = Ok ["|cant|p2a: Pokémon #1|Disable|Acid Armor"%string].
Proof. split; vm_compute; reflexivity. Qed.

Example test_faint :
  sample_parse [6; 13] = Ok ["|faint|p2a: Pokémon #5"%string].
Proof. vm_compute. reflexivity. Qed.

Example test_turn :
  sample_parse [7; 0; 0] = Ok ["|turn|0"%string]
  /\ sample_parse [7; 1; 0] = Ok ["|turn|1"%string]
  /\ sample_parse [7; 50; 0] = Ok ["|turn|50"%string]
  /\ sample_parse [7; 61; 107] = Ok ["|turn|27453"%string].
Proof. repeat split; vm_compute; reflexivity. Qed.

Example test_win : sample_parse [8; 0] = Ok ["|win|p1"%string].
Proof. vm_compute. reflexivity. Qed.

Example test_tie : sample_parse [9] = Ok ["|tie"%string].
Proof. vm_compute. reflexivity. Qed.

Example test_damage :
  sample_parse [10; 9; 0; 0; 250; 2; 0; 0]
  = Ok ["|-damage|p2a: Pokémon #1|0/762"%string]
  /\ sample_parse [10; 4; 63; 0; 250; 2; 16; 3]
     = Ok ["|-damage|p1a: Pokémon #4|63/762 brn|[from] confusion"%string]
  /\ sample_parse [10; 4; 126; 1; 30; 2; 64; 5; 10]
     = Ok ["|-damage|p1a: Pokémon #4|382/542 par|[from] recoil|[of] p2a: Pokémon #2"
           %string].
Proof. repeat split; vm_compute; reflexivity. Qed.

Example test_heal :
  sample_parse [11; 9; 91; 0; 30; 1; 8; 0]
  = Ok ["|-heal|p2a: Pokémon #1|91/286 psn"%string]
  /\ sample_parse [11; 9; 91; 0; 30; 1; 4; 1]
     = Ok ["|-heal|p2a: Pokémon #1|91/286 slp|[silent]"%string]
  /\ sample_parse [11; 2; 91; 0; 30; 1; 16; 2; 12]
     = Ok ["|-heal|p1a: Pokémon #2|91/286 brn|[from] drain|[of] p2a: Pokémon #4"
           %string].
Proof. repeat split; vm_compute; reflexivity. Qed.

Example test_supereffective :
  sample_parse [27; 9] = Ok ["|-supereffective|p2a: Pokémon #1"%string].
Proof. vm_compute. reflexivity. Qed.

(** Several messages in one trace, and a message cut short after them. *)
Example parse_two_messages :
  sample_parse [3; 1; 94; 9; 0; 6; 13; 7; 2; 0]
  = Ok ["|move|p1a: Pokémon #1|Psychic|p2a: Pokémon #1";
        "|faint|p2a: Pokémon #5"; "|turn|2"]%string
  /\ sample_parse [3; 1; 94; 9; 0; 5; 9; 5] = Raise TruncatedTrace.
Proof. split; vm_compute; reflexivity. Qed.

(** ** Byte buffers *)

Lemma is_byte_spec (v : Z) : is_byte v = true <-> 0 <= v <= 255.
Proof. unfold is_byte. rewrite andb_true_iff, Z.leb_le, Z.leb_le. tauto. Qed.

Lemma land_255_range (n : Z) : 0 <= Z.land n 255 <= 255.
Proof.
  assert (Z.land n 255 = n mod 256) as -> by (apply (Z.land_ones n 8); lia).
  pose proof (Z.mod_pos_bound n 256 ltac:(lia)). lia.
Qed.

Lemma land_255_byte (n : Z) : is_byte (Z.land n 255) = true.
Proof. apply is_byte_spec, land_255_range. Qed.

Lemma length_splice (off : nat) (vs b : list Z) :
  (off + length vs <= length b)%nat -> length (splice off vs b) = length b.
Proof.
  intros H. unfold splice.
  rewrite !length_app, length_take, length_drop. lia.
Qed.

Lemma splice_nil (off : nat) (b : list Z) : splice off [] b = b.
Proof. unfold splice. cbn. rewrite Nat.add_0_r. apply take_drop. Qed.

Lemma insert_splice (off : nat) (acc : list Z) (v : Z) (b : list Z) :
  (off + length acc < length b)%nat ->
  <[(off + length acc)%nat := v]> (splice off acc b) = splice off (acc ++ [v]) b.
Proof.
  intros H. unfold splice.
  destruct (lookup_lt_is_Some_2 b (off + length acc) H) as [x Hx].
  rewrite insert_app_r_alt by (rewrite length_take; lia).
  rewrite length_take, Nat.min_l by lia.
  rewrite insert_app_r_alt by lia.
  replace (off + length acc - off - length acc)%nat with 0%nat by lia.
  rewrite (drop_S _ _ _ Hx). cbn [insert list_insert].
  rewrite length_app. cbn [length].
  replace (off + (length acc + 1))%nat with (S (off + length acc)) by lia.
  by rewrite <- app_assoc.
Qed.

Lemma lookup_splice (off : nat) (acc b : list Z) (k : nat) :
  (off <= length b)%nat -> (k < length acc)%nat ->
  splice off acc b !! (off + k)%nat = acc !! k.
Proof.
  intros Hoff Hk. unfold splice.
  rewrite lookup_app_r by (rewrite length_take; lia).
  rewrite length_take, Nat.min_l by lia.
  replace (off + k - off)%nat with k by lia.
  by rewrite lookup_app_l.
Qed.

(** *** Sequencing *)

Lemma buf_bind_Ok {A B} (m : BufM A) (k : A -> BufM B) (b b1 : list Z) (a : A) :
  m b = (Ok a, b1) -> buf_bind m k b = k a b1.
Proof. unfold buf_bind. by intros ->. Qed.

Lemma buf_bind_Raise {A B} (m : BufM A) (k : A -> BufM B) (b b1 : list Z)
  (e : py_error) :
  m b = (Raise e, b1) -> buf_bind m k b = (Raise e, b1).
Proof. unfold buf_bind. by intros ->. Qed.

Lemma buf_assert_eq {B} (n m : nat) (msg : string) (k : unit -> BufM B)
  (b : list Z) :
  n = m -> buf_bind (buf_assert (n =? m)%nat msg) k b = k tt b.
Proof. intros ->. unfold buf_bind, buf_assert. by rewrite Nat.eqb_refl. Qed.

(** *** Writes that extend what has been written so far *)

Lemma setitem_splice (off : nat) (acc : list Z) (b : list Z) (i : nat) (v : Z) :
  i = (off + length acc)%nat -> (i < length b)%nat ->
  setitem i v (splice off acc b)
  = if is_byte v then (Ok tt, splice off (acc ++ [v]) b)
    else (Raise OverflowError, splice off acc b).
Proof.
  intros -> Hi. unfold setitem. rewrite length_splice by lia.
  destruct (Nat.ltb_spec (off + length acc) (length b)); [|lia].
  by rewrite insert_splice.
Qed.

Lemma setslice_u16_splice (off : nat) (acc : list Z) (b : list Z) (i : nat)
  (n : Z) :
  i = (off + length acc)%nat -> (i + 2 <= length b)%nat ->
  setslice i (i + 2) (pack_u16_as_bytes n) (splice off acc b)
  = (Ok tt, splice off (acc ++ pack_u16_as_bytes n) b).
Proof.
  intros Hi Hlen. unfold setslice. rewrite length_splice by lia.
  destruct (Nat.leb_spec i (i + 2)); [|lia].
  destruct (Nat.leb_spec (i + 2) (length b)); [|lia].
  unfold pack_u16_as_bytes. cbn [andb length].
  replace (i + 2 - i)%nat with 2%nat by lia. cbn [Nat.eqb setitems].
  rewrite (buf_bind_Ok _ _ _ (splice off (acc ++ [Z.land n 255]) b) tt).
  2: { rewrite (setitem_splice off acc b i) by lia.
       by rewrite land_255_byte. }
  rewrite (buf_bind_Ok _ _ _
             (splice off ((acc ++ [Z.land n 255])
                          ++ [Z.land (Z.shiftr n 8) 255]) b) tt).
  2: { rewrite (setitem_splice off (acc ++ [Z.land n 255]) b (S i))
         by (rewrite ?length_app; cbn; lia).
       by rewrite land_255_byte. }
  by rewrite <- app_assoc.
Qed.

Lemma pack_stats_splice (stats : Gen1StatData) (keys : list stat_key)
  (off : nat) (acc b : list Z) (i : nat) :
  i = (off + length acc)%nat -> (i + 2 * length keys <= length b)%nat ->
  exists j, j = (i + 2 * length keys)%nat /\
  pack_stats stats keys i (splice off acc b)
  = (Ok j, splice off (acc ++ stats_bytes stats keys) b).
Proof.
  revert acc i. induction keys as [|k keys IH]; intros acc i Hi Hlen.
  - exists i. split; [cbn; lia|]. cbn. by rewrite app_nil_r.
  - cbn [length] in Hlen. cbn [pack_stats].
    destruct (IH (acc ++ pack_u16_as_bytes (stat_get stats k)) (i + 2)%nat)
      as (j & Hj & Hrun).
    { rewrite length_app. cbn. lia. }
    { lia. }
    exists j. split; [cbn [length]; lia|].
    rewrite (buf_bind_Ok _ _ _ _ tt (setslice_u16_splice off acc b i _ Hi ltac:(lia))).
    rewrite Hrun. cbn [stats_bytes flat_map]. by rewrite <- app_assoc.
Qed.

(** ** [Pokemon.initialize] writes the record image *)

Lemma buf_bind_lift_Ok {A B} (a : A) (k : A -> BufM B) (b : list Z) :
  buf_bind (buf_lift (Ok a)) k b = k a b.
Proof. reflexivity. Qed.

Lemma buf_bind_lift_Raise {A B} (e : py_error) (k : A -> BufM B) (b : list Z) :
  buf_bind (buf_lift (Raise e)) k b = (Raise e, b).
Proof. reflexivity. Qed.

Lemma buf_bind_setitem {B} (off : nat) (acc : list Z) (b : list Z) (i : nat)
  (v : Z) (k : unit -> BufM B) :
  i = (off + length acc)%nat -> (i < length b)%nat ->
  buf_bind (setitem i v) k (splice off acc b)
  = if is_byte v then k tt (splice off (acc ++ [v]) b)
    else (Raise OverflowError, splice off acc b).
Proof.
  intros Hi Hlen. unfold buf_bind.
  rewrite (setitem_splice off acc b i v Hi Hlen). by destruct (is_byte v).
Qed.

Lemma buf_bind_setslice_u16 {B} (off : nat) (acc : list Z) (b : list Z)
  (i : nat) (n : Z) (k : unit -> BufM B) :
  i = (off + length acc)%nat -> (i + 2 <= length b)%nat ->
  buf_bind (setslice i (i + 2) (pack_u16_as_bytes n)) k (splice off acc b)
  = k tt (splice off (acc ++ pack_u16_as_bytes n) b).
Proof.
  intros Hi Hlen. apply buf_bind_Ok. by apply setslice_u16_splice.
Qed.

Lemma buf_bind_assoc {A B C} (m : BufM A) (k1 : A -> BufM B)
  (k2 : B -> BufM C) (b : list Z) :
  buf_bind (buf_bind m k1) k2 b = buf_bind m (fun a => buf_bind (k1 a) k2) b.
Proof. unfold buf_bind. by destruct (m b) as [[a|e] b1]. Qed.

Lemma buf_bind_ret {A B} (a : A) (k : A -> BufM B) (b : list Z) :
  buf_bind (buf_ret a) k b = k a b.
Proof. reflexivity. Qed.

Ltac raised := by (eexists _, _; reflexivity).

Ltac acc_len :=
  rewrite ?length_app;
  cbn [length stats_bytes flat_map pack_u16_as_bytes app];
  lia.

Section PokemonImage.
Variable D : StaticData.
Variable L : Layout.
Hypothesis Hlayout : Pokemon_layout_ok L.

Lemma Pokemon_initialize_image (data : PokemonInitializer) (b : list Z) :
  length b = SIZE_Pokemon L ->
  match Pokemon_image D data with
  | Ok image =>
      length image = 24%nat /\
      Pokemon_initialize D L data b
      = (Ok tt, splice (Pokemon_stats L) image b)
  | Raise _ => exists e b', Pokemon_initialize D L data b = (Raise e, b')
  end.
Proof.
  intros Hlen. destruct Hlayout as (Hm & Hh & Hs & Hsp & Ht & Hl & Hsz).
  unfold Pokemon_initialize, Pokemon_image.
  set (o := Pokemon_stats L) in *.
  destruct (resolve D data) as [r|e]; cbn [res_bind]; [|raised].
  rewrite buf_bind_lift_Ok.
  destruct (pack_stats_splice (r_stats r) [hp_; atk_; def_; spe_; spc_]
              o [] b o) as (j & Hj & Hrun); [cbn; lia|cbn; lia|].
  rewrite splice_nil in Hrun. cbn [length] in Hj.
  rewrite (buf_bind_Ok _ _ _ _ _ Hrun). cbn [app].
  rewrite buf_assert_eq by lia.
  set (names := move_names data). set (pps := r_move_pp r).
  cbn [pack_moves]. unfold checked_slot.
  (* slot 0 *)
  destruct (move_slot D names pps 0) as [[id0 pp0]|?]; cbn [res_bind fst snd];
    [rewrite ?buf_bind_assoc, buf_bind_lift_Ok; cbn [fst snd]|
     rewrite ?buf_bind_assoc; raised].
  rewrite ?buf_bind_assoc, (buf_bind_setitem o) by acc_len.
  unfold check_byte at 1.
  destruct (is_byte id0); cbn [res_bind]; [|raised].
  rewrite ?buf_bind_assoc, (buf_bind_setitem o) by acc_len.
  unfold check_byte at 1.
  destruct (is_byte pp0); cbn [res_bind]; [|raised].
  (* slot 1 *)
  destruct (move_slot D names pps 1) as [[id1 pp1]|?]; cbn [res_bind fst snd];
    [rewrite ?buf_bind_assoc, buf_bind_lift_Ok; cbn [fst snd]|
     rewrite ?buf_bind_assoc; raised].
  rewrite ?buf_bind_assoc, (buf_bind_setitem o) by acc_len.
  unfold check_byte at 1.
  destruct (is_byte id1); cbn [res_bind]; [|raised].
  rewrite ?buf_bind_assoc, (buf_bind_setitem o) by acc_len.
  unfold check_byte at 1.
  destruct (is_byte pp1); cbn [res_bind]; [|raised].
  (* slot 2 *)
  destruct (move_slot D names pps 2) as [[id2 pp2]|?]; cbn [res_bind fst snd];
    [rewrite ?buf_bind_assoc, buf_bind_lift_Ok; cbn [fst snd]|
     rewrite ?buf_bind_assoc; raised].
  rewrite ?buf_bind_assoc, (buf_bind_setitem o) by acc_len.
  unfold check_byte at 1.
  destruct (is_byte id2); cbn [res_bind]; [|raised].
  rewrite ?buf_bind_assoc, (buf_bind_setitem o) by acc_len.
  unfold check_byte at 1.
  destruct (is_byte pp2); cbn [res_bind]; [|raised].
  (* slot 3 *)
  destruct (move_slot D names pps 3) as [[id3 pp3]|?]; cbn [res_bind fst snd];
    [rewrite ?buf_bind_assoc, buf_bind_lift_Ok; cbn [fst snd]|
     rewrite ?buf_bind_assoc; raised].
  rewrite ?buf_bind_assoc, (buf_bind_setitem o) by acc_len.
  unfold check_byte at 1.
  destruct (is_byte id3); cbn [res_bind]; [|raised].
  rewrite ?buf_bind_assoc, (buf_bind_setitem o) by acc_len.
  unfold check_byte at 1.
  destruct (is_byte pp3); cbn [res_bind]; [|raised].
  rewrite buf_bind_ret.
  rewrite buf_assert_eq by lia.
  (* hp *)
  rewrite (buf_bind_setslice_u16 o) by acc_len.
  rewrite buf_assert_eq by lia.
  (* status *)
  rewrite (buf_bind_setitem o) by acc_len.
  unfold check_byte at 1.
  destruct (is_byte (r_status r)); cbn [res_bind]; [|raised].
  rewrite buf_assert_eq by lia.
  (* species *)
  destruct (dict_get (SPECIES_IDS D) (species_name data)) as [sid|?];
    cbn [res_bind]; [rewrite buf_bind_lift_Ok|raised].
  rewrite (buf_bind_setitem o) by acc_len.
  unfold check_byte at 1.
  destruct (is_byte sid); cbn [res_bind]; [|raised].
  rewrite buf_assert_eq by lia.
  (* types *)
  destruct (py_index (TYPES D) (fst (r_types r))) as [t1|?];
    cbn [res_bind]; [rewrite buf_bind_lift_Ok|raised].
  destruct (py_index (TYPES D) (snd (r_types r))) as [t2|?];
    cbn [res_bind]; [rewrite buf_bind_lift_Ok|raised].
  rewrite (buf_bind_setitem o) by acc_len.
  unfold check_byte at 1.
  destruct (is_byte (pack_two_u4s _ _)); cbn [res_bind]; [|raised].
  rewrite buf_assert_eq by lia.
  (* level *)
  rewrite (buf_bind_setitem o) by acc_len.
  unfold check_byte at 1.
  destruct (is_byte (r_level r)); cbn [res_bind]; [|raised].
  split; [reflexivity|].
  unfold buf_assert, buf_lift, py_assert.
  replace (_ =? SIZE_Pokemon L)%nat with true
    by (symmetry; apply Nat.eqb_eq; lia).
  rewrite <- !app_assoc. reflexivity.
Qed.

End PokemonImage.

(** ** Reading a record back *)

Lemma getitem_splice_at (off : nat) (image b : list Z) (i k : nat) :
  i = (off + k)%nat -> (k < length image)%nat -> (off <= length b)%nat ->
  getitem (splice off image b) i = py_nth image k.
Proof.
  intros -> Hk Hoff. unfold getitem, py_nth. by rewrite lookup_splice.
Qed.

Lemma getpair_splice_at (off : nat) (image b : list Z) (i k : nat) :
  i = (off + k)%nat -> (k + 2 <= length image)%nat ->
  (off + length image <= length b)%nat ->
  getpair (splice off image b) i
  = (x <- py_nth image k ;; y <- py_nth image (k + 1) ;; Ok (x, y))%res.
Proof.
  intros -> Hk Hoff. unfold getpair. rewrite length_splice by lia.
  destruct (Nat.leb_spec (off + k + 2) (length b)); [|lia].
  unfold py_nth. rewrite lookup_splice by lia.
  replace (off + k + 1)%nat with (off + (k + 1))%nat by lia.
  by rewrite lookup_splice by lia.
Qed.

Section Readers.
Variable D : StaticData.
Variable L : Layout.
Hypothesis Hlayout : Pokemon_layout_ok L.

(** The readers on a buffer that holds the 24 bytes [a0 ... a23] of a
    record. *)
Lemma readers_of_record (b : list Z)
  (a0 a1 a2 a3 a4 a5 a6 a7 a8 a9 a10 a11 a12 a13 a14 a15 a16 a17 a18 a19
   a20 a21 a22 a23 : Z) :
  length b = SIZE_Pokemon L ->
  let b' := splice (Pokemon_stats L)
              [a0; a1; a2; a3; a4; a5; a6; a7; a8; a9; a10; a11; a12; a13;
               a14; a15; a16; a17; a18; a19; a20; a21; a22; a23] b in
  Pokemon_stats_reader L b'
  = Ok (mkStats (unpack_u16_from_bytes a0 a1) (unpack_u16_from_bytes a2 a3)
          (unpack_u16_from_bytes a4 a5) (unpack_u16_from_bytes a6 a7)
          (unpack_u16_from_bytes a8 a9))
  /\ Pokemon_moves_reader D L b'
     = slots_moves D [(a10, a11); (a12, a13); (a14, a15); (a16, a17)]
  /\ Pokemon_pp_left L b'
     = Ok (slots_pp [(a10, a11); (a12, a13); (a14, a15); (a16, a17)])
  /\ Pokemon_hp_reader L b' = Ok (unpack_u16_from_bytes a18 a19)
  /\ Pokemon_status_reader L b' = Ok a20
  /\ Pokemon_species_reader D L b' = lookup_get (SPECIES_ID_LOOKUP D) a21
  /\ Pokemon_types_reader D L b'
     = (type1 <- py_nth (TYPES D) (Z.to_nat (fst (unpack_two_u4s a22))) ;;
        type2 <- py_nth (TYPES D) (Z.to_nat (snd (unpack_two_u4s a22))) ;;
        Ok (type1, type2))%res
  /\ Pokemon_level_reader L b' = Ok a23.
Proof.
  intros Hlen. destruct Hlayout as (Hm & Hh & Hs & Hsp & Ht & Hl & Hsz).
  set (o := Pokemon_stats L) in *.
  set (image := [a0; a1; a2; a3; a4; a5; a6; a7; a8; a9; a10; a11; a12; a13;
                 a14; a15; a16; a17; a18; a19; a20; a21; a22; a23]).
  assert (Himage : length image = 24%nat) by reflexivity.
  cbn zeta.
  repeat split.
  - unfold Pokemon_stats_reader. fold o.
    rewrite (getpair_splice_at o image b _ 0) by lia.
    rewrite (getpair_splice_at o image b _ 2) by lia.
    rewrite (getpair_splice_at o image b _ 4) by lia.
    rewrite (getpair_splice_at o image b _ 6) by lia.
    rewrite (getpair_splice_at o image b _ 8) by lia.
    reflexivity.
  - unfold Pokemon_moves_reader. cbn [moves_from slots_moves].
    rewrite (getitem_splice_at o image b _ 10) by lia.
    rewrite (getitem_splice_at o image b _ 12) by lia.
    rewrite (getitem_splice_at o image b _ 14) by lia.
    rewrite (getitem_splice_at o image b _ 16) by lia.
    cbn [image py_nth lookup list_lookup res_bind].
    destruct (a10 =? 0), (a12 =? 0), (a14 =? 0), (a16 =? 0); reflexivity.
  - unfold Pokemon_pp_left. cbn [pp_from slots_pp].
    rewrite (getitem_splice_at o image b (_ + 1 - 1) 10) by lia.
    rewrite (getitem_splice_at o image b (_ + 3 - 1) 12) by lia.
    rewrite (getitem_splice_at o image b (_ + 5 - 1) 14) by lia.
    rewrite (getitem_splice_at o image b (_ + 7 - 1) 16) by lia.
    rewrite (getitem_splice_at o image b (_ + 1) 11) by lia.
    rewrite (getitem_splice_at o image b (_ + 3) 13) by lia.
    rewrite (getitem_splice_at o image b (_ + 5) 15) by lia.
    rewrite (getitem_splice_at o image b (_ + 7) 17) by lia.
    cbn [image py_nth lookup list_lookup res_bind].
    destruct (a10 =? 0), (a12 =? 0), (a14 =? 0), (a16 =? 0); reflexivity.
  - unfold Pokemon_hp_reader.
    rewrite (getpair_splice_at o image b _ 18) by lia. reflexivity.
  - unfold Pokemon_status_reader.
    rewrite (getitem_splice_at o image b _ 20) by lia. reflexivity.
  - unfold Pokemon_species_reader.
    rewrite (getitem_splice_at o image b _ 21) by lia. reflexivity.
  - unfold Pokemon_types_reader.
    rewrite (getitem_splice_at o image b _ 22) by lia. reflexivity.
  - unfold Pokemon_level_reader.
    rewrite (getitem_splice_at o image b _ 23) by lia. reflexivity.
Qed.

End Readers.

(** ** The record image, field by field *)

Ltac bind_inv H :=
  match type of H with
  | res_bind ?m _ = Ok _ =>
      let E := fresh "E" in
      destruct m eqn:E; cbn [res_bind] in H; [|discriminate H]
  end.

Lemma check_byte_Ok (v x : Z) :
  check_byte v = Ok x -> x = v /\ is_byte v = true.
Proof. unfold check_byte. destruct (is_byte v); [|done]. by intros [= <-]. Qed.

Section PokemonFields.
Variable D : StaticData.

Lemma checked_slot_Ok (names : list string) (pps : option (list Z)) (i : nat)
  (s : list Z) :
  checked_slot D names pps i = Ok s ->
  exists slot, move_slot D names pps i = Ok slot /\ s = [fst slot; snd slot]
               /\ is_byte (fst slot) = true /\ is_byte (snd slot) = true.
Proof.
  unfold checked_slot. intros H. repeat bind_inv H.
  apply check_byte_Ok in E0 as [-> ?], E1 as [-> ?].
  injection H as <-. by eexists.
Qed.

Lemma checked_slot_intro (names : list string) (pps : option (list Z))
  (i : nat) (slot : Z * Z) :
  move_slot D names pps i = Ok slot ->
  is_byte (fst slot) = true -> is_byte (snd slot) = true ->
  checked_slot D names pps i = Ok [fst slot; snd slot].
Proof.
  intros H H1 H2. unfold checked_slot, check_byte. rewrite H. cbn.
  by rewrite H1, H2.
Qed.

Lemma Pokemon_image_inv (data : PokemonInitializer) (image : list Z) :
  Pokemon_image D data = Ok image ->
  exists r s0 s1 s2 s3 sid t1 t2,
    resolve D data = Ok r
    /\ Forall2 (fun i s => move_slot D (move_names data) (r_move_pp r) i = Ok s)
         [0; 1; 2; 3]%nat [s0; s1; s2; s3]
    /\ SPECIES_IDS D !! species_name data = Some sid
    /\ list_index (fst (r_types r)) (TYPES D) = Some t1
    /\ list_index (snd (r_types r)) (TYPES D) = Some t2
    /\ image = record_image r s0 s1 s2 s3 sid
                 (pack_two_u4s (Z.of_nat t1) (Z.of_nat t2)).
Proof.
  unfold Pokemon_image. intros H. repeat bind_inv H.
  apply checked_slot_Ok in E0 as (s0 & ? & -> & _).
  apply checked_slot_Ok in E1 as (s1 & ? & -> & _).
  apply checked_slot_Ok in E2 as (s2 & ? & -> & _).
  apply checked_slot_Ok in E3 as (s3 & ? & -> & _).
  apply check_byte_Ok in E4 as [-> _], E6 as [-> _], E9 as [-> _],
    E10 as [-> _].
  unfold dict_get in E5. destruct (SPECIES_IDS D !! _) eqn:Hsid; [|done].
  injection E5 as ->.
  unfold py_index in E7, E8.
  destruct (list_index (fst _) _) eqn:Ht1; [|done]. injection E7 as ->.
  destruct (list_index (snd _) _) eqn:Ht2; [|done]. injection E8 as ->.
  injection H as <-.
  exists a, s0, s1, s2, s3, a5, a7, a8.
  repeat split; try done. by repeat constructor.
Qed.

Lemma Pokemon_image_intro (data : PokemonInitializer) (r : Resolved)
  (s0 s1 s2 s3 : Z * Z) (sid : Z) (t1 t2 : nat) :
  resolve D data = Ok r ->
  Forall2 (fun i s => move_slot D (move_names data) (r_move_pp r) i = Ok s
                      /\ is_byte (fst s) = true /\ is_byte (snd s) = true)
    [0; 1; 2; 3]%nat [s0; s1; s2; s3] ->
  is_byte (r_status r) = true ->
  SPECIES_IDS D !! species_name data = Some sid -> is_byte sid = true ->
  list_index (fst (r_types r)) (TYPES D) = Some t1 ->
  list_index (snd (r_types r)) (TYPES D) = Some t2 ->
  is_byte (pack_two_u4s (Z.of_nat t1) (Z.of_nat t2)) = true ->
  is_byte (r_level r) = true ->
  Pokemon_image D data
  = Ok (record_image r s0 s1 s2 s3 sid
          (pack_two_u4s (Z.of_nat t1) (Z.of_nat t2))).
Proof.
  intros Hr Hslots Hstatus Hsid Hsidb Ht1 Ht2 Htb Hlevel.
  apply Forall2_cons_1 in Hslots as [(Hm0 & ? & ?) Hslots].
  apply Forall2_cons_1 in Hslots as [(Hm1 & ? & ?) Hslots].
  apply Forall2_cons_1 in Hslots as [(Hm2 & ? & ?) Hslots].
  apply Forall2_cons_1 in Hslots as [(Hm3 & ? & ?) _].
  unfold Pokemon_image. rewrite Hr. cbn [res_bind].
  rewrite !(checked_slot_intro _ _ _ _ Hm0), !(checked_slot_intro _ _ _ _ Hm1),
    !(checked_slot_intro _ _ _ _ Hm2), !(checked_slot_intro _ _ _ _ Hm3)
    by done.
  cbn [res_bind]. unfold check_byte, dict_get, py_index.
  rewrite Hstatus. cbn [res_bind]. rewrite Hsid. cbn [res_bind].
  rewrite Hsidb. cbn [res_bind]. rewrite Ht1. cbn [res_bind].
  rewrite Ht2. cbn [res_bind]. rewrite Htb. cbn [res_bind].
  rewrite Hlevel. reflexivity.
Qed.

(** *** The move slots *)

Lemma move_slot_unused (names : list string) (pps : option (list Z)) (i : nat) :
  (length names <= i)%nat -> move_slot D names pps i = Ok (0, 0).
Proof.
  intros H. unfold move_slot. by destruct (Nat.leb_spec (length names) i); [|lia].
Qed.

Lemma move_slot_used (names : list string) (pps : option (list Z)) (i : nat)
  (name : string) (id : Z) (s : Z * Z) :
  names !! i = Some name -> MOVE_IDS D !! name = Some id ->
  move_slot D names pps i = Ok s ->
  fst s = id
  /\ match pps with
     | Some l => l !! i = Some (snd s)
     | None => default_pp D name id = Ok (snd s)
     end.
Proof.
  intros Hname Hid. unfold move_slot.
  pose proof (lookup_lt_Some _ _ _ Hname).
  destruct (Nat.leb_spec (length names) i); [lia|].
  unfold py_nth, dict_get. rewrite Hname. cbn [res_bind]. rewrite Hid.
  cbn [res_bind]. destruct pps as [l|].
  - destruct (l !! i); [|done]. cbn. by intros [= <-].
  - destruct (default_pp D name id); [|done]. cbn. by intros [= <-].
Qed.

Lemma slots_of_names (names : list string) (pps : option (list Z)) :
  Forall (real_move D) names ->
  forall (k i : nat) (sl : list (Z * Z)),
    Forall2 (fun j s => move_slot D names pps j = Ok s) (seq i k) sl ->
    (length names <= i + k)%nat ->
    slots_moves D sl = Ok (drop i names)
    /\ slots_pp sl = snd <$> take (length names - i) sl
    /\ match pps with
       | Some l => (length names <= length l)%nat ->
                   slots_pp sl = take (length names - i) (drop i l)
       | None => True
       end.
Proof.
  intros Hreal. induction k as [|k IH]; intros i sl Hsl Hlen.
  - apply Forall2_nil_inv_l in Hsl as ->. cbn in *.
    rewrite drop_ge by lia. replace (length names - i)%nat with 0%nat by lia.
    repeat split. by destruct pps.
  - cbn [seq] in Hsl.
    apply Forall2_cons_inv_l in Hsl as (s & sl' & Hs & Hsl' & ->).
    destruct (IH (S i) sl' Hsl' ltac:(lia)) as (IHm & IHp & IHl).
    destruct (decide (i < length names)%nat) as [Hi|Hi].
    + destruct (lookup_lt_is_Some_2 names i Hi) as [name Hname].
      pose proof (proj1 (Forall_lookup _ _) Hreal i name Hname)
        as (id & Hid & Hpos & Hback).
      destruct (move_slot_used _ _ _ _ _ _ Hname Hid Hs) as [Hfst Hpp].
      destruct s as [id' pp]. cbn [fst snd] in *. subst id'.
      cbn [slots_moves slots_pp].
      destruct (Z.eqb_spec id 0); [lia|].
      unfold lookup_get. rewrite Hback. cbn [res_bind]. rewrite IHm.
      cbn [res_bind].
      replace (length names - i)%nat with (S (length names - S i)) by lia.
      rewrite (drop_S _ _ _ Hname). cbn [take fmap list_fmap snd].
      repeat split.
      * by rewrite IHp.
      * destruct pps as [l|]; [|done]. intros Hl.
        rewrite (drop_S _ _ _ Hpp). cbn [take]. by rewrite IHl.
    + rewrite (move_slot_unused names pps i) in Hs by lia.
      injection Hs as <-. cbn [slots_moves slots_pp].
      change (0 =? 0) with true. cbn match.
      replace (length names - i)%nat with 0%nat by lia.
      replace (length names - S i)%nat with 0%nat in IHp, IHl by lia.
      rewrite drop_ge in IHm by lia. rewrite drop_ge by lia.
      rewrite take_0 in *. repeat split; [done..|].
      destruct pps as [l|]; [|done]. intros Hl. rewrite take_0 in *. by apply IHl.
Qed.

End PokemonFields.

(** ** [Pokemon.initialize] and the readers *)

Lemma gen1_layout_ok : Pokemon_layout_ok gen1_layout.
Proof. by repeat split. Qed.

Section PokemonTheory.
Variable D : StaticData.
Variable L : Layout.
Hypothesis Hlayout : Pokemon_layout_ok L.

Lemma readers_of_record_image (b : list Z) (r : Resolved)
  (s0 s1 s2 s3 : Z * Z) (sid t : Z) :
  length b = SIZE_Pokemon L ->
  let b' := splice (Pokemon_stats L) (record_image r s0 s1 s2 s3 sid t) b in
  Pokemon_stats_reader L b'
  = Ok (mkStats
          (unpack_u16_from_bytes (Z.land (st_hp (r_stats r)) 255)
             (Z.land (Z.shiftr (st_hp (r_stats r)) 8) 255))
          (unpack_u16_from_bytes (Z.land (st_atk (r_stats r)) 255)
             (Z.land (Z.shiftr (st_atk (r_stats r)) 8) 255))
          (unpack_u16_from_bytes (Z.land (st_def (r_stats r)) 255)
             (Z.land (Z.shiftr (st_def (r_stats r)) 8) 255))
          (unpack_u16_from_bytes (Z.land (st_spe (r_stats r)) 255)
             (Z.land (Z.shiftr (st_spe (r_stats r)) 8) 255))
          (unpack_u16_from_bytes (Z.land (st_spc (r_stats r)) 255)
             (Z.land (Z.shiftr (st_spc (r_stats r)) 8) 255)))
  /\ Pokemon_moves_reader D L b' = slots_moves D [s0; s1; s2; s3]
  /\ Pokemon_pp_left L b' = Ok (slots_pp [s0; s1; s2; s3])
  /\ Pokemon_hp_reader L b'
     = Ok (unpack_u16_from_bytes (Z.land (r_hp r) 255)
             (Z.land (Z.shiftr (r_hp r) 8) 255))
  /\ Pokemon_status_reader L b' = Ok (r_status r)
  /\ Pokemon_species_reader D L b' = lookup_get (SPECIES_ID_LOOKUP D) sid
  /\ Pokemon_types_reader D L b'
     = (type1 <- py_nth (TYPES D) (Z.to_nat (fst (unpack_two_u4s t))) ;;
        type2 <- py_nth (TYPES D) (Z.to_nat (snd (unpack_two_u4s t))) ;;
        Ok (type1, type2))%res
  /\ Pokemon_level_reader L b' = Ok (r_level r).
Proof.
  intros Hb. destruct s0, s1, s2, s3.
  exact (readers_of_record D L Hlayout b _ _ _ _ _ _ _ _ _ _ _ _ _ _ _ _ _ _
           _ _ _ _ _ _ Hb).
Qed.

(** A successful [initialize] wrote a record image over the buffer. *)
Lemma Pokemon_initialize_Ok_inv (data : PokemonInitializer) (b b' : list Z) :
  length b = SIZE_Pokemon L ->
  Pokemon_initialize D L data b = (Ok tt, b') ->
  exists image, Pokemon_image D data = Ok image /\ length image = 24%nat
                /\ b' = splice (Pokemon_stats L) image b.
Proof.
  intros Hb Hinit.
  pose proof (Pokemon_initialize_image D L Hlayout data b Hb) as Him.
  destruct (Pokemon_image D data) as [image|e].
  - destruct Him as [Hlen Hrun]. rewrite Hrun in Hinit.
    injection Hinit as <-. by exists image.
  - destruct Him as (e' & b'' & Hrun). rewrite Hrun in Hinit. done.
Qed.

Lemma resolve_move_pp (data : PokemonInitializer) (r : Resolved) :
  resolve D data = Ok r ->
  r_move_pp r = x_move_pp (default no_extra (extra_data data)).
Proof. unfold resolve. intros H. bind_inv H. by injection H as <-. Qed.

(** An unknown species is found before anything is written. *)
Lemma unknown_species_leaves_buffer (data : PokemonInitializer) (b : list Z)
  (e : py_error) :
  resolve D data = Raise e -> Pokemon_initialize D L data b = (Raise e, b).
Proof. intros H. unfold Pokemon_initialize. by rewrite H. Qed.

(** C7: after [initialize] with a moveset of [N] moves, [1 <= N <= 4], each
    name resolving to a non-zero id that the reverse lookup maps back,
    [moves()] returns the moveset in its order and [pp_left()] returns
    exactly [N] entries, entry [i] being the PP written for move [i]; the
    unused trailing slots contribute nothing. *)
Theorem moves_and_pp_left_have_N_entries
  (data : PokemonInitializer) (b b' : list Z)
  (Hbuf : length b = SIZE_Pokemon L)
  (Hinit : Pokemon_initialize D L data b = (Ok tt, b'))
  (HN : (1 <= length (move_names data) <= 4)%nat)
  (Hreal : Forall (real_move D) (move_names data)) :
  Pokemon_moves_reader D L b' = Ok (move_names data)
  /\ exists pps : list Z,
       Pokemon_pp_left L b' = Ok pps
       /\ length pps = length (move_names data)
       /\ forall (i : nat) (name : string),
            move_names data !! i = Some name ->
            exists slot,
              move_slot D (move_names data)
                (x_move_pp (default no_extra (extra_data data))) i = Ok slot
              /\ fst slot <> 0
              /\ pps !! i = Some (snd slot).
Proof.
  destruct (Pokemon_initialize_Ok_inv data b b' Hbuf Hinit)
    as (image & Himage & _ & ->).
  apply Pokemon_image_inv in Himage
    as (r & s0 & s1 & s2 & s3 & sid & t1 & t2 & Hr & Hslots & _ & _ & _ & ->).
  destruct (readers_of_record_image b r s0 s1 s2 s3 sid
              (pack_two_u4s (Z.of_nat t1) (Z.of_nat t2)) Hbuf)
    as (_ & Hmoves & Hpp & _).
  rewrite Hmoves, Hpp.
  rewrite (resolve_move_pp _ _ Hr) in Hslots.
  destruct (slots_of_names D (move_names data) _ Hreal 4 0 _ Hslots ltac:(lia))
    as (Hm & Hp & _).
  rewrite drop_0 in Hm. rewrite Nat.sub_0_r in Hp.
  split; [exact Hm|]. eexists. split; [reflexivity|]. rewrite Hp. split.
  - rewrite length_fmap, length_take. cbn [length]. lia.
  - intros i name Hname. pose proof (lookup_lt_Some _ _ _ Hname) as Hi.
    destruct (lookup_lt_is_Some_2 [s0; s1; s2; s3] i ltac:(cbn; lia))
      as [slot Hslot].
    assert (Hseq : seq 0 4 !! i = Some i)
      by (apply lookup_seq; cbn; lia).
    pose proof (Forall2_lookup_lr _ _ _ _ _ _ Hslots Hseq Hslot) as Hms.
    pose proof (proj1 (Forall_lookup _ _) Hreal i name Hname)
      as (id & Hid & Hpos & _).
    destruct (move_slot_used D _ _ _ _ _ _ Hname Hid Hms) as [Hfst _].
    exists slot. split; [exact Hms|]. split; [lia|].
    rewrite list_lookup_fmap, lookup_take_lt by lia. by rewrite Hslot.
Qed.

End PokemonTheory.

Lemma moves_and_pp_left_have_N_entries_witness :
  Pokemon_moves_reader sample_data gen1_layout
    (snd (Pokemon_initialize sample_data gen1_layout
            (mkInit "Mew" ["Psychic"; "Metronome"] None) (replicate 24 0)))
  = Ok ["Psychic"; "Metronome"]%string
  /\ Pokemon_pp_left gen1_layout
       (snd (Pokemon_initialize sample_data gen1_layout
               (mkInit "Mew" ["Psychic"; "Metronome"] None) (replicate 24 0)))
     = Ok [16; 16].
Proof.
  destruct (moves_and_pp_left_have_N_entries sample_data gen1_layout
              gen1_layout_ok (mkInit "Mew" ["Psychic"; "Metronome"] None)
              (replicate 24 0)
              (snd (Pokemon_initialize sample_data gen1_layout
                      (mkInit "Mew" ["Psychic"; "Metronome"] None)
                      (replicate 24 0))))
    as [Hmoves _].
  - reflexivity.
  - vm_compute. reflexivity.
  - cbn. lia.
  - repeat constructor.
    + exists 94. split; [reflexivity|]. split; [lia|reflexivity].
    + exists 118. split; [reflexivity|]. split; [lia|reflexivity].
  - split; [exact Hmoves|]. vm_compute. reflexivity.
Defined.

(** ** The round trip of an explicit initializer *)

Section RoundTrip.
Variable D : StaticData.
Variable L : Layout.
Hypothesis Hlayout : Pokemon_layout_ok L.

Lemma resolve_explicit (species : string) (names : list string)
  (stats : Gen1StatData) (hp status level : Z) (types : string * string)
  (move_pp : list Z) (dvs exp : option Gen1StatData) :
  species = "None"%string \/ is_Some (SPECIES D !! species) ->
  resolve D
    (mkInit species names
       (Some (mkExtra (Some hp) (Some status) (Some level) (Some stats)
                (Some types) (Some move_pp) dvs exp)))
  = Ok (mkResolved hp status level stats types (Some move_pp)).
Proof.
  intros [->|[sp Hsp]]; unfold resolve; cbn; [reflexivity|].
  destruct (String.eqb species "None"); [reflexivity|].
  by rewrite Hsp.
Qed.

Lemma move_slot_supplied (names : list string) (move_pp : list Z) (i : nat) :
  Forall (byte_move D) names ->
  (length names <= length move_pp)%nat ->
  Forall (fun p => 0 <= p <= 255) (take (length names) move_pp) ->
  exists s, move_slot D names (Some move_pp) i = Ok s
            /\ is_byte (fst s) = true /\ is_byte (snd s) = true.
Proof.
  intros Hbyte Hlen Hpp.
  destruct (decide (i < length names)%nat) as [Hi|Hi].
  - destruct (lookup_lt_is_Some_2 names i Hi) as [name Hname].
    destruct (lookup_lt_is_Some_2 move_pp i ltac:(lia)) as [p Hp].
    pose proof (proj1 (Forall_lookup _ _) Hbyte i name Hname)
      as (id & Hid & Hpos).
    assert (Hp' : take (length names) move_pp !! i = Some p)
      by (by rewrite lookup_take_lt).
    pose proof (proj1 (Forall_lookup _ _) Hpp i p Hp') as Hrange.
    cbn beta in Hrange.
    exists (id, p). unfold move_slot, py_nth, dict_get.
    destruct (Nat.leb_spec (length names) i); [lia|].
    rewrite Hname. cbn [res_bind]. rewrite Hid. cbn [res_bind].
    rewrite Hp. cbn [res_bind fst snd].
    split; [reflexivity|]. split; apply is_byte_spec; cbn [fst snd]; lia.
  - exists (0, 0). rewrite move_slot_unused by lia. by repeat split.
Qed.

(** C5 (amended): an initializer that supplies stats and HP in 16 bits,
    status and level in a byte, two types of the type table (of at most 16
    entries), for a species the tables know and a moveset of [N] real moves
    with 8-bit ids, [1 <= N <= 4], with a byte of PP for each of them:
    [initialize] succeeds and [stats()], [hp()], [status()], [types()], [level()] and [moves()]
    return what was supplied; [pp_left()] returns the PP supplied for the [N]
    moves. *)
Theorem explicit_initializer_round_trip
  (species : string) (names : list string) (stats : Gen1StatData)
  (hp status level : Z) (types : string * string) (move_pp : list Z)
  (dvs exp : option Gen1StatData) (b : list Z)
  (Hbuf : length b = SIZE_Pokemon L)
  (Hspecies : species = "None"%string \/ is_Some (SPECIES D !! species))
  (Hid : exists sid, SPECIES_IDS D !! species = Some sid /\ 0 <= sid <= 255)
  (Hstats : 0 <= st_hp stats <= 65535 /\ 0 <= st_atk stats <= 65535 /\
            0 <= st_def stats <= 65535 /\ 0 <= st_spe stats <= 65535 /\
            0 <= st_spc stats <= 65535)
  (Hhp : 0 <= hp <= 65535)
  (Hstatus : 0 <= status <= 255)
  (Hlevel : 0 <= level <= 255)
  (Htypes : fst types ∈ TYPES D /\ snd types ∈ TYPES D /\
            (length (TYPES D) <= 16)%nat)
  (HN : (1 <= length names <= 4)%nat)
  (Hreal : Forall (real_move D) names)
  (Hids : Forall (byte_move D) names)
  (Hpp : (length names <= length move_pp)%nat /\
         Forall (fun p => 0 <= p <= 255) (take (length names) move_pp)) :
  exists b',
    Pokemon_initialize D L
      (mkInit species names
         (Some (mkExtra (Some hp) (Some status) (Some level) (Some stats)
                  (Some types) (Some move_pp) dvs exp))) b
    = (Ok tt, b')
    /\ Pokemon_stats_reader L b' = Ok stats
    /\ Pokemon_hp_reader L b' = Ok hp
    /\ Pokemon_status_reader L b' = Ok status
    /\ Pokemon_types_reader D L b' = Ok types
    /\ Pokemon_level_reader L b' = Ok level
    /\ Pokemon_moves_reader D L b' = Ok names
    /\ Pokemon_pp_left L b' = Ok (take (length names) move_pp).
Proof.
  set (data := mkInit species names _).
  set (r := mkResolved hp status level stats types (Some move_pp)).
  assert (Hr : resolve D data = Ok r) by by apply resolve_explicit.
  destruct Hid as (sid & Hsid & Hsidr).
  destruct Htypes as (Ht1 & Ht2 & Hlen).
  destruct Hpp as [Hpplen Hppr].
  apply list_index_elem_of in Ht1 as [t1 Ht1], Ht2 as [t2 Ht2].
  pose proof (list_index_lt _ _ _ Ht1). pose proof (list_index_lt _ _ _ Ht2).
  destruct (unpack_pack_two_u4s (Z.of_nat t1) (Z.of_nat t2)
              ltac:(lia) ltac:(lia)) as [Htb Hunpack].
  destruct (move_slot_supplied names move_pp 0 Hids Hpplen Hppr)
    as (s0 & Hs0 & ? & ?).
  destruct (move_slot_supplied names move_pp 1 Hids Hpplen Hppr)
    as (s1 & Hs1 & ? & ?).
  destruct (move_slot_supplied names move_pp 2 Hids Hpplen Hppr)
    as (s2 & Hs2 & ? & ?).
  destruct (move_slot_supplied names move_pp 3 Hids Hpplen Hppr)
    as (s3 & Hs3 & ? & ?).
  assert (Himage : Pokemon_image D data
                   = Ok (record_image r s0 s1 s2 s3 sid
                           (pack_two_u4s (Z.of_nat t1) (Z.of_nat t2)))).
  { apply Pokemon_image_intro; try done.
    - by repeat constructor.
    - apply is_byte_spec; cbn; lia.
    - apply is_byte_spec; lia.
    - apply is_byte_spec; cbn; lia. }
  pose proof (Pokemon_initialize_image D L Hlayout data b Hbuf) as Hrun.
  rewrite Himage in Hrun. destruct Hrun as [_ Hrun].
  eexists. split; [exact Hrun|].
  destruct (readers_of_record_image D L Hlayout b r s0 s1 s2 s3 sid
              (pack_two_u4s (Z.of_nat t1) (Z.of_nat t2)) Hbuf)
    as (Rstats & Rmoves & Rpp & Rhp & Rstatus & _ & Rtypes & Rlevel).
  destruct (slots_of_names D names (Some move_pp) Hreal 4 0 [s0; s1; s2; s3]
              ltac:(by repeat constructor) ltac:(lia)) as (Hm & _ & Hp).
  rewrite drop_0 in Hm. specialize (Hp Hpplen).
  rewrite drop_0, Nat.sub_0_r in Hp.
  repeat split.
  - rewrite Rstats. cbn [r r_stats]. destruct stats as [h a d s c].
    cbn [st_hp st_atk st_def st_spe st_spc] in *.
    by rewrite !unpack_pack_u16 by lia.
  - rewrite Rhp. cbn [r r_hp]. by rewrite unpack_pack_u16.
  - by rewrite Rstatus.
  - rewrite Rtypes, Hunpack. cbn [fst snd]. rewrite !Nat2Z.id.
    unfold py_nth.
    rewrite (list_index_lookup _ _ _ Ht1), (list_index_lookup _ _ _ Ht2).
    cbn [r r_types res_bind]. by destruct types.
  - by rewrite Rlevel.
  - by rewrite Rmoves.
  - by rewrite Rpp, Hp.
Qed.

End RoundTrip.

Lemma explicit_initializer_round_trip_witness :
  exists b',
    Pokemon_initialize sample_data gen1_layout
      (mew_explicit ["Psychic"; "Fire Blast"] [5; 6; 7; 8]) (replicate 24 0)
    = (Ok tt, b')
    /\ Pokemon_stats_reader gen1_layout b' = Ok mew_stats
    /\ Pokemon_hp_reader gen1_layout b' = Ok 250
    /\ Pokemon_status_reader gen1_layout b' = Ok 8
    /\ Pokemon_types_reader sample_data gen1_layout b'
       = Ok ("Psychic", "Normal")%string
    /\ Pokemon_level_reader gen1_layout b' = Ok 50
    /\ Pokemon_moves_reader sample_data gen1_layout b'
       = Ok ["Psychic"; "Fire Blast"]%string
    /\ Pokemon_pp_left gen1_layout b' = Ok [5; 6].
Proof.
  apply (explicit_initializer_round_trip sample_data gen1_layout
           gen1_layout_ok "Mew" ["Psychic"; "Fire Blast"] mew_stats 250 8 50
           ("Psychic", "Normal")%string [5; 6; 7; 8] None None
           (replicate 24 0)).
  - reflexivity.
  - right. by eexists.
  - exists 151. split; [reflexivity|lia].
  - cbn. lia.
  - lia.
  - lia.
  - lia.
  - cbn. split; [|split; [|lia]]; apply list_elem_of_In; cbn; tauto.
  - cbn. lia.
  - repeat constructor.
    + exists 94. split; [reflexivity|]. split; [lia|reflexivity].
    + exists 126. split; [reflexivity|]. split; [lia|reflexivity].
  - repeat constructor.
    + exists 94. split; [reflexivity|lia].
    + exists 126. split; [reflexivity|lia].
  - split; [cbn; lia|]. cbn. repeat constructor; lia.
Defined.

(** C5 as stated fails on a moveset of fewer than four moves: [move_pp] is
    a tuple of four PP values, [initialize] writes the first [N] of them and
    [pp_left()] returns those [N], not the four that were supplied. *)
Lemma short_moveset_pp_does_not_round_trip :
  exists b',
    Pokemon_initialize sample_data gen1_layout
      (mew_explicit ["Psychic"] [5; 6; 7; 8]) (replicate 24 0)
    = (Ok tt, b')
    /\ Pokemon_moves_reader sample_data gen1_layout b' = Ok ["Psychic"%string]
    /\ Pokemon_pp_left gen1_layout b' = Ok [5]
    /\ Pokemon_pp_left gen1_layout b' <> Ok [5; 6; 7; 8].
Proof.
  eexists. split; [vm_compute; reflexivity|].
  split; [vm_compute; reflexivity|].
  split; [vm_compute; reflexivity|by vm_compute].
Qed.

(** A moveset padded to four names with [None] does not come back either:
    the [None] entries are move id 0, which [moves()] and [pp_left()] skip. *)
Example padded_moveset_skips_None :
  exists b',
    Pokemon_initialize sample_data gen1_layout
      (mew_explicit ["Psychic"; "None"; "None"; "None"] [5; 0; 0; 0])
      (replicate 24 0)
    = (Ok tt, b')
    /\ Pokemon_moves_reader sample_data gen1_layout b' = Ok ["Psychic"%string]
    /\ Pokemon_pp_left gen1_layout b' = Ok [5].
Proof. eexists. repeat split; vm_compute; reflexivity. Qed.

(** ** An unknown move *)

(** With the stats written first, a move name that is not in [MOVE_IDS]
    raises after the stats and the slots before it have been overwritten. *)
Lemma unknown_first_move_writes_stats (D : StaticData) (L : Layout)
  (data : PokemonInitializer) (r : Resolved) (name : string)
  (rest : list string) (b : list Z) :
  Pokemon_layout_ok L -> length b = SIZE_Pokemon L ->
  resolve D data = Ok r -> move_names data = name :: rest ->
  MOVE_IDS D !! name = None ->
  Pokemon_initialize D L data b
  = (Raise (KeyError name),
     splice (Pokemon_stats L)
       (stats_bytes (r_stats r) [hp_; atk_; def_; spe_; spc_]) b).
Proof.
  intros (Hm & Hh & Hs & Hsp & Ht & Hl & Hsz) Hlen Hr Hnames Hname.
  unfold Pokemon_initialize. rewrite Hr, buf_bind_lift_Ok.
  set (o := Pokemon_stats L) in *.
  destruct (pack_stats_splice (r_stats r) [hp_; atk_; def_; spe_; spc_]
              o [] b o) as (j & Hj & Hrun); [cbn; lia|cbn; lia|].
  rewrite splice_nil in Hrun. cbn [length] in Hj.
  rewrite (buf_bind_Ok _ _ _ _ _ Hrun). cbn [app].
  rewrite buf_assert_eq by lia.
  cbn [pack_moves]. rewrite !buf_bind_assoc.
  unfold move_slot at 1. rewrite Hnames. cbn [length Nat.leb py_nth].
  cbn. unfold dict_get. rewrite Hname. reflexivity.
Qed.

(** C3 (as the code behaves): on a fresh zero-filled buffer, initializing
    Mew with the moves Psychic and an unknown name raises [KeyError] with
    the five stats and the first move slot already written. *)
Theorem unknown_move_raises_after_writes :
  Pokemon_initialize sample_data gen1_layout
    (mkInit "Mew" ["Psychic"; "Not A Move"] None) (replicate 24 0)
  = (Raise (KeyError "Not A Move"),
     [147; 1; 42; 1; 42; 1; 42; 1; 42; 1; 94; 16;
      0; 0; 0; 0; 0; 0; 0; 0; 0; 0; 0; 0])
  /\ [147; 1; 42; 1; 42; 1; 42; 1; 42; 1; 94; 16;
      0; 0; 0; 0; 0; 0; 0; 0; 0; 0; 0; 0] <> replicate 24 0.
Proof. split; [vm_compute; reflexivity|by vm_compute]. Qed.

(** ** Views into the store *)

Lemma splice_splice_app (off : nat) (acc w b : list Z) :
  (off + length acc + length w <= length b)%nat ->
  splice (off + length acc) w (splice off acc b) = splice off (acc ++ w) b.
Proof.
  intros H. unfold splice.
  rewrite take_app_ge by (rewrite length_take; lia).
  rewrite length_take, Nat.min_l by lia.
  replace (off + length acc - off)%nat with (length acc) by lia.
  rewrite take_app_ge by lia. rewrite Nat.sub_diag, take_0, app_nil_r.
  rewrite drop_app_ge by (rewrite length_take; lia).
  rewrite length_take, Nat.min_l by lia.
  rewrite drop_app_ge by lia. rewrite drop_drop, length_app.
  rewrite <- !app_assoc. do 3 f_equal. f_equal. lia.
Qed.

Lemma lookup_splice_lt (off : nat) (acc b : list Z) (k : nat) :
  (k < off)%nat -> (off <= length b)%nat -> splice off acc b !! k = b !! k.
Proof.
  intros Hk Hoff. unfold splice.
  rewrite lookup_app_l by (rewrite length_take; lia).
  by rewrite lookup_take_lt.
Qed.

Lemma lookup_splice_ge (off : nat) (acc b : list Z) (k : nat) :
  (off + length acc <= k)%nat -> (off <= length b)%nat ->
  splice off acc b !! k = b !! k.
Proof.
  intros Hk Hoff. unfold splice.
  rewrite lookup_app_r by (rewrite length_take; lia).
  rewrite length_take, Nat.min_l by lia.
  rewrite lookup_app_r by lia. rewrite lookup_drop. f_equal. lia.
Qed.

(** Two buffers that agree on a window show the same slice. *)
Lemma take_drop_ext (n m : nat) (b b' : list Z) :
  length b = length b' ->
  (forall k, (m <= k < m + n)%nat -> b' !! k = b !! k) ->
  take n (drop m b') = take n (drop m b).
Proof.
  intros Hlen H. apply list_eq. intros k.
  destruct (decide (k < n)%nat) as [Hk|Hk].
  - rewrite !lookup_take_lt, !lookup_drop by lia. apply H. lia.
  - by rewrite !lookup_take_ge by lia.
Qed.

Lemma take_drop_splice (off : nat) (w b : list Z) :
  (off + length w <= length b)%nat ->
  take (length w) (drop off (splice off w b)) = w.
Proof.
  intros H. unfold splice.
  rewrite drop_app_ge by (rewrite length_take; lia).
  rewrite length_take, Nat.min_l by lia. rewrite Nat.sub_diag, drop_0.
  by rewrite take_app_length.
Qed.

Lemma lookup_heap_last (h : heap) (blk : list Z) :
  (h ++ [blk]) !! length h = Some blk.
Proof. by rewrite lookup_app_r, Nat.sub_diag by lia. Qed.

Lemma insert_heap_last (h : heap) (blk blk' : list Z) :
  <[length h := blk']> (h ++ [blk]) = h ++ [blk'].
Proof.
  rewrite insert_app_r_alt by lia. by rewrite Nat.sub_diag.
Qed.

(** A computation through a view of the last array of the store. *)
Lemma via_last {A} (h : heap) (blk : list Z) (off len : nat) (m : BufM A)
  (r : res A) (w : list Z) :
  m (take len (drop off blk)) = (r, w) -> length w = len ->
  via (mkCdata (length h) off len) m (h ++ [blk])
  = (r, h ++ [splice off w blk]).
Proof.
  intros Hm Hw. unfold via. cbn [c_block c_off c_len].
  rewrite lookup_heap_last, Hm, insert_heap_last.
  unfold splice. by rewrite Hw.
Qed.

Lemma contents_last (h : heap) (blk : list Z) (off len : nat) :
  contents (h ++ [blk]) (mkCdata (length h) off len) = take len (drop off blk).
Proof. unfold contents. cbn. by rewrite lookup_heap_last. Qed.

Lemma take_drop_replicate (n m N : nat) :
  (m + n <= N)%nat -> take n (drop m (replicate N 0)) = replicate n 0.
Proof.
  intros H. rewrite drop_replicate, take_replicate. f_equal. lia.
Qed.

(** ** [Side.new] initializes the team in place *)

Lemma splice_full (w b : list Z) : length w = length b -> splice 0 w b = w.
Proof.
  intros H. unfold splice. cbn [take app Nat.add].
  by rewrite drop_ge, app_nil_r by lia.
Qed.

Lemma concat_lookup_uniform (n : nat) (ws : list (list Z)) (i k : nat)
  (w : list Z) :
  Forall (fun w => length w = n) ws -> ws !! i = Some w -> (k < n)%nat ->
  concat ws !! (i * n + k)%nat = w !! k.
Proof.
  intros Hlen. revert i. induction Hlen as [|w0 ws Hw0 _ IH]; intros i Hi Hk.
  - done.
  - destruct i as [|i]; cbn in Hi |- *.
    + injection Hi as ->. by rewrite lookup_app_l by lia.
    + rewrite lookup_app_r by lia.
      replace (n + i * n + k - length w0)%nat with (i * n + k)%nat by lia.
      by apply IH.
Qed.

Lemma length_concat_uniform (n : nat) (ws : list (list Z)) :
  Forall (fun w => length w = n) ws ->
  length (concat ws) = (length ws * n)%nat.
Proof.
  induction 1 as [|w ws Hw _ IH]; [done|].
  cbn. rewrite length_app, IH. lia.
Qed.

Lemma slot_of_concat (n base : nat) (ws : list (list Z)) (b : list Z)
  (i : nat) (w : list Z) :
  Forall (fun w => length w = n) ws -> ws !! i = Some w ->
  (base + length ws * n <= length b)%nat ->
  take n (drop (base + i * n) (splice base (concat ws) b)) = w.
Proof.
  intros Hlen Hi Hb.
  pose proof (lookup_lt_Some _ _ _ Hi) as Hlt.
  pose proof (proj1 (Forall_lookup _ _) Hlen i w Hi) as Hw. cbn beta in Hw.
  assert ((S i) * n <= length ws * n)%nat as Hin
    by (apply Nat.mul_le_mono_r; lia).
  cbn [Nat.mul] in Hin.
  apply list_eq. intros k. destruct (decide (k < n)%nat) as [Hk|Hk].
  - rewrite lookup_take_lt, lookup_drop by lia.
    replace (base + i * n + k)%nat with (base + (i * n + k))%nat by lia.
    rewrite lookup_splice
      by (rewrite ?(length_concat_uniform n) by done; lia).
    by apply concat_lookup_uniform.
  - rewrite lookup_take_ge by lia. symmetry. apply lookup_ge_None. lia.
Qed.

Section SideTheory.
Variable D : StaticData.
Variable L : Layout.
Hypothesis Hlayout : Pokemon_layout_ok L.
Hypothesis Hside : Side_layout_ok L.

Let zerosP := replicate (SIZE_Pokemon L) 0.
Let zerosS := replicate (SIZE_Side L) 0.

Lemma Pokemon_initialize_Ok_length (data : PokemonInitializer) (b b' : list Z) :
  length b = SIZE_Pokemon L ->
  Pokemon_initialize D L data b = (Ok tt, b') -> length b' = length b.
Proof.
  intros Hb Hrun.
  destruct (Pokemon_initialize_Ok_inv D L Hlayout data b b' Hb Hrun)
    as (image & _ & Hlen & ->).
  apply length_splice. destruct Hlayout as (? & ? & ? & ? & ? & ? & ?). lia.
Qed.

(** [Pokemon.new]: a fresh zero-filled array, initialized. *)
Lemma Pokemon_new_run (data : PokemonInitializer) (h : heap) :
  Pokemon_new D L data h
  = match Pokemon_initialize D L data zerosP with
    | (Ok _, w) => (Ok (mkCdata (length h) 0 (SIZE_Pokemon L)), h ++ [w])
    | (Raise e, w) => (Raise e, h ++ [w])
    end.
Proof.
  unfold Pokemon_new, heap_bind, ffi_new, heap_lift, Pokemon___init__,
    py_assert, via, heap_ret.
  cbn [c_len c_block c_off]. rewrite Nat.eqb_refl, lookup_heap_last.
  rewrite drop_0, take_ge by (by rewrite length_replicate).
  fold zerosP. destruct (Pokemon_initialize D L data zerosP) as [[[]|e] w];
    rewrite insert_heap_last; cbn [take app Nat.add];
    by rewrite drop_ge, app_nil_r
      by (unfold zerosP; rewrite length_replicate; lia).
Qed.

Lemma Pokemon_new_Ok (data : PokemonInitializer) (h hp : heap) (p : cdata) :
  Pokemon_new D L data h = (Ok p, hp) ->
  exists w, Pokemon_initialize D L data zerosP = (Ok tt, w)
            /\ length w = SIZE_Pokemon L /\ contents hp p = w.
Proof.
  rewrite Pokemon_new_run.
  destruct (Pokemon_initialize D L data zerosP) as [[[]|e] w] eqn:Hrun; [|done].
  intros [= <- <-]. exists w. split; [done|].
  assert (Hw : length w = SIZE_Pokemon L).
  { rewrite (Pokemon_initialize_Ok_length data zerosP w); [| |done];
      unfold zerosP; by rewrite length_replicate. }
  split; [done|]. rewrite contents_last, drop_0. by rewrite take_ge by lia.
Qed.

(** [Side.__init__] cuts six views out of the side's buffer. *)
Lemma Side_slices_run (b : cdata) (n offset : nat) :
  (offset + n * SIZE_Pokemon L <= c_len b)%nat ->
  exists views,
    Side_slices L b n offset = Ok (views, (offset + n * SIZE_Pokemon L)%nat)
    /\ length views = n
    /\ forall k, (k < n)%nat ->
         views !! k = Some (mkCdata (c_block b)
                              (c_off b + (offset + k * SIZE_Pokemon L))
                              (SIZE_Pokemon L)).
Proof.
  revert offset. induction n as [|n IH]; intros offset Hlen.
  - exists []. cbn. repeat split; [f_equal; f_equal; lia|]. intros k Hk. lia.
  - cbn [Nat.mul] in Hlen. cbn [Side_slices]. unfold cdata_slice.
    destruct (Nat.leb_spec offset (offset + SIZE_Pokemon L)); [|lia].
    destruct (Nat.leb_spec (offset + SIZE_Pokemon L) (c_len b)); [|lia].
    cbn [andb res_bind c_len]. unfold Pokemon___init__, py_assert.
    replace (offset + SIZE_Pokemon L - offset)%nat with (SIZE_Pokemon L) by lia.
    rewrite Nat.eqb_refl. cbn [res_bind].
    destruct (IH (offset + SIZE_Pokemon L)%nat ltac:(lia))
      as (views & -> & Hviews & Hk).
    cbn [res_bind fst snd]. eexists. split; [|split].
    + f_equal. f_equal. cbn [Nat.mul]. lia.
    + cbn. by rewrite Hviews.
    + intros [|k] Hlt; cbn [lookup list_lookup].
      * f_equal. f_equal. lia.
      * rewrite Hk by lia. f_equal. f_equal. cbn [Nat.mul]. lia.
Qed.

Section Loops.
Variable h : heap.
Variable side : Side.
Hypothesis Hbytes : Side_bytes side = mkCdata (length h) 0 (SIZE_Side L).
Hypothesis Hteam :
  forall k, (k < 6)%nat ->
    Side_team side !! k
    = Some (mkCdata (length h) (Side_pokemon L + k * SIZE_Pokemon L)
              (SIZE_Pokemon L)).

Lemma Side_init_team_run (rest : list PokemonInitializer) :
  forall (i : nat) (acc : list Z) (order : list Z),
    length acc = (i * SIZE_Pokemon L)%nat ->
    (i + length rest <= 6)%nat ->
    Forall (fun data => exists w,
              Pokemon_initialize D L data zerosP = (Ok tt, w)) rest ->
    exists ws ord,
      Side_init_team D L side i rest order
        (h ++ [splice (Side_pokemon L) acc zerosS])
      = (Ok (order ++ ord),
         h ++ [splice (Side_pokemon L) (acc ++ concat ws) zerosS])
      /\ Forall2 (fun data w =>
                    Pokemon_initialize D L data zerosP = (Ok tt, w)) rest ws
      /\ length ord = length rest
      /\ Forall (fun v => 0 <= v <= 255) ord.
Proof.
  destruct Hside as (Hact & Hord & Hsz).
  induction rest as [|data rest IH]; intros i acc order Hacc Hi Hvalid.
  - exists [], []. cbn. rewrite !app_nil_r. by repeat split.
  - cbn [length] in Hi.
    apply Forall_cons in Hvalid as [[w Hw] Hvalid].
    assert (Hwlen : length w = SIZE_Pokemon L).
    { rewrite (Pokemon_initialize_Ok_length data zerosP w); [| |done];
        unfold zerosP; by rewrite length_replicate. }
    assert (S i * SIZE_Pokemon L <= 6 * SIZE_Pokemon L)%nat as Hmul
      by (apply Nat.mul_le_mono_r; lia).
    cbn [Nat.mul] in Hmul.
    cbn [Side_init_team]. unfold heap_bind at 1, heap_lift, py_nth.
    rewrite Hteam by lia. unfold heap_bind at 1.
    rewrite (via_last h _ _ _ _ (Ok tt) w); [|
      |exact Hwlen].
    2: { rewrite <- Hacc.
         rewrite (take_drop_ext _ _ zerosS).
         - rewrite <- Hw. f_equal. unfold zerosS, zerosP.
           apply take_drop_replicate. lia.
         - symmetry. apply length_splice. unfold zerosS.
           rewrite length_replicate. lia.
         - intros k Hk. apply lookup_splice_ge; [lia|].
           unfold zerosS. rewrite length_replicate. lia. }
    rewrite <- Hacc, splice_splice_app
      by (unfold zerosS; rewrite length_replicate; lia).
    destruct (IH (S i) (acc ++ w) (order ++ [Z.of_nat i + 1]))
      as (ws & ord & Hrun & Hws & Hlen & Hrange).
    { rewrite length_app. cbn [Nat.mul]. lia. }
    { lia. }
    { exact Hvalid. }
    exists (w :: ws), ((Z.of_nat i + 1) :: ord).
    rewrite Hrun. cbn [concat]. rewrite <- !app_assoc. cbn [app].
    split; [done|]. split; [by constructor|].
    split; [cbn; by rewrite Hlen|]. constructor; [lia|done].
Qed.

Lemma Side_write_order_run (order : list Z) :
  forall (i : nat) (blk : list Z),
    length blk = SIZE_Side L ->
    (Side_order L + i + length order <= SIZE_Side L)%nat ->
    Forall (fun v => 0 <= v <= 255) order ->
    exists blk',
      Side_write_order L side i order (h ++ [blk]) = (Ok tt, h ++ [blk'])
      /\ length blk' = SIZE_Side L
      /\ forall k, (k < Side_order L + i)%nat -> blk' !! k = blk !! k.
Proof.
  induction order as [|v order IH]; intros i blk Hblk Hlen Hrange.
  - exists blk. by repeat split.
  - cbn [length] in Hlen. apply Forall_cons in Hrange as [Hv Hrange].
    cbn [Side_write_order]. unfold heap_bind at 1. rewrite Hbytes.
    rewrite (via_last h blk 0 (SIZE_Side L) _ (Ok tt)
               (<[(Side_order L + i)%nat := v]> blk)).
    2: { rewrite drop_0, take_ge by lia. unfold setitem.
         destruct (Nat.ltb_spec (Side_order L + i) (length blk)); [|lia].
         by rewrite (proj2 (is_byte_spec v) Hv). }
    2: { by rewrite length_insert. }
    rewrite splice_full by (by rewrite length_insert).
    destruct (IH (S i) (<[(Side_order L + i)%nat := v]> blk))
      as (blk' & Hrun & Hlen' & Hsame);
      [by rewrite length_insert|lia|done|].
    exists blk'. rewrite Hrun. repeat split; [done|].
    intros k Hk. rewrite Hsame by lia.
    by rewrite list_lookup_insert_ne by lia.
Qed.

End Loops.

End SideTheory.

Lemma gen1_side_layout_ok : Side_layout_ok gen1_layout.
Proof. unfold Side_layout_ok. cbn. lia. Qed.

Section SideNew.
Variable D : StaticData.
Variable L : Layout.
Hypothesis Hlayout : Pokemon_layout_ok L.
Hypothesis Hside : Side_layout_ok L.

(** C2: for a team of [N] valid initializers, [1 <= N <= 6], [Side.new]
    succeeds, and for every [i < N] the team member [i] is a view of the
    side's own buffer at the offset of slot [i]; after the call the bytes of
    the side at that offset are exactly the bytes of the record that
    [Pokemon.new(team[i])] produces. *)
Theorem Side_new_initializes_slots_in_place
  (team : list PokemonInitializer) (h : heap)
  (HN : (1 <= length team <= 6)%nat)
  (Hvalid : Forall (fun data => exists p hp,
                      Pokemon_new D L data h = (Ok p, hp)) team) :
  exists side h',
    Side_new D L (SideList team) h = (Ok side, h')
    /\ forall (i : nat) (data : PokemonInitializer),
         team !! i = Some data ->
         exists slot p hp,
           Pokemon_new D L data h = (Ok p, hp)
           /\ Side_team side !! i = Some slot
           /\ c_block slot = c_block (Side_bytes side)
           /\ c_off slot
              = (c_off (Side_bytes side)
                 + (Side_pokemon L + i * SIZE_Pokemon L))%nat
           /\ c_len slot = SIZE_Pokemon L
           /\ contents h' slot = contents hp p
           /\ slot_bytes L (contents h' (Side_bytes side)) i = contents hp p.
Proof.
  pose proof Hside as (Hact & Hord & Hsz).
  set (b := mkCdata (length h) 0 (SIZE_Side L)).
  set (zerosS := replicate (SIZE_Side L) 0).
  set (zerosP := replicate (SIZE_Pokemon L) 0).
  destruct (Side_slices_run L b 6 (Side_pokemon L)) as (views & Hviews & _ & Hk);
    [cbn; lia|].
  set (side := mkSide b views).
  assert (Hinit : Side___init__ L b = Ok side).
  { unfold Side___init__, py_assert. rewrite Hviews. cbn [res_bind snd fst].
    by rewrite (proj2 (Nat.eqb_eq _ _) (eq_sym Hact)). }
  assert (Hvalid' : Forall (fun data => exists w,
              Pokemon_initialize D L data zerosP = (Ok tt, w)) team).
  { eapply Forall_impl; [exact Hvalid|]. intros data (p & hp & Hnew).
    destruct (Pokemon_new_Ok D L Hlayout data h hp p Hnew) as (w & Hw & _).
    by exists w. }
  destruct (Side_init_team_run D L Hlayout Hside h side Hk team
              0 [] [] eq_refl ltac:(lia) Hvalid')
    as (ws & ord & Hteam & Hws & Hordlen & Hordrange).
  rewrite splice_nil in Hteam. cbn [app] in Hteam.
  assert (Hwslen : Forall (fun w => length w = SIZE_Pokemon L) ws).
  { apply Forall_forall. intros w Hin.
    apply list_elem_of_lookup in Hin as [k Hin].
    destruct (Forall2_lookup_r _ _ _ _ _ Hws Hin) as (data & _ & Hw).
    rewrite (Pokemon_initialize_Ok_length D L Hlayout data zerosP w);
      [| |done]; unfold zerosP; by rewrite length_replicate. }
  pose proof (Forall2_length _ _ _ Hws) as Hlenws.
  assert (Hmul : (length ws * SIZE_Pokemon L <= 6 * SIZE_Pokemon L)%nat)
    by (apply Nat.mul_le_mono_r; lia).
  set (blk := splice (Side_pokemon L) (concat ws) zerosS) in *.
  assert (Hblk : length blk = SIZE_Side L).
  { unfold blk. rewrite length_splice; unfold zerosS;
      rewrite ?length_replicate, ?(length_concat_uniform (SIZE_Pokemon L));
      [done|lia|done]. }
  destruct (Side_write_order_run L h side eq_refl ord 0 blk Hblk
              ltac:(lia) Hordrange) as (blk' & Horder & Hblk' & Hsame).
  exists side, (h ++ [blk']). split.
  { unfold Side_new, heap_bind, ffi_new, heap_lift. fold b. rewrite Hinit.
    unfold Side_initialize, heap_bind, heap_ret.
    unfold blk, zerosS in Horder. rewrite Hteam, Horder. reflexivity. }
  intros i data Hdata.
  pose proof (lookup_lt_Some _ _ _ Hdata) as Hi.
  pose proof (proj1 (Forall_lookup _ _) Hvalid i data Hdata)
    as (p & hp & Hnew).
  destruct (Pokemon_new_Ok D L Hlayout data h hp p Hnew) as (w & Hw & Hwlen & Hc).
  destruct (Forall2_lookup_l _ _ _ _ _ Hws Hdata) as (w' & Hw' & Hrun).
  assert (w' = w) as -> by congruence.
  assert (Hslot : take (SIZE_Pokemon L)
                    (drop (Side_pokemon L + i * SIZE_Pokemon L) blk') = w).
  { rewrite (take_drop_ext _ _ blk) by (solve [lia | intros k Hkk;
      apply Hsame; assert (S i * SIZE_Pokemon L <= 6 * SIZE_Pokemon L)%nat
        by (apply Nat.mul_le_mono_r; lia); cbn [Nat.mul] in *; lia]).
    unfold blk. apply slot_of_concat; [done|done|].
    unfold zerosS. rewrite length_replicate. lia. }
  exists (mkCdata (length h) (Side_pokemon L + i * SIZE_Pokemon L)
            (SIZE_Pokemon L)), p, hp.
  split; [done|]. split; [apply Hk; lia|].
  split; [done|]. split; [done|]. split; [done|]. rewrite Hc. split.
  - by rewrite contents_last.
  - unfold slot_bytes. cbn [side Side_bytes]. unfold b.
    rewrite contents_last, drop_0, (take_ge blk') by lia. exact Hslot.
Qed.

End SideNew.

Lemma Side_new_initializes_slots_in_place_witness :
  exists side h',
    Side_new sample_data gen1_layout (SideList sample_team) [] = (Ok side, h')
    /\ slot_bytes gen1_layout (contents h' (Side_bytes side)) 1
       = [103; 1; 10; 1; 254; 0; 42; 1; 12; 1; 126; 8;
          0; 0; 0; 0; 0; 0; 103; 1; 0; 6; 40; 100].
Proof.
  destruct (Side_new_initializes_slots_in_place sample_data gen1_layout
              gen1_layout_ok gen1_side_layout_ok sample_team [])
    as (side & h' & Hnew & Hslots).
  - cbn. lia.
  - repeat constructor; eexists _, _; vm_compute; reflexivity.
  - exists side, h'. split; [exact Hnew|].
    destruct (Hslots 1%nat (mkInit "Charizard" ["Fire Blast"] None) eq_refl)
      as (slot & p & hp & Hp & _ & _ & _ & _ & _ & ->).
    vm_compute in Hp. injection Hp as <- <-. reflexivity.
Defined.

(** * Further properties of the codec *)

(** ** Range checks *)

Lemma default_pp_table : check_range default_pp_agrees 0 256 = true.
Proof. vm_compute. reflexivity. Qed.

Lemma uint3_table : check_range (uint_roundtrip_at 3) 0 8 = true.
Proof. vm_compute. reflexivity. Qed.

Lemma uint4_table : check_range (uint_roundtrip_at 4) 0 16 = true.
Proof. vm_compute. reflexivity. Qed.

Lemma uint5_table : check_range (uint_roundtrip_at 5) 0 32 = true.
Proof. vm_compute. reflexivity. Qed.

Lemma uint8_table : check_range (uint_roundtrip_at 8) 0 256 = true.
Proof. vm_compute. reflexivity. Qed.

Lemma nibble_table : check_range nibble_roundtrip_at (-8) 16 = true.
Proof. vm_compute. reflexivity. Qed.

Lemma uint_roundtrip (n : nat) (v : Z) :
  (n = 3 \/ n = 4 \/ n = 5 \/ n = 8)%nat -> 0 <= v < 2 ^ Z.of_nat n ->
  bits_value (uint_bits v n) 0 = v.
Proof.
  intros Hn Hv. apply Z.eqb_eq. change (uint_roundtrip_at n v = true).
  destruct Hn as [-> | [-> | [-> | ->]]].
  - apply (check_range_sound _ _ _ uint3_table). cbn in *. lia.
  - apply (check_range_sound _ _ _ uint4_table). cbn in *. lia.
  - apply (check_range_sound _ _ _ uint5_table). cbn in *. lia.
  - apply (check_range_sound _ _ _ uint8_table). cbn in *. lia.
Qed.

Lemma nibble_roundtrip (v : Z) :
  -8 <= v < 8 -> bits_value (uint_bits v 4) 0 = v mod 16.
Proof.
  intros Hv. apply Z.eqb_eq. change (nibble_roundtrip_at v = true).
  apply (check_range_sound _ _ _ nibble_table). lia.
Qed.

(** For a base PP that fits a byte, the float computation of the default PP
    is exact, rounded down or truncated. *)
Lemma default_pp_exact (base : Z) :
  0 <= base <= 255 ->
  exists q, Float.int_truediv (base * 8) 5 = Ok q
            /\ Float.math_floor q = Ok (base * 8 / 5)
            /\ Float.math_trunc q = Ok (base * 8 / 5).
Proof.
  intros Hb.
  pose proof (check_range_sound _ _ _ default_pp_table base ltac:(lia)) as H.
  unfold default_pp_agrees in H.
  destruct (Float.int_truediv (base * 8) 5) as [q|]; [|done].
  exists q. split; [done|].
  destruct (Float.math_floor q) as [f|]; [|done].
  destruct (Float.math_trunc q) as [t|]; [|done].
  apply andb_true_iff in H as [Hf Ht].
  apply Z.eqb_eq in Hf, Ht. by subst.
Qed.

(** ** [Status]: what the status byte keeps of a sleep *)

(** X1: a sleep of 1 to 7 turns is encoded in one byte from which the turn
    counter (the low three bits) and the self-inflicted flag (bit 7) can be
    read back, and which is the byte of none of [healthy()], [poisoned()],
    [burned()], [frozen()] and [paralyzed()]. *)
Theorem Status_sleep_decodes (d : Z) (s : bool) (Hd : 1 <= d <= 7) :
  let byte := Status.to_int (Status.sleep d s) in
  0 <= byte <= 255
  /\ Z.land byte 7 = d
  /\ Z.testbit byte 7 = s
  /\ Forall (fun st => Status.to_int st <> byte)
       [Status.healthy; Status.poisoned; Status.burned; Status.frozen;
        Status.paralyzed].
Proof.
  assert (d = 1 \/ d = 2 \/ d = 3 \/ d = 4 \/ d = 5 \/ d = 6 \/ d = 7)
    as Hcases by lia.
  destruct s;
    destruct Hcases as [-> | [-> | [-> | [-> | [-> | [-> | ->]]]]]];
    (split; [by vm_compute|]); (split; [reflexivity|]);
    (split; [reflexivity|]); repeat constructor; by vm_compute.
Qed.

Lemma Status_sleep_decodes_witness :
  Z.land (Status.to_int (Status.sleep 3 true)) 7 = 3
  /\ Z.testbit (Status.to_int (Status.sleep 3 true)) 7 = true.
Proof.
  destruct (Status_sleep_decodes 3 true ltac:(lia)) as (_ & Hlow & Hflag & _).
  split; [exact Hlow|exact Hflag].
Defined.

(** ** [statcalc] away from level 100 *)

Lemma statcalc_range (base_value dv level experience v : Z) (is_HP : bool) :
  statcalc base_value is_HP level dv experience = Ok v -> 0 <= v < 65536.
Proof.
  unfold statcalc. intros H.
  destruct (root <- Float.math_sqrt experience ;;
            quarter <- Float.div_int root 4 ;;
            Float.math_trunc quarter)%res as [t|]; [|done].
  cbn [res_bind] in H.
  destruct (ratio <- Float.int_truediv level 100 ;;
            Float.math_trunc ratio)%res as [l|]; [|done].
  cbn [res_bind] in H. injection H as <-.
  apply Z.mod_pos_bound. lia.
Qed.

(** X2: [math.trunc(level / 100)] is 0 below level 100 and 1 from 100 to
    199, so below level 100 every stat is 5 and the HP is [level + 10],
    whatever the base stat, the DV and the experience; from 100 to 199 the
    level enters the HP only, through [level + 10]. *)
Theorem statcalc_by_level (base_value dv level experience : Z) (is_HP : bool)
  (Hexp : 0 <= experience <= 65535) :
  (0 <= level < 100 ->
   statcalc base_value is_HP level dv experience
   = Ok (if is_HP then level + 10 else 5))
  /\ (100 <= level < 200 ->
      statcalc base_value is_HP level dv experience
      = Ok ((2 * (base_value + dv) + Z.sqrt experience / 4
             + (if is_HP then level + 10 else 5)) mod 65536)).
Proof.
  split; intros Hl; rewrite statcalc_eq by lia; unfold statcalc_formula;
    f_equal.
  - rewrite (Z.quot_small level 100) by lia. rewrite Z.mul_0_r, Z.add_0_l.
    apply Z.mod_small. destruct is_HP; lia.
  - assert (Z.quot level 100 = 1) as ->.
    { rewrite Z.quot_div_nonneg by lia. symmetry.
      apply (Z.div_unique level 100 1 (level - 100)); lia. }
    rewrite (Z.quot_div_nonneg (Z.sqrt experience) 4)
      by (pose proof (Z.sqrt_nonneg experience); lia).
    by rewrite Z.mul_1_r.
Qed.

Lemma statcalc_by_level_witness :
  statcalc 100 false 99 15 65535 = Ok 5
  /\ statcalc 100 true 150 15 65535 = Ok 453.
Proof.
  split.
  - destruct (statcalc_by_level 100 15 99 65535 false ltac:(lia)) as [H _].
    exact (H ltac:(lia)).
  - destruct (statcalc_by_level 100 15 150 65535 true ltac:(lia)) as [_ H].
    rewrite (H ltac:(lia)). reflexivity.
Defined.

(** ** [Move] and [moves] *)

Section MoveTheory.
Variable D : StaticData.

(** X3: [moves(names...)] returns one [Move] per name, in order, each with
    the id the move table gives its name; it raises, with the [ValueError]
    of [Move.__init__] and never a [KeyError], exactly when one of the names
    is not in the move table. *)
Theorem moves_validates_names (args : list string) :
  match moves D args with
  | Ok ms =>
      Move_name <$> ms = args
      /\ Forall (fun m => MOVE_IDS D !! Move_name m = Some (Move_id m)) ms
  | Raise e =>
      e = ValueError "is not a valid move in Generation I."
      /\ exists name, name ∈ args /\ MOVE_IDS D !! name = None
  end.
Proof.
  induction args as [|name args IH]; [by split|].
  cbn [moves]. unfold Move___init__ at 1.
  destruct (MOVE_IDS D !! name) as [id|] eqn:Hid; cbn [res_bind].
  - destruct (moves D args) as [ms|e]; cbn [res_bind].
    + destruct IH as [Hnames Hids]. split; [cbn; by f_equal|].
      by constructor.
    + destruct IH as [-> (bad & Hin & Hbad)]. split; [done|].
      exists bad. split; [by right|done].
  - split; [done|]. exists name. split; [by left|done].
Qed.

End MoveTheory.

(** ** Bit strings and their bytes *)

Lemma Bits_bytes_app (a b : list Z) :
  Bits_bytes (a ++ b) = Bits_bytes a ++ Bits_bytes b.
Proof. unfold Bits_bytes. by rewrite map_app, concat_app. Qed.

Lemma length_Bits_bytes (bs : list Z) :
  length (Bits_bytes bs) = (8 * length bs)%nat.
Proof.
  induction bs as [|b bs IH]; [done|].
  change (Bits_bytes (b :: bs)) with (uint_bits b 8 ++ Bits_bytes bs).
  rewrite length_app, length_uint_bits, IH. cbn [length]. lia.
Qed.

Lemma Bits_tobytes_fuel_bytes (bs : list Z) :
  forall fuel : nat,
    Forall (fun b => 0 <= b <= 255) bs -> (length bs <= fuel)%nat ->
    Bits_tobytes_fuel fuel (Bits_bytes bs) = bs.
Proof.
  induction bs as [|b bs IH]; intros fuel Hbs Hfuel.
  - by destruct fuel.
  - apply Forall_cons in Hbs as [Hb Hbs]. cbn [length] in Hfuel.
    destruct fuel as [|fuel]; [lia|].
    change (Bits_bytes (b :: bs)) with (uint_bits b 8 ++ Bits_bytes bs).
    change (uint_bits b 8)
      with [Z.testbit b 7; Z.testbit b 6; Z.testbit b 5; Z.testbit b 4;
            Z.testbit b 3; Z.testbit b 2; Z.testbit b 1; Z.testbit b 0].
    cbn [app Bits_tobytes_fuel take drop]. f_equal.
    + apply (uint_roundtrip 8 b); [tauto|]. cbn. lia.
    + apply IH; [done|lia].
Qed.

(** Whole bytes packed into bits come back from [tobytes]. *)
Lemma Bits_tobytes_bytes (bs : list Z) :
  Forall (fun b => 0 <= b <= 255) bs -> Bits_tobytes (Bits_bytes bs) = bs.
Proof.
  intros Hbs. unfold Bits_tobytes. apply Bits_tobytes_fuel_bytes; [done|].
  rewrite length_Bits_bytes. lia.
Qed.

Lemma le_bytes_range (v : Z) (k : nat) :
  Forall (fun b => 0 <= b <= 255) (le_bytes v k).
Proof.
  revert v. induction k as [|k IH]; intros v; cbn [le_bytes]; [done|].
  constructor; [apply land_255_range|apply IH].
Qed.

Lemma le_bytes_byte (v : Z) : 0 <= v <= 255 -> le_bytes v 1 = [v].
Proof.
  intros Hv. cbn [le_bytes]. f_equal.
  assert (Z.land v 255 = v mod 256) as -> by (apply (Z.land_ones v 8); lia).
  apply Z.mod_small. lia.
Qed.

Lemma Bits_uintne_16 (v : Z) :
  0 <= v < 65536 -> Bits_uintne v 16 = Ok (Bits_bytes (le_bytes v 2)).
Proof. intros Hv. exact (Bits_uintne_fits v 2 Hv). Qed.

Lemma Bits_uintne_8 (v : Z) :
  0 <= v < 256 -> Bits_uintne v 8 = Ok (Bits_bytes (le_bytes v 1)).
Proof. intros Hv. exact (Bits_uintne_fits v 1 Hv). Qed.

Lemma Bits_int_fits (v : Z) :
  -8 <= v < 8 -> Bits_int v 4 = Ok (uint_bits v 4).
Proof.
  intros [H1 H2]. unfold Bits_int.
  change (- 2 ^ (Z.of_nat 4 - 1)) with (-8).
  change (2 ^ (Z.of_nat 4 - 1)) with 8.
  apply Z.leb_le in H1. apply Z.ltb_lt in H2. by rewrite H1, H2.
Qed.

Lemma Bits_int_unfit (v : Z) :
  ~ -8 <= v < 8 -> Bits_int v 4 = Raise CreationError.
Proof.
  intros H. unfold Bits_int.
  change (- 2 ^ (Z.of_nat 4 - 1)) with (-8).
  change (2 ^ (Z.of_nat 4 - 1)) with 8.
  destruct (-8 <=? v) eqn:E1; [|reflexivity].
  destruct (v <? 8) eqn:E2; [|reflexivity].
  apply Z.leb_le in E1. apply Z.ltb_lt in E2. lia.
Qed.

Lemma fits16_spec (v : Z) : fits16 v = true <-> 0 <= v < 65536.
Proof. unfold fits16. rewrite andb_true_iff, Z.leb_le, Z.ltb_lt. tauto. Qed.

(** ** [Move._to_slot_bits] and the slot [Pokemon.initialize] writes *)

Section MoveSlot.
Variable D : StaticData.

(** X4: for a move of the tables with an 8-bit id other than 0 and a base
    PP from 0 to 159, [Move(name)._to_slot_bits()] is 16 bits whose two
    bytes are the id and [base * 8 // 5], the same pair [Pokemon.initialize]
    puts in the slot of that move when no PP is supplied: truncating in the
    one and rounding down in the other give the same PP. *)
Theorem Move_slot_bits_match_initialize (name : string) (id base : Z)
  (Hid : MOVE_IDS D !! name = Some id) (Hbyte : 0 < id <= 255)
  (Hbase : MOVES D !! name = Some base) (Hpp : 0 <= base <= 159) :
  exists bits,
    (m <- Move___init__ D name ;; Move__to_slot_bits D m None)%res = Ok bits
    /\ length bits = 16%nat
    /\ Bits_tobytes bits = [id; base * 8 / 5]
    /\ forall (names : list string) (i : nat),
         names !! i = Some name ->
         move_slot D names None i = Ok (id, base * 8 / 5).
Proof.
  destruct (default_pp_exact base ltac:(lia)) as (q & Hq & Hfloor & Htrunc).
  assert (Hrange : 0 <= base * 8 / 5 <= 255).
  { split; [apply Z.div_pos; lia|].
    assert (base * 8 / 5 < 256); [|lia].
    apply Z.div_lt_upper_bound; lia. }
  exists (Bits_bytes [id; base * 8 / 5]).
  split; [|split; [|split]].
  - unfold Move___init__. rewrite Hid. cbn [res_bind].
    unfold Move__to_slot_bits, Move__to_bits, dict_get.
    cbn [Move_name Move_id]. rewrite Hbase. cbn [res_bind].
    rewrite Hq. cbn [res_bind]. rewrite Htrunc. cbn [res_bind res_all].
    rewrite !Bits_uintne_8 by lia. cbn [res_bind].
    rewrite !le_bytes_byte by lia. reflexivity.
  - by rewrite length_Bits_bytes.
  - apply Bits_tobytes_bytes. repeat constructor; lia.
  - intros names i Hi. unfold move_slot.
    pose proof (lookup_lt_Some _ _ _ Hi) as Hlt.
    destruct (Nat.leb_spec (length names) i); [lia|].
    unfold py_nth. rewrite Hi. cbn [res_bind]. unfold dict_get at 1.
    rewrite Hid. cbn [res_bind]. unfold default_pp.
    destruct (Z.eqb_spec id 0); [lia|]. unfold dict_get. rewrite Hbase.
    cbn [res_bind]. rewrite Hq. cbn [res_bind]. by rewrite Hfloor.
Qed.

End MoveSlot.

Lemma Move_slot_bits_match_initialize_witness :
  exists bits,
    (m <- Move___init__ sample_data "Fire Blast" ;;
     Move__to_slot_bits sample_data m None)%res = Ok bits
    /\ Bits_tobytes bits = [126; 8].
Proof.
  destruct (Move_slot_bits_match_initialize sample_data "Fire Blast" 126 5)
    as (bits & Hbits & _ & Hbytes & _).
  - reflexivity.
  - lia.
  - reflexivity.
  - lia.
  - exists bits. split; [exact Hbits|exact Hbytes].
Defined.

(** ** [Boosts._to_bits] *)

(** X5: [Boosts._to_bits] returns exactly when each of the six boosts is in
    -8..7, and raises [CreationError] otherwise; what it returns is 32 bits
    long: six nibbles that hold the boosts in two's complement, in the order
    attack, defense, speed, special, accuracy, evasion, then eight zero
    bits. *)
Theorem Boosts_to_bits_32 (b : Boosts) :
  match Boosts__to_bits b with
  | Ok bits =>
      Boosts_fits b
      /\ length bits = 32%nat
      /\ nibble bits 0 = attack b mod 16
      /\ nibble bits 1 = defense b mod 16
      /\ nibble bits 2 = speed b mod 16
      /\ nibble bits 3 = special b mod 16
      /\ nibble bits 4 = accuracy b mod 16
      /\ nibble bits 5 = evasion b mod 16
      /\ drop 24 bits = replicate 8 false
  | Raise e => e = CreationError /\ ~ Boosts_fits b
  end.
Proof.
  unfold Boosts_fits, Boosts__to_bits. cbn [res_all res_bind].
  destruct (decide (-8 <= attack b < 8)) as [H1|H1];
    [rewrite (Bits_int_fits _ H1)
    |rewrite (Bits_int_unfit _ H1); split; [done|tauto]].
  destruct (decide (-8 <= defense b < 8)) as [H2|H2];
    [rewrite (Bits_int_fits _ H2)
    |rewrite (Bits_int_unfit _ H2); split; [done|tauto]].
  destruct (decide (-8 <= speed b < 8)) as [H3|H3];
    [rewrite (Bits_int_fits _ H3)
    |rewrite (Bits_int_unfit _ H3); split; [done|tauto]].
  destruct (decide (-8 <= special b < 8)) as [H4|H4];
    [rewrite (Bits_int_fits _ H4)
    |rewrite (Bits_int_unfit _ H4); split; [done|tauto]].
  destruct (decide (-8 <= accuracy b < 8)) as [H5|H5];
    [rewrite (Bits_int_fits _ H5)
    |rewrite (Bits_int_unfit _ H5); split; [done|tauto]].
  destruct (decide (-8 <= evasion b < 8)) as [H6|H6];
    [rewrite (Bits_int_fits _ H6)
    |rewrite (Bits_int_unfit _ H6); split; [done|tauto]].
  change (Bits_intne 0 8) with (Ok (replicate 8 false) : res Bits).
  cbn [res_bind]. split; [tauto|]. split; [reflexivity|].
  repeat split;
    [exact (nibble_roundtrip _ H1) | exact (nibble_roundtrip _ H2)
    |exact (nibble_roundtrip _ H3) | exact (nibble_roundtrip _ H4)
    |exact (nibble_roundtrip _ H5) | exact (nibble_roundtrip _ H6)].
Qed.

(** ** [_pack_stats] and [_pack_move_indexes] *)

(** X6: [_pack_stats] returns exactly when each of the five stats is in
    0..65535, and raises [CreationError] otherwise (its length assertion
    never fails); what it returns is 80 bits whose ten bytes are the ten
    bytes [Pokemon.initialize] writes for the same stats. *)
Theorem pack_stats_bits_match_initialize (stats : Gen1StatData) :
  match _pack_stats stats with
  | Ok bits =>
      stats_fit stats
      /\ length bits = 80%nat
      /\ Bits_tobytes bits = stats_bytes stats [hp_; atk_; def_; spe_; spc_]
  | Raise e => e = CreationError /\ ~ stats_fit stats
  end.
Proof.
  unfold stats_fit, _pack_stats. cbn [res_all res_bind].
  destruct (decide (0 <= st_hp stats < 65536)) as [H1|H1];
    [rewrite (Bits_uintne_16 _ H1)
    |rewrite (Bits_uintne_unfit _ 16 H1); split; [done|tauto]].
  destruct (decide (0 <= st_atk stats < 65536)) as [H2|H2];
    [rewrite (Bits_uintne_16 _ H2)
    |rewrite (Bits_uintne_unfit _ 16 H2); split; [done|tauto]].
  destruct (decide (0 <= st_def stats < 65536)) as [H3|H3];
    [rewrite (Bits_uintne_16 _ H3)
    |rewrite (Bits_uintne_unfit _ 16 H3); split; [done|tauto]].
  destruct (decide (0 <= st_spe stats < 65536)) as [H4|H4];
    [rewrite (Bits_uintne_16 _ H4)
    |rewrite (Bits_uintne_unfit _ 16 H4); split; [done|tauto]].
  destruct (decide (0 <= st_spc stats < 65536)) as [H5|H5];
    [rewrite (Bits_uintne_16 _ H5)
    |rewrite (Bits_uintne_unfit _ 16 H5); split; [done|tauto]].
  cbn [res_bind].
  set (bytes := stats_bytes stats [hp_; atk_; def_; spe_; spc_]).
  assert (Hjoin : Bits_join
            [Bits_bytes (le_bytes (st_hp stats) 2);
             Bits_bytes (le_bytes (st_atk stats) 2);
             Bits_bytes (le_bytes (st_def stats) 2);
             Bits_bytes (le_bytes (st_spe stats) 2);
             Bits_bytes (le_bytes (st_spc stats) 2)] = Bits_bytes bytes).
  { unfold Bits_join, bytes, stats_bytes. cbn [flat_map concat stat_get].
    rewrite !Bits_bytes_app, !app_nil_r. reflexivity. }
  rewrite Hjoin, length_Bits_bytes.
  change (8 * length bytes =? 10 * 8)%nat with true. cbn [py_assert res_bind].
  split; [tauto|]. split; [by rewrite length_Bits_bytes|].
  apply Bits_tobytes_bytes. unfold bytes, stats_bytes.
  cbn [flat_map stat_get pack_u16_as_bytes app].
  repeat constructor; apply land_255_range.
Qed.

(** X7: [_pack_move_indexes] returns exactly when both indexes are in
    0..65535, and raises [CreationError] otherwise; what it returns is 32
    bits: the two bytes of the first index, low byte first, then the two
    bytes of the second. *)
Theorem pack_move_indexes_32 (p1 p2 : Z) :
  match _pack_move_indexes p1 p2 with
  | Ok bits =>
      (0 <= p1 < 65536 /\ 0 <= p2 < 65536)
      /\ length bits = 32%nat
      /\ Bits_tobytes bits = le_bytes p1 2 ++ le_bytes p2 2
  | Raise e => e = CreationError /\ ~ (0 <= p1 < 65536 /\ 0 <= p2 < 65536)
  end.
Proof.
  unfold _pack_move_indexes. cbn [res_all res_bind].
  destruct (decide (0 <= p1 < 65536)) as [H1|H1];
    [rewrite (Bits_uintne_16 _ H1)
    |rewrite (Bits_uintne_unfit _ 16 H1); split; [done|tauto]].
  destruct (decide (0 <= p2 < 65536)) as [H2|H2];
    [rewrite (Bits_uintne_16 _ H2)
    |rewrite (Bits_uintne_unfit _ 16 H2); split; [done|tauto]].
  cbn [res_bind]. split; [tauto|].
  assert (Hjoin : Bits_join [Bits_bytes (le_bytes p1 2);
                             Bits_bytes (le_bytes p2 2)]
                  = Bits_bytes (le_bytes p1 2 ++ le_bytes p2 2)).
  { unfold Bits_join. cbn [concat]. by rewrite Bits_bytes_app, app_nil_r. }
  rewrite Hjoin. split; [by rewrite length_Bits_bytes|].
  apply Bits_tobytes_bytes. apply Forall_app. split; apply le_bytes_range.
Qed.

(** ** Which error [Battle.__init__] raises *)

(** X8: [Battle.__init__] builds its fields from left to right, so a turn,
    a last damage or a move index outside 0..65535 raises [CreationError],
    and only when the four of them fit does the missing [_to_bits] of the
    generator surface as [AttributeError]; the sides and the declared size
    play no part. *)
Theorem Battle___init___outcome (PKMN_GEN1_BATTLE_SIZE : nat) (h : heap)
  (p1_side p2_side : Side)
  (start_turn last_damage p1_move_idx p2_move_idx : Z) (rng : ShowdownRNG) :
  Battle___init__ PKMN_GEN1_BATTLE_SIZE h p1_side p2_side start_turn
    last_damage p1_move_idx p2_move_idx rng
  = Raise (if fits16 start_turn && fits16 last_damage
              && fits16 p1_move_idx && fits16 p2_move_idx
           then AttributeError "ShowdownRNG" "_to_bits"
           else CreationError).
Proof.
  unfold Battle___init__, _pack_move_indexes. cbn [res_all res_bind].
  destruct (decide (0 <= start_turn < 65536)) as [H1|H1].
  2: { rewrite (Bits_uintne_unfit _ 16 H1).
       destruct (fits16 start_turn) eqn:E; [|done].
       by apply fits16_spec in E. }
  rewrite (Bits_uintne_16 _ H1), (proj2 (fits16_spec _) H1). cbn [res_bind].
  destruct (decide (0 <= last_damage < 65536)) as [H2|H2].
  2: { rewrite (Bits_uintne_unfit _ 16 H2).
       destruct (fits16 last_damage) eqn:E; [|done].
       by apply fits16_spec in E. }
  rewrite (Bits_uintne_16 _ H2), (proj2 (fits16_spec _) H2). cbn [res_bind].
  destruct (decide (0 <= p1_move_idx < 65536)) as [H3|H3].
  2: { rewrite (Bits_uintne_unfit _ 16 H3).
       destruct (fits16 p1_move_idx) eqn:E; [|done].
       by apply fits16_spec in E. }
  rewrite (Bits_uintne_16 _ H3), (proj2 (fits16_spec _) H3). cbn [res_bind].
  destruct (decide (0 <= p2_move_idx < 65536)) as [H4|H4].
  2: { rewrite (Bits_uintne_unfit _ 16 H4).
       destruct (fits16 p2_move_idx) eqn:E; [|done].
       by apply fits16_spec in E. }
  rewrite (Bits_uintne_16 _ H4), (proj2 (fits16_spec _) H4). reflexivity.
Qed.

(** ** [Volatiles._to_bits] loses nothing *)

Lemma uint_bits_inj (n : nat) (v w : Z) :
  (n = 3 \/ n = 4 \/ n = 5 \/ n = 8)%nat ->
  0 <= v < 2 ^ Z.of_nat n -> 0 <= w < 2 ^ Z.of_nat n ->
  uint_bits v n = uint_bits w n -> v = w.
Proof.
  intros Hn Hv Hw H.
  rewrite <- (uint_roundtrip n v Hn Hv), <- (uint_roundtrip n w Hn Hw).
  by rewrite H.
Qed.

Lemma Bits_bytes_le_inj (k : nat) (v w : Z) :
  Bits_bytes (le_bytes v k) = Bits_bytes (le_bytes w k) ->
  le_bytes v k = le_bytes w k.
Proof.
  intros H.
  rewrite <- (Bits_tobytes_bytes (le_bytes v k)) by apply le_bytes_range.
  rewrite <- (Bits_tobytes_bytes (le_bytes w k)) by apply le_bytes_range.
  by rewrite H.
Qed.

Lemma le_bytes_2_inj (v w : Z) :
  0 <= v < 65536 -> 0 <= w < 65536 -> le_bytes v 2 = le_bytes w 2 -> v = w.
Proof.
  intros Hv Hw H. cbn [le_bytes] in H. injection H as Hlo Hhi.
  rewrite <- (unpack_pack_u16 v), <- (unpack_pack_u16 w) by lia.
  by rewrite Hlo, Hhi.
Qed.

Lemma le_bytes_1_inj (v w : Z) :
  0 <= v < 256 -> 0 <= w < 256 -> le_bytes v 1 = le_bytes w 1 -> v = w.
Proof.
  intros Hv Hw. rewrite !le_bytes_byte by lia. by intros [= ->].
Qed.

(** X9: two [Volatiles] that [_to_bits] packs into the same 64 bits are the
    same: every flag and every counter can be told from the bits. *)
Theorem Volatiles_to_bits_injective (v1 v2 : Volatiles) (bits : Bits)
  (H1 : Volatiles__to_bits v1 = Ok bits)
  (H2 : Volatiles__to_bits v2 = Ok bits) :
  v1 = v2.
Proof.
  destruct (Volatiles__to_bits_cases v1) as [[F1 E1]|[_ E1]]; [|congruence].
  destruct (Volatiles__to_bits_cases v2) as [[F2 E2]|[_ E2]]; [|congruence].
  assert (Hrec : Volatiles_record v1 = Volatiles_record v2) by congruence.
  destruct F1 as (A1 & A2 & A3 & A4 & A5 & A6 & A7 & A8).
  destruct F2 as (B1 & B2 & B3 & B4 & B5 & B6 & B7 & B8).
  unfold Volatiles_record in Hrec.
  apply app_inj_1 in Hrec as [Hflags Hrec]; [|reflexivity].
  apply app_inj_1 in Hrec as [Hc1 Hrec]; [|by rewrite !length_uint_bits].
  apply app_inj_1 in Hrec as [Hc2 Hrec]; [|by rewrite !length_uint_bits].
  apply app_inj_1 in Hrec as [Hc3 Hrec]; [|by rewrite !length_Bits_bytes].
  apply app_inj_1 in Hrec as [Hc4 Hrec]; [|by rewrite !length_Bits_bytes].
  apply app_inj_1 in Hrec as [Hc5 Hrec]; [|by rewrite !length_uint_bits].
  apply app_inj_1 in Hrec as [Hc6 Hrec]; [|by rewrite !length_uint_bits].
  apply app_inj_1 in Hrec as [Hc7 Hc8]; [|by rewrite !length_uint_bits].
  apply (uint_bits_inj 3) in Hc1; [|tauto|done|done].
  apply (uint_bits_inj 3) in Hc2; [|tauto|done|done].
  apply Bits_bytes_le_inj, le_bytes_2_inj in Hc3; [|done|done].
  apply Bits_bytes_le_inj, le_bytes_1_inj in Hc4; [|done|done].
  apply (uint_bits_inj 4) in Hc5; [|tauto|done|done].
  apply (uint_bits_inj 4) in Hc6; [|tauto|done|done].
  apply (uint_bits_inj 3) in Hc7; [|tauto|done|done].
  apply (uint_bits_inj 5) in Hc8; [|tauto|done|done].
  destruct v1, v2. simpl in *.
  injection Hflags as -> -> -> -> -> -> -> -> -> -> -> -> -> -> -> -> -> ->.
  by subst.
Qed.

Lemma Volatiles_to_bits_injective_witness :
  sample_volatiles = sample_volatiles.
Proof.
  apply (Volatiles_to_bits_injective sample_volatiles sample_volatiles
           (Volatiles_record sample_volatiles)); vm_compute; reflexivity.
Defined.

(** ** [Pokemon.initialize] writes inside its buffer *)

Lemma keeps_length_ret {A} (a : A) : keeps_length (buf_ret a).
Proof. by intros b. Qed.

Lemma keeps_length_lift {A} (r : res A) : keeps_length (buf_lift r).
Proof. by intros b. Qed.

Lemma keeps_length_bind {A B} (m : BufM A) (k : A -> BufM B) :
  keeps_length m -> (forall a, keeps_length (k a)) ->
  keeps_length (buf_bind m k).
Proof.
  intros Hm Hk b. unfold buf_bind. specialize (Hm b).
  destruct (m b) as [[a|e] b1]; cbn [snd] in *; [|done].
  by rewrite Hk.
Qed.

Lemma keeps_length_setitem (i : nat) (v : Z) : keeps_length (setitem i v).
Proof.
  intros b. unfold setitem.
  destruct (i <? length b)%nat; [|done].
  destruct (is_byte v); [|done]. cbn [snd]. by rewrite length_insert.
Qed.

Lemma keeps_length_setitems (vs : list Z) :
  forall i, keeps_length (setitems i vs).
Proof.
  induction vs as [|v vs IH]; intros i; cbn [setitems].
  - apply keeps_length_ret.
  - apply keeps_length_bind; [apply keeps_length_setitem|intros _; apply IH].
Qed.

Lemma keeps_length_setslice (i j : nat) (vs : list Z) :
  keeps_length (setslice i j vs).
Proof.
  intros b. unfold setslice.
  destruct ((i <=? j)%nat && (j <=? length b)%nat); [|done].
  destruct (length vs =? j - i)%nat; [|done].
  apply keeps_length_setitems.
Qed.

Lemma keeps_length_pack_stats (stats : Gen1StatData) (keys : list stat_key) :
  forall offset, keeps_length (pack_stats stats keys offset).
Proof.
  induction keys as [|k keys IH]; intros offset; cbn [pack_stats].
  - apply keeps_length_ret.
  - apply keeps_length_bind; [apply keeps_length_setslice|intros _; apply IH].
Qed.

Lemma keeps_length_pack_moves (D : StaticData) (names : list string)
  (move_pp : option (list Z)) (indices : list nat) :
  forall offset, keeps_length (pack_moves D names move_pp indices offset).
Proof.
  induction indices as [|i indices IH]; intros offset; cbn [pack_moves].
  - apply keeps_length_ret.
  - apply keeps_length_bind; [apply keeps_length_lift|intros slot].
    apply keeps_length_bind; [apply keeps_length_setitem|intros _].
    apply keeps_length_bind; [apply keeps_length_setitem|intros _].
    apply IH.
Qed.

Ltac keeps_length_step :=
  first
    [ apply keeps_length_lift
    | apply keeps_length_setitem
    | apply keeps_length_setslice
    | apply keeps_length_pack_stats
    | apply keeps_length_pack_moves
    | apply keeps_length_bind; [|intros ?] ].

(** [initialize] writes inside the buffer it is given, whether it returns
    or raises part-way. *)
Lemma keeps_length_Pokemon_initialize (D : StaticData) (L : Layout)
  (data : PokemonInitializer) :
  keeps_length (Pokemon_initialize D L data).
Proof. unfold Pokemon_initialize, buf_assert. repeat keeps_length_step. Qed.

(** ** What a successful [initialize] leaves in the buffer *)

Lemma splice_tail (off : nat) (image b : list Z) :
  length b = (off + length image)%nat ->
  splice off image b = take off b ++ image.
Proof.
  intros H. unfold splice. by rewrite drop_ge, app_nil_r by lia.
Qed.

Section PokemonMore.
Variable D : StaticData.
Variable L : Layout.
Hypothesis Hlayout : Pokemon_layout_ok L.

Lemma SIZE_Pokemon_24 : SIZE_Pokemon L = (Pokemon_stats L + 24)%nat.
Proof. destruct Hlayout as (? & ? & ? & ? & ? & ? & ?). lia. Qed.

(** A successful [initialize] wrote the record of its resolved fields. *)
Lemma Pokemon_initialize_record (data : PokemonInitializer) (b b' : list Z) :
  length b = SIZE_Pokemon L ->
  Pokemon_initialize D L data b = (Ok tt, b') ->
  exists r s0 s1 s2 s3 sid t1 t2,
    resolve D data = Ok r
    /\ Forall2 (fun i s => move_slot D (move_names data) (r_move_pp r) i = Ok s)
         [0; 1; 2; 3]%nat [s0; s1; s2; s3]
    /\ SPECIES_IDS D !! species_name data = Some sid
    /\ list_index (fst (r_types r)) (TYPES D) = Some t1
    /\ list_index (snd (r_types r)) (TYPES D) = Some t2
    /\ b' = splice (Pokemon_stats L)
              (record_image r s0 s1 s2 s3 sid
                 (pack_two_u4s (Z.of_nat t1) (Z.of_nat t2))) b.
Proof.
  intros Hb Hinit.
  destruct (Pokemon_initialize_Ok_inv D L Hlayout data b b' Hb Hinit)
    as (image & Himage & _ & ->).
  destruct (Pokemon_image_inv D data image Himage)
    as (r & s0 & s1 & s2 & s3 & sid & t1 & t2 & Hr & Hs & Hsid & Ht1 & Ht2 & ->).
  by exists r, s0, s1, s2, s3, sid, t1, t2.
Qed.

Lemma resolve_fields (data : PokemonInitializer) (r : Resolved) :
  resolve D data = Ok r ->
  let x := default no_extra (extra_data data) in
  r_status r = default 0 (x_status x)
  /\ r_level r = default 100 (x_level x)
  /\ r_hp r = default (st_hp (r_stats r)) (x_hp x)
  /\ r_move_pp r = x_move_pp x.
Proof. unfold resolve. intros H. bind_inv H. by injection H as <-. Qed.

(** What [resolve] takes from a species of the table. *)
Lemma resolve_species (data : PokemonInitializer) (r : Resolved)
  (sp : SpeciesData) :
  resolve D data = Ok r ->
  species_name data <> "None"%string ->
  SPECIES D !! species_name data = Some sp ->
  let x := default no_extra (extra_data data) in
  (x_stats x = None ->
   computed_stats (species_stats sp) (default 100 (x_level x))
     (default default_dvs (x_dvs x)) (default default_exp (x_exp x))
   = Ok (r_stats r))
  /\ (x_types x = None ->
      exists first, species_types sp !! 0%nat = Some first
        /\ r_types r = (first, default first (species_types sp !! 1%nat))).
Proof.
  unfold resolve. intros H Hname Hsp. cbn zeta.
  destruct (String.eqb_spec (species_name data) "None"); [done|].
  rewrite Hsp in H. bind_inv H. injection H as <-. cbn [r_stats r_types].
  bind_inv E. bind_inv E. injection E as <-. cbn [fst snd]. split.
  - intros Hx. rewrite Hx in E0. exact E0.
  - intros Hx. rewrite Hx in E1. unfold py_nth in E1.
    destruct (species_types sp !! 0%nat) as [first|] eqn:H0; [|done].
    cbn [res_bind] in E1. exists first. split; [done|].
    destruct (1 <? length (species_types sp))%nat eqn:Hlen.
    + destruct (species_types sp !! 1%nat) as [second|]; [|done].
      cbn [res_bind] in E1. by injection E1 as <-.
    + apply Nat.ltb_ge in Hlen.
      rewrite (proj2 (lookup_ge_None (species_types sp) 1) Hlen).
      cbn [res_bind] in E1. by injection E1 as <-.
Qed.

(** X10: a successful [initialize] overwrites the whole record: run on any
    other buffer of the record's size it succeeds too and leaves the same
    bytes from the stats offset on, whatever was there before (the same
    buffer altogether when the stats start the record), and run again on
    its own result it changes nothing. *)
Theorem Pokemon_initialize_overwrites (data : PokemonInitializer)
  (b1 b1' b2 : list Z)
  (H1 : length b1 = SIZE_Pokemon L) (H2 : length b2 = SIZE_Pokemon L)
  (Hinit : Pokemon_initialize D L data b1 = (Ok tt, b1')) :
  exists b2',
    Pokemon_initialize D L data b2 = (Ok tt, b2')
    /\ take (Pokemon_stats L) b2' = take (Pokemon_stats L) b2
    /\ drop (Pokemon_stats L) b2' = drop (Pokemon_stats L) b1'
    /\ (Pokemon_stats L = 0%nat -> b2' = b1')
    /\ Pokemon_initialize D L data b1' = (Ok tt, b1').
Proof.
  pose proof SIZE_Pokemon_24 as Hsize.
  destruct (Pokemon_initialize_Ok_inv D L Hlayout data b1 b1' H1 Hinit)
    as (image & Himage & Hlen & ->).
  assert (Hrun : forall b : list Z, length b = SIZE_Pokemon L ->
            Pokemon_initialize D L data b
            = (Ok tt, take (Pokemon_stats L) b ++ image)).
  { intros b Hb.
    pose proof (Pokemon_initialize_image D L Hlayout data b Hb) as Him.
    rewrite Himage in Him. destruct Him as [_ ->].
    by rewrite splice_tail by lia. }
  assert (Htake : forall b : list Z, length b = SIZE_Pokemon L ->
            Pokemon_stats L = length (take (Pokemon_stats L) b)).
  { intros b Hb. rewrite length_take. lia. }
  rewrite splice_tail by lia.
  exists (take (Pokemon_stats L) b2 ++ image).
  split; [by apply Hrun|]. split; [|split; [|split]].
  - by rewrite take_app_length' by (by apply Htake).
  - by rewrite !drop_app_length' by (by apply Htake).
  - intros H0. by rewrite H0, !take_0.
  - rewrite Hrun by (rewrite length_app, <- Htake by done; lia).
    by rewrite take_app_length' by (by apply Htake).
Qed.

(** X11: after a successful [initialize], [status()] is the status that was
    supplied, 0 when none was; [level()] is the level that was supplied, 100
    when none was; and when no HP was supplied [hp()] is the HP stat that
    [stats()] reports. *)
Theorem status_level_hp_defaults (data : PokemonInitializer) (b b' : list Z)
  (Hbuf : length b = SIZE_Pokemon L)
  (Hinit : Pokemon_initialize D L data b = (Ok tt, b')) :
  let x := default no_extra (extra_data data) in
  Pokemon_status_reader L b' = Ok (default 0 (x_status x))
  /\ Pokemon_level_reader L b' = Ok (default 100 (x_level x))
  /\ (x_hp x = None ->
      exists stats, Pokemon_stats_reader L b' = Ok stats
                    /\ Pokemon_hp_reader L b' = Ok (st_hp stats)).
Proof.
  destruct (Pokemon_initialize_record data b b' Hbuf Hinit)
    as (r & s0 & s1 & s2 & s3 & sid & t1 & t2 & Hr & _ & _ & _ & _ & ->).
  destruct (readers_of_record_image D L Hlayout b r s0 s1 s2 s3 sid
              (pack_two_u4s (Z.of_nat t1) (Z.of_nat t2)) Hbuf)
    as (Hstats & _ & _ & Hhp & Hstatus & _ & _ & Hlevel).
  destruct (resolve_fields data r Hr) as (Est & Elv & Ehp & _).
  cbn zeta. rewrite Hstatus, Hlevel, Est, Elv.
  split; [done|]. split; [done|]. intros Hnone.
  rewrite Hnone in Ehp. cbn [default] in Ehp.
  eexists. split; [exact Hstats|]. rewrite Hhp, Ehp. reflexivity.
Qed.

(** X12: when the reverse species table maps the id of the species back to
    its name, [species()] after a successful [initialize] is the species
    name of the initializer. *)
Theorem species_read_back (data : PokemonInitializer) (b b' : list Z)
  (Hbuf : length b = SIZE_Pokemon L)
  (Hinit : Pokemon_initialize D L data b = (Ok tt, b'))
  (Hback : forall sid, SPECIES_IDS D !! species_name data = Some sid ->
                       SPECIES_ID_LOOKUP D !! sid = Some (species_name data)) :
  Pokemon_species_reader D L b' = Ok (species_name data).
Proof.
  destruct (Pokemon_initialize_record data b b' Hbuf Hinit)
    as (r & s0 & s1 & s2 & s3 & sid & t1 & t2 & _ & _ & Hsid & _ & _ & ->).
  destruct (readers_of_record_image D L Hlayout b r s0 s1 s2 s3 sid
              (pack_two_u4s (Z.of_nat t1) (Z.of_nat t2)) Hbuf)
    as (_ & _ & _ & _ & _ & Hspecies & _).
  rewrite Hspecies. unfold lookup_get. by rewrite (Hback sid Hsid).
Qed.

(** The types a successful [initialize] resolved come back from [types()]
    when the type table has at most 16 entries. *)
Lemma types_read_back (data : PokemonInitializer) (b b' : list Z) :
  length b = SIZE_Pokemon L ->
  Pokemon_initialize D L data b = (Ok tt, b') ->
  (length (TYPES D) <= 16)%nat ->
  exists r, resolve D data = Ok r
            /\ Pokemon_types_reader D L b' = Ok (r_types r).
Proof.
  intros Hbuf Hinit HT.
  destruct (Pokemon_initialize_record data b b' Hbuf Hinit)
    as (r & s0 & s1 & s2 & s3 & sid & t1 & t2 & Hr & _ & _ & Ht1 & Ht2 & ->).
  destruct (readers_of_record_image D L Hlayout b r s0 s1 s2 s3 sid
              (pack_two_u4s (Z.of_nat t1) (Z.of_nat t2)) Hbuf)
    as (_ & _ & _ & _ & _ & _ & Htypes & _).
  exists r. split; [done|]. rewrite Htypes.
  pose proof (list_index_lt _ _ _ Ht1). pose proof (list_index_lt _ _ _ Ht2).
  destruct (unpack_pack_two_u4s (Z.of_nat t1) (Z.of_nat t2)) as [_ ->];
    [lia|lia|].
  cbn [fst snd]. rewrite !Nat2Z.id. unfold py_nth.
  rewrite (list_index_lookup _ _ _ Ht1), (list_index_lookup _ _ _ Ht2).
  cbn [res_bind]. by destruct (r_types r).
Qed.

(** X13: when no types are supplied for a species of the table, [types()]
    after a successful [initialize] is the pair of the species' first type
    and its second, the first type twice for a species of one type (the
    type table has at most 16 entries, one nibble each). *)
Theorem types_default_to_species (data : PokemonInitializer) (b b' : list Z)
  (sp : SpeciesData)
  (Hbuf : length b = SIZE_Pokemon L)
  (Hinit : Pokemon_initialize D L data b = (Ok tt, b'))
  (HT : (length (TYPES D) <= 16)%nat)
  (Hname : species_name data <> "None"%string)
  (Hsp : SPECIES D !! species_name data = Some sp)
  (Hnone : x_types (default no_extra (extra_data data)) = None) :
  exists first,
    species_types sp !! 0%nat = Some first
    /\ Pokemon_types_reader D L b'
       = Ok (first, default first (species_types sp !! 1%nat)).
Proof.
  destruct (types_read_back data b b' Hbuf Hinit HT) as (r & Hr & Htypes).
  destruct (resolve_species data r sp Hr Hname Hsp) as [_ H].
  destruct (H Hnone) as (first & Hfirst & Erty).
  exists first. split; [done|]. by rewrite Htypes, Erty.
Qed.

Lemma computed_stats_range (base dvs exp stats : Gen1StatData) (level : Z) :
  computed_stats base level dvs exp = Ok stats ->
  0 <= st_hp stats <= 65535 /\ 0 <= st_atk stats <= 65535
  /\ 0 <= st_def stats <= 65535 /\ 0 <= st_spe stats <= 65535
  /\ 0 <= st_spc stats <= 65535.
Proof.
  unfold computed_stats. intros H. repeat bind_inv H. injection H as <-.
  cbn [st_hp st_atk st_def st_spe st_spc].
  apply statcalc_range in E, E0, E1, E2, E3. lia.
Qed.

(** The stats a successful [initialize] resolved come back from [stats()]
    when each of them fits 16 bits. *)
Lemma stats_read_back (data : PokemonInitializer) (b b' : list Z)
  (r : Resolved) :
  length b = SIZE_Pokemon L ->
  Pokemon_initialize D L data b = (Ok tt, b') ->
  resolve D data = Ok r ->
  0 <= st_hp (r_stats r) <= 65535 /\ 0 <= st_atk (r_stats r) <= 65535
  /\ 0 <= st_def (r_stats r) <= 65535 /\ 0 <= st_spe (r_stats r) <= 65535
  /\ 0 <= st_spc (r_stats r) <= 65535 ->
  Pokemon_stats_reader L b' = Ok (r_stats r).
Proof.
  intros Hbuf Hinit Hr (R1 & R2 & R3 & R4 & R5).
  destruct (Pokemon_initialize_record data b b' Hbuf Hinit)
    as (r' & s0 & s1 & s2 & s3 & sid & t1 & t2 & Hr' & _ & _ & _ & _ & ->).
  assert (r' = r) as -> by congruence.
  destruct (readers_of_record_image D L Hlayout b r s0 s1 s2 s3 sid
              (pack_two_u4s (Z.of_nat t1) (Z.of_nat t2)) Hbuf)
    as (Hstats & _).
  rewrite Hstats, !unpack_pack_u16 by done. by destruct (r_stats r).
Qed.

(** The HP a successful [initialize] resolved comes back from [hp()] when
    it fits 16 bits. *)
Lemma hp_read_back (data : PokemonInitializer) (b b' : list Z) (r : Resolved) :
  length b = SIZE_Pokemon L ->
  Pokemon_initialize D L data b = (Ok tt, b') ->
  resolve D data = Ok r ->
  0 <= r_hp r <= 65535 ->
  Pokemon_hp_reader L b' = Ok (r_hp r).
Proof.
  intros Hbuf Hinit Hr Hrange.
  destruct (Pokemon_initialize_record data b b' Hbuf Hinit)
    as (r' & s0 & s1 & s2 & s3 & sid & t1 & t2 & Hr' & _ & _ & _ & _ & ->).
  assert (r' = r) as -> by congruence.
  destruct (readers_of_record_image D L Hlayout b r s0 s1 s2 s3 sid
              (pack_two_u4s (Z.of_nat t1) (Z.of_nat t2)) Hbuf)
    as (_ & _ & _ & Hhp & _).
  by rewrite Hhp, unpack_pack_u16.
Qed.

(** X14: when no stats are supplied for a species of the table, [stats()]
    after a successful [initialize] returns exactly the five values
    [statcalc] computes from the species' base stats, the level, the DVs
    and the stat experience: each fits the 16 bits it is stored in. *)
Theorem computed_stats_read_back (data : PokemonInitializer) (b b' : list Z)
  (sp : SpeciesData)
  (Hbuf : length b = SIZE_Pokemon L)
  (Hinit : Pokemon_initialize D L data b = (Ok tt, b'))
  (Hname : species_name data <> "None"%string)
  (Hsp : SPECIES D !! species_name data = Some sp)
  (Hnone : x_stats (default no_extra (extra_data data)) = None) :
  let x := default no_extra (extra_data data) in
  exists stats,
    computed_stats (species_stats sp) (default 100 (x_level x))
      (default default_dvs (x_dvs x)) (default default_exp (x_exp x))
    = Ok stats
    /\ Pokemon_stats_reader L b' = Ok stats.
Proof.
  destruct (Pokemon_initialize_record data b b' Hbuf Hinit)
    as (r & _ & _ & _ & _ & _ & _ & _ & Hr & _).
  destruct (resolve_species data r sp Hr Hname Hsp) as [H _].
  specialize (H Hnone). cbn zeta. exists (r_stats r). split; [exact H|].
  apply (stats_read_back data b b' r Hbuf Hinit Hr).
  exact (computed_stats_range _ _ _ _ _ H).
Qed.

(** X15: a species of the table initialized without the extra dictionary is
    at level 100 with every DV 15 and every stat experience 65535: its
    [stats()] are twice the base stat plus 98, its HP stat and [hp()] twice
    the base HP plus 203, all modulo 65536. *)
Theorem default_stats_at_level_100 (species : string) (names : list string)
  (b b' : list Z) (sp : SpeciesData)
  (Hbuf : length b = SIZE_Pokemon L)
  (Hinit : Pokemon_initialize D L (mkInit species names None) b = (Ok tt, b'))
  (Hname : species <> "None"%string)
  (Hsp : SPECIES D !! species = Some sp) :
  let base := species_stats sp in
  Pokemon_stats_reader L b'
  = Ok (mkStats ((2 * st_hp base + 203) mod 65536)
          ((2 * st_atk base + 98) mod 65536)
          ((2 * st_def base + 98) mod 65536)
          ((2 * st_spe base + 98) mod 65536)
          ((2 * st_spc base + 98) mod 65536))
  /\ Pokemon_hp_reader L b' = Ok ((2 * st_hp base + 203) mod 65536).
Proof.
  cbn zeta.
  assert (Hcalc : forall base_value is_HP,
            statcalc base_value is_HP 100 15 65535
            = Ok ((2 * base_value + (if is_HP then 203 else 98)) mod 65536)).
  { intros base_value is_HP. rewrite statcalc_eq by lia.
    unfold statcalc_formula.
    change (Z.quot (Z.sqrt 65535) 4) with 63.
    change (Z.quot 100 100) with 1.
    f_equal. f_equal. destruct is_HP; lia. }
  destruct (Pokemon_initialize_record (mkInit species names None) b b'
              Hbuf Hinit) as (r & _ & _ & _ & _ & _ & _ & _ & Hr & _).
  destruct (resolve_species (mkInit species names None) r sp Hr Hname Hsp)
    as [Hstats _].
  specialize (Hstats eq_refl).
  destruct (resolve_fields (mkInit species names None) r Hr)
    as (_ & _ & Ehp & _).
  cbn [extra_data default no_extra x_level x_dvs x_exp x_hp] in Hstats, Ehp.
  pose proof (computed_stats_range _ _ _ _ _ Hstats) as Hrange.
  rewrite (stats_read_back _ b b' r Hbuf Hinit Hr Hrange).
  rewrite (hp_read_back _ b b' r Hbuf Hinit Hr) by (rewrite Ehp; tauto).
  rewrite Ehp.
  unfold computed_stats, default_dvs, default_exp in Hstats.
  cbn [st_hp st_atk st_def st_spe st_spc] in Hstats.
  rewrite !Hcalc in Hstats. cbn [res_bind] in Hstats.
  injection Hstats as <-. by split.
Qed.

(** X16: when no PP is supplied, [pp_left()] after a successful
    [initialize] of a moveset of up to four real moves is, move by move,
    the base PP of the move times 8 over 5, rounded down (for a base PP
    that fits a byte the float computation is exact). *)
Theorem default_pp_is_eight_fifths (data : PokemonInitializer) (b b' : list Z)
  (Hbuf : length b = SIZE_Pokemon L)
  (Hinit : Pokemon_initialize D L data b = (Ok tt, b'))
  (HN : (length (move_names data) <= 4)%nat)
  (Hreal : Forall (real_move D) (move_names data))
  (Hbase : Forall (fun name => forall base, MOVES D !! name = Some base ->
                                            0 <= base <= 255)
             (move_names data))
  (Hnone : x_move_pp (default no_extra (extra_data data)) = None) :
  exists bases,
    Forall2 (fun name base => MOVES D !! name = Some base)
      (move_names data) bases
    /\ Pokemon_pp_left L b' = Ok ((fun base => base * 8 / 5) <$> bases).
Proof.
  destruct (Pokemon_initialize_record data b b' Hbuf Hinit)
    as (r & s0 & s1 & s2 & s3 & sid & t1 & t2 & Hr & Hs & _ & _ & _ & ->).
  destruct (readers_of_record_image D L Hlayout b r s0 s1 s2 s3 sid
              (pack_two_u4s (Z.of_nat t1) (Z.of_nat t2)) Hbuf)
    as (_ & _ & Hpp & _).
  destruct (resolve_fields data r Hr) as (_ & _ & _ & Epp).
  rewrite Hnone in Epp. rewrite Epp in Hs.
  destruct (slots_of_names D (move_names data) None Hreal 4 0
              [s0; s1; s2; s3] Hs ltac:(lia)) as (_ & Hslots & _).
  rewrite Nat.sub_0_r in Hslots. rewrite Hpp, Hslots.
  set (sl := take (length (move_names data)) [s0; s1; s2; s3]).
  assert (Hsl : Forall2 (fun name s =>
                  exists base, MOVES D !! name = Some base
                               /\ snd s = base * 8 / 5)
                  (move_names data) sl).
  { apply Forall2_same_length_lookup_2.
    - unfold sl. rewrite length_take. cbn [length]. lia.
    - intros i name s Hname Hsi.
      unfold sl in Hsi. apply lookup_take_Some in Hsi as [Hsi Hi].
      pose proof (Forall2_lookup_r _ _ _ _ _ Hs Hsi) as (j & Hj & Hslot).
      assert (j = i) as ->.
      { apply lookup_lt_Some in Hsi as Hlt. cbn [length] in Hlt.
        destruct i as [|[|[|[|i]]]]; cbn in Hj; try lia;
          by injection Hj as <-. }
      pose proof (proj1 (Forall_lookup _ _) Hreal i name Hname)
        as (id & Hid & Hpos & _).
      destruct (move_slot_used D _ None i name id s Hname Hid Hslot)
        as [Hfst Hdef].
      unfold default_pp in Hdef. destruct (Z.eqb_spec id 0); [done|].
      unfold dict_get in Hdef.
      destruct (MOVES D !! name) as [base|] eqn:Hb; [|done].
      cbn [res_bind] in Hdef.
      pose proof (proj1 (Forall_lookup _ _) Hbase i name Hname base Hb)
        as Hrange.
      destruct (default_pp_exact base Hrange) as (q & Hq & Hfloor & _).
      rewrite Hq in Hdef. cbn [res_bind] in Hdef. rewrite Hfloor in Hdef.
      injection Hdef as <-. by exists base. }
  clearbody sl. clear -Hsl.
  induction Hsl as [|name s names sl (base & Hb & Hs) _ (bases & IH1 & IH2)].
  - by exists [].
  - exists (base :: bases). split; [by constructor|].
    cbn [fmap list_fmap] in *. injection IH2 as IH2. by rewrite Hs, IH2.
Qed.

End PokemonMore.

(** X17: [initialize] with a species that is neither [None] nor in the
    species table raises [ValueError] and leaves the buffer exactly as it
    was, whatever the layout and the size of the buffer. *)
Theorem unknown_species_ValueError (D : StaticData) (L : Layout)
  (data : PokemonInitializer) (b : list Z)
  (Hname : species_name data <> "None"%string)
  (Hunknown : SPECIES D !! species_name data = None) :
  Pokemon_initialize D L data b
  = (Raise (ValueError "is not a valid species in Generation I."), b).
Proof.
  unfold Pokemon_initialize, buf_bind, buf_lift, resolve.
  destruct (String.eqb_spec (species_name data) "None"); [done|].
  by rewrite Hunknown.
Qed.

(** ** The same on the example tables *)

Lemma Pokemon_initialize_overwrites_witness :
  exists b2',
    Pokemon_initialize sample_data gen1_layout (mkInit "Mew" ["Psychic"] None)
      (replicate 24 7) = (Ok tt, b2')
    /\ b2' = snd (Pokemon_initialize sample_data gen1_layout
                    (mkInit "Mew" ["Psychic"] None) (replicate 24 0)).
Proof.
  destruct (Pokemon_initialize_overwrites sample_data gen1_layout
              gen1_layout_ok (mkInit "Mew" ["Psychic"] None) (replicate 24 0)
              (snd (Pokemon_initialize sample_data gen1_layout
                      (mkInit "Mew" ["Psychic"] None) (replicate 24 0)))
              (replicate 24 7))
    as (b2' & Hrun & _ & _ & Heq & _).
  - reflexivity.
  - reflexivity.
  - vm_compute. reflexivity.
  - exists b2'. split; [exact Hrun|exact (Heq eq_refl)].
Defined.

Lemma unknown_species_ValueError_witness :
  Pokemon_initialize sample_data gen1_layout
    (mkInit "Missingno" ["Psychic"] None) [1; 2; 3]
  = (Raise (ValueError "is not a valid species in Generation I."), [1; 2; 3]).
Proof.
  apply (unknown_species_ValueError sample_data gen1_layout
           (mkInit "Missingno" ["Psychic"] None) [1; 2; 3]).
  - cbn. discriminate.
  - vm_compute. reflexivity.
Defined.

Lemma status_level_hp_defaults_witness :
  Pokemon_level_reader gen1_layout
    (snd (Pokemon_initialize sample_data gen1_layout
            (mkInit "Mew" ["Psychic"] None) (replicate 24 0)))
  = Ok 100.
Proof.
  destruct (status_level_hp_defaults sample_data gen1_layout gen1_layout_ok
              (mkInit "Mew" ["Psychic"] None) (replicate 24 0)
              (snd (Pokemon_initialize sample_data gen1_layout
                      (mkInit "Mew" ["Psychic"] None) (replicate 24 0))))
    as (_ & Hlevel & _).
  - reflexivity.
  - vm_compute. reflexivity.
  - exact Hlevel.
Defined.

Lemma species_read_back_witness :
  Pokemon_species_reader sample_data gen1_layout
    (snd (Pokemon_initialize sample_data gen1_layout
            (mkInit "Charizard" ["Fire Blast"] None) (replicate 24 0)))
  = Ok "Charizard"%string.
Proof.
  apply (species_read_back sample_data gen1_layout gen1_layout_ok
           (mkInit "Charizard" ["Fire Blast"] None) (replicate 24 0)).
  - reflexivity.
  - vm_compute. reflexivity.
  - intros sid Hsid. vm_compute in Hsid. injection Hsid as <-.
    vm_compute. reflexivity.
Defined.

Lemma types_default_to_species_witness :
  Pokemon_types_reader sample_data gen1_layout
    (snd (Pokemon_initialize sample_data gen1_layout
            (mkInit "Mew" ["Psychic"] None) (replicate 24 0)))
  = Ok ("Psychic", "Psychic")%string.
Proof.
  destruct (types_default_to_species sample_data gen1_layout gen1_layout_ok
              (mkInit "Mew" ["Psychic"] None) (replicate 24 0)
              (snd (Pokemon_initialize sample_data gen1_layout
                      (mkInit "Mew" ["Psychic"] None) (replicate 24 0)))
              (mkSpecies (mkStats 100 100 100 100 100) ["Psychic"%string]))
    as (first & Hfirst & Htypes).
  - reflexivity.
  - vm_compute. reflexivity.
  - cbn. lia.
  - cbn. discriminate.
  - vm_compute. reflexivity.
  - reflexivity.
  - cbn in Hfirst. injection Hfirst as <-. exact Htypes.
Defined.

Lemma computed_stats_read_back_witness :
  Pokemon_stats_reader gen1_layout
    (snd (Pokemon_initialize sample_data gen1_layout
            (mkInit "Charizard" ["Fire Blast"]
               (Some (mkExtra None None (Some 50) None None None None None)))
            (replicate 24 0)))
  = Ok (mkStats 60 5 5 5 5).
Proof.
  destruct (computed_stats_read_back sample_data gen1_layout gen1_layout_ok
              (mkInit "Charizard" ["Fire Blast"]
                 (Some (mkExtra None None (Some 50) None None None None None)))
              (replicate 24 0)
              (snd (Pokemon_initialize sample_data gen1_layout
                      (mkInit "Charizard" ["Fire Blast"]
                         (Some (mkExtra None None (Some 50) None None None
                                  None None)))
                      (replicate 24 0)))
              (mkSpecies (mkStats 78 84 78 100 85) ["Fire"; "Flying"]%string))
    as (stats & Hstats & Hread).
  - reflexivity.
  - vm_compute. reflexivity.
  - cbn. discriminate.
  - vm_compute. reflexivity.
  - reflexivity.
  - vm_compute in Hstats. injection Hstats as <-. exact Hread.
Defined.

Lemma default_stats_at_level_100_witness :
  Pokemon_hp_reader gen1_layout
    (snd (Pokemon_initialize sample_data gen1_layout
            (mkInit "Charizard" ["Fire Blast"] None) (replicate 24 0)))
  = Ok 359.
Proof.
  destruct (default_stats_at_level_100 sample_data gen1_layout gen1_layout_ok
              "Charizard" ["Fire Blast"%string] (replicate 24 0)
              (snd (Pokemon_initialize sample_data gen1_layout
                      (mkInit "Charizard" ["Fire Blast"] None)
                      (replicate 24 0)))
              (mkSpecies (mkStats 78 84 78 100 85) ["Fire"; "Flying"]%string))
    as [_ Hhp].
  - reflexivity.
  - vm_compute. reflexivity.
  - discriminate.
  - vm_compute. reflexivity.
  - exact Hhp.
Defined.

Lemma default_pp_is_eight_fifths_witness :
  Pokemon_pp_left gen1_layout
    (snd (Pokemon_initialize sample_data gen1_layout
            (mkInit "Mew" ["Psychic"; "Fire Blast"] None) (replicate 24 0)))
  = Ok [16; 8].
Proof.
  destruct (default_pp_is_eight_fifths sample_data gen1_layout gen1_layout_ok
              (mkInit "Mew" ["Psychic"; "Fire Blast"] None) (replicate 24 0)
              (snd (Pokemon_initialize sample_data gen1_layout
                      (mkInit "Mew" ["Psychic"; "Fire Blast"] None)
                      (replicate 24 0))))
    as (bases & Hbases & Hpp).
  - reflexivity.
  - vm_compute. reflexivity.
  - cbn. lia.
  - repeat constructor.
    + exists 94. split; [reflexivity|]. split; [lia|reflexivity].
    + exists 126. split; [reflexivity|]. split; [lia|reflexivity].
  - constructor; [|constructor; [|constructor]]; intros base Hb;
      vm_compute in Hb; injection Hb as <-; lia.
  - reflexivity.
  - cbn [move_names] in Hbases.
    apply Forall2_cons_inv_l in Hbases as (b1 & l1 & Hb1 & Hbases & ->).
    apply Forall2_cons_inv_l in Hbases as (b2 & l2 & Hb2 & Hbases & ->).
    apply Forall2_nil_inv_l in Hbases as ->.
    vm_compute in Hb1, Hb2. injection Hb1 as <-. injection Hb2 as <-.
    exact Hpp.
Defined.

(** ** [moves_with_pp()] against [moves()] and [pp_left()] *)

Section MovesWithPP.
Variable D : StaticData.

Lemma moves_with_pp_from_spec (b : list Z) (offset : nat) (ns : list nat) :
  forall l : list (string * Z),
    moves_with_pp_from D b offset ns = Ok l
    <-> moves_from D b offset ns = Ok l.*1
        /\ pp_from b offset (S <$> ns) = Ok l.*2.
Proof.
  induction ns as [|n ns IH]; intros l.
  - cbn. split.
    + by intros [= <-].
    + intros [H _]. injection H as H. destruct l; [done|discriminate].
  - cbn [moves_with_pp_from moves_from pp_from fmap list_fmap].
    replace (offset + S n - 1)%nat with (offset + n)%nat by lia.
    replace (offset + S n)%nat with (offset + n + 1)%nat by lia.
    destruct (getitem b (offset + n)) as [id|e]; cbn [res_bind];
      [|split; [done|by intros [? _]]].
    destruct (id =? 0); [apply IH|].
    destruct (lookup_get (MOVE_ID_LOOKUP D) id) as [name|e]; cbn [res_bind];
      [|split; [done|by intros [? _]]].
    destruct (getitem b (offset + n + 1)) as [pp|e]; cbn [res_bind];
      [|split; [done|by intros [_ ?]]].
    destruct (moves_with_pp_from D b offset ns) as [rest|e] eqn:Hrest;
      cbn [res_bind].
    + destruct (proj1 (IH rest) eq_refl) as [-> ->]. cbn [res_bind]. split.
      * by intros [= <-].
      * intros [Hm Hp]. injection Hm as Hm. injection Hp as Hp.
        destruct l as [|[name' pp'] l]; [discriminate|].
        cbn in Hm, Hp. injection Hm as -> Hm. injection Hp as -> Hp.
        f_equal. f_equal.
        rewrite <- (zip_fst_snd l), <- (zip_fst_snd rest). by rewrite Hm, Hp.
    + split; [done|]. intros [Hm Hp].
      destruct (moves_from D b offset ns) as [ms|]; [|done].
      destruct (pp_from b offset (S <$> ns)) as [ps|]; [|done].
      cbn [res_bind] in Hm, Hp. injection Hm as Hm. injection Hp as Hp.
      destruct l as [|[name' pp'] l]; [discriminate|].
      cbn in Hm, Hp. injection Hm as _ Hm. injection Hp as _ Hp.
      pose proof (proj2 (IH l) (conj (f_equal Ok Hm) (f_equal Ok Hp))) as Hl.
      discriminate Hl.
Qed.

Lemma pp_from_length (b : list Z) (offset : nat) (ns : list nat) :
  forall ps, pp_from b offset ns = Ok ps -> (length ps <= length ns)%nat.
Proof.
  induction ns as [|n ns IH]; intros ps H.
  - injection H as <-. done.
  - cbn [pp_from] in H.
    destruct (getitem b (offset + n - 1)) as [id|]; [|done].
    cbn [res_bind] in H. destruct (id =? 0).
    + apply IH in H. cbn. lia.
    + destruct (getitem b (offset + n)) as [pp|]; [|done].
      cbn [res_bind] in H.
      destruct (pp_from b offset ns) as [rest|]; [|done].
      cbn [res_bind] in H. injection H as <-.
      specialize (IH rest eq_refl). cbn. lia.
Qed.

(** X18: on any buffer and for any tables and layout, [moves_with_pp()]
    returns a list exactly when [moves()] returns its first components and
    [pp_left()] its second components: the three readers skip the same
    slots, [moves_with_pp()] is the zip of the other two, and it never has
    more than four entries. *)
Theorem moves_with_pp_pairs_moves_and_pp (L : Layout) (b : list Z)
  (l : list (string * Z)) :
  (Pokemon_moves_with_pp D L b = Ok l
   <-> Pokemon_moves_reader D L b = Ok l.*1 /\ Pokemon_pp_left L b = Ok l.*2)
  /\ (Pokemon_moves_with_pp D L b = Ok l -> (length l <= 4)%nat).
Proof.
  assert (Hiff : Pokemon_moves_with_pp D L b = Ok l
            <-> Pokemon_moves_reader D L b = Ok l.*1
                /\ Pokemon_pp_left L b = Ok l.*2).
  { unfold Pokemon_moves_with_pp, Pokemon_moves_reader, Pokemon_pp_left.
    apply (moves_with_pp_from_spec b (Pokemon_moves L) [0; 2; 4; 6]%nat l). }
  split; [exact Hiff|]. intros H. apply Hiff in H as [_ Hpp].
  apply pp_from_length in Hpp. rewrite length_fmap in Hpp. exact Hpp.
Qed.

End MovesWithPP.

(** ** [Side.new]: order array, unused slots, last moves and failures *)

Lemma zero_window (n off : nat) (blk : list Z) :
  (off + n <= length blk)%nat ->
  (forall k, (off <= k < off + n)%nat -> blk !! k = Some 0) ->
  take n (drop off blk) = replicate n 0.
Proof.
  intros Hlen H. apply list_eq. intros k.
  destruct (decide (k < n)%nat) as [Hk|Hk].
  - rewrite lookup_take_lt, lookup_drop by lia. rewrite H by lia.
    symmetry. apply lookup_replicate_2. lia.
  - rewrite lookup_take_ge by lia. symmetry. apply lookup_ge_None.
    rewrite length_replicate. lia.
Qed.

Lemma splice_cons (off : nat) (v : Z) (vs b : list Z) :
  (off + S (length vs) <= length b)%nat ->
  splice (S off) vs (<[off := v]> b) = splice off (v :: vs) b.
Proof.
  intros H.
  assert (<[off := v]> b = splice off [v] b) as ->.
  { pose proof (insert_splice off [] v b) as H0. cbn [length app] in H0.
    rewrite Nat.add_0_r, splice_nil in H0. apply H0. lia. }
  pose proof (splice_splice_app off [v] vs b) as H1. cbn [length app] in H1.
  replace (off + 1)%nat with (S off) in H1 by lia. apply H1. lia.
Qed.

Section SideMore.
Variable D : StaticData.
Variable L : Layout.
Hypothesis Hlayout : Pokemon_layout_ok L.
Hypothesis Hside : Side_layout_ok L.

(** A member that [Pokemon.new] accepts, as [Side.initialize] meets it:
    [initialize] succeeds on a zero-filled record. *)
Lemma valid_member (data : PokemonInitializer) (h : heap) :
  (exists p hp, Pokemon_new D L data h = (Ok p, hp)) ->
  exists w, Pokemon_initialize D L data (replicate (SIZE_Pokemon L) 0)
            = (Ok tt, w).
Proof.
  intros (p & hp & Hnew).
  destruct (Pokemon_new_Ok D L Hlayout data h hp p Hnew) as (w & Hw & _).
  by exists w.
Qed.

Lemma initialize_length (data : PokemonInitializer) (r : res unit)
  (w : list Z) :
  Pokemon_initialize D L data (replicate (SIZE_Pokemon L) 0) = (r, w) ->
  length w = SIZE_Pokemon L.
Proof.
  intros H.
  pose proof (keeps_length_Pokemon_initialize D L data
                (replicate (SIZE_Pokemon L) 0)) as Hlen.
  rewrite H in Hlen. cbn [snd] in Hlen. by rewrite length_replicate in Hlen.
Qed.

Lemma length_concat_records (team : list PokemonInitializer)
  (ws : list (list Z)) :
  Forall2 (fun data w =>
             Pokemon_initialize D L data (replicate (SIZE_Pokemon L) 0)
             = (Ok tt, w)) team ws ->
  length (concat ws) = (length team * SIZE_Pokemon L)%nat.
Proof.
  intros Hws. rewrite (Forall2_length _ _ _ Hws).
  apply length_concat_uniform. apply Forall_forall. intros w' Hin.
  apply list_elem_of_lookup in Hin as [k Hin].
  destruct (Forall2_lookup_r _ _ _ _ _ Hws Hin) as (d' & _ & Hw').
  exact (initialize_length d' _ w' Hw').
Qed.

(** [Side.__init__] on a fresh array of the side's size. *)
Lemma Side___init___run (h : heap) :
  exists side,
    Side___init__ L (mkCdata (length h) 0 (SIZE_Side L)) = Ok side
    /\ Side_bytes side = mkCdata (length h) 0 (SIZE_Side L)
    /\ length (Side_team side) = 6%nat
    /\ forall k, (k < 6)%nat ->
         Side_team side !! k
         = Some (mkCdata (length h) (Side_pokemon L + k * SIZE_Pokemon L)
                   (SIZE_Pokemon L)).
Proof.
  pose proof Hside as (Hact & Hord & Hsz).
  destruct (Side_slices_run L (mkCdata (length h) 0 (SIZE_Side L)) 6
              (Side_pokemon L)) as (views & Hviews & Hlen & Hk);
    [cbn; lia|].
  exists (mkSide (mkCdata (length h) 0 (SIZE_Side L)) views).
  split; [|split; [done|split; [done|exact Hk]]].
  unfold Side___init__, py_assert. rewrite Hviews. cbn [res_bind snd fst].
  by rewrite (proj2 (Nat.eqb_eq _ _) (eq_sym Hact)).
Qed.

Lemma Side_init_team_app (self : Side) (l1 l2 : list PokemonInitializer) :
  forall (i : nat) (order : list Z) (hp : heap),
    Side_init_team D L self i (l1 ++ l2) order hp
    = match Side_init_team D L self i l1 order hp with
      | (Ok o, hp') => Side_init_team D L self (i + length l1) l2 o hp'
      | (Raise e, hp') => (Raise e, hp')
      end.
Proof.
  induction l1 as [|data l1 IH]; intros i order hp.
  - cbn. by rewrite Nat.add_0_r.
  - cbn [app Side_init_team length]. unfold heap_bind, heap_lift.
    destruct (py_nth (Side_team self) i) as [p|e]; [|done].
    destruct (via p (Pokemon_initialize D L data) hp) as [[[]|e] hp1];
      [|done].
    rewrite IH. by replace (S i + length l1)%nat with (i + S (length l1))%nat
      by lia.
Qed.

Section Loops.
Variable h : heap.
Variable side : Side.
Hypothesis Hbytes : Side_bytes side = mkCdata (length h) 0 (SIZE_Side L).
Hypothesis Hteam :
  forall k, (k < 6)%nat ->
    Side_team side !! k
    = Some (mkCdata (length h) (Side_pokemon L + k * SIZE_Pokemon L)
              (SIZE_Pokemon L)).

(** One step of the team loop on a side whose slot is still zero. *)
Lemma Side_init_team_cons (data : PokemonInitializer)
  (rest : list PokemonInitializer) (i : nat) (blk order : list Z)
  (r : res unit) (w : list Z) :
  length blk = SIZE_Side L -> (i < 6)%nat ->
  (forall k, (Side_pokemon L + i * SIZE_Pokemon L <= k
              < Side_pokemon L + 6 * SIZE_Pokemon L)%nat ->
             blk !! k = Some 0) ->
  Pokemon_initialize D L data (replicate (SIZE_Pokemon L) 0) = (r, w) ->
  Side_init_team D L side i (data :: rest) order (h ++ [blk])
  = match r with
    | Ok _ =>
        Side_init_team D L side (S i) rest (order ++ [Z.of_nat i + 1])
          (h ++ [splice (Side_pokemon L + i * SIZE_Pokemon L) w blk])
    | Raise e =>
        (Raise e, h ++ [splice (Side_pokemon L + i * SIZE_Pokemon L) w blk])
    end.
Proof.
  pose proof Hside as (Hact & Hord & Hsz).
  intros Hblk Hi Hzero Hrun.
  cbn [Side_init_team]. unfold heap_bind, heap_lift, py_nth.
  rewrite Hteam by lia.
  rewrite (via_last h blk _ _ _ r w);
    [by destruct r as [[]|e]| |by apply initialize_length in Hrun].
  rewrite zero_window; [done|nia|]. intros k Hk. apply Hzero. nia.
Qed.

Lemma Side_init_team_frame (rest : list PokemonInitializer) :
  forall (i : nat) (blk : list Z) (order : list Z),
    length blk = SIZE_Side L ->
    (i + length rest <= 6)%nat ->
    (forall k, (Side_pokemon L + i * SIZE_Pokemon L <= k
                < Side_pokemon L + 6 * SIZE_Pokemon L)%nat ->
               blk !! k = Some 0) ->
    Forall (fun data => exists w,
              Pokemon_initialize D L data (replicate (SIZE_Pokemon L) 0)
              = (Ok tt, w)) rest ->
    exists ws,
      Side_init_team D L side i rest order (h ++ [blk])
      = (Ok (order ++ ((fun k => Z.of_nat k + 1) <$> seq i (length rest))),
         h ++ [splice (Side_pokemon L + i * SIZE_Pokemon L) (concat ws) blk])
      /\ Forall2 (fun data w =>
                    Pokemon_initialize D L data (replicate (SIZE_Pokemon L) 0)
                    = (Ok tt, w)) rest ws.
Proof.
  pose proof Hside as (Hact & Hord & Hsz).
  induction rest as [|data rest IH]; intros i blk order Hblk Hi Hzero Hvalid.
  - exists []. cbn. by rewrite splice_nil, app_nil_r.
  - cbn [length] in Hi.
    apply Forall_cons in Hvalid as [[w Hw] Hvalid].
    pose proof (initialize_length data _ w Hw) as Hwlen.
    rewrite (Side_init_team_cons data rest i blk order (Ok tt) w Hblk
               ltac:(lia) Hzero Hw).
    set (off := (Side_pokemon L + i * SIZE_Pokemon L)%nat) in *.
    destruct (IH (S i) (splice off w blk) (order ++ [Z.of_nat i + 1]))
      as (ws & Hrun & Hws).
    { rewrite length_splice; [done|]. unfold off. nia. }
    { lia. }
    { intros k Hk. rewrite lookup_splice_ge by (unfold off; nia).
      apply Hzero. unfold off in *. nia. }
    { exact Hvalid. }
    exists (w :: ws). split; [|by constructor].
    rewrite Hrun. f_equal.
    + f_equal. rewrite <- app_assoc. reflexivity.
    + f_equal. f_equal.
      pose proof (length_concat_records rest ws Hws) as Hwsl.
      replace (Side_pokemon L + S i * SIZE_Pokemon L)%nat
        with (off + length w)%nat by (unfold off; lia).
      rewrite splice_splice_app; [done|].
      rewrite Hwsl, Hwlen, Hblk. unfold off. nia.
Qed.

Lemma Side_write_order_splice (order : list Z) :
  forall (i : nat) (blk : list Z),
    length blk = SIZE_Side L ->
    (Side_order L + i + length order <= SIZE_Side L)%nat ->
    Forall (fun v => 0 <= v <= 255) order ->
    Side_write_order L side i order (h ++ [blk])
    = (Ok tt, h ++ [splice (Side_order L + i) order blk]).
Proof.
  induction order as [|v order IH]; intros i blk Hblk Hlen Hrange.
  - cbn. by rewrite splice_nil.
  - cbn [length] in Hlen. apply Forall_cons in Hrange as [Hv Hrange].
    cbn [Side_write_order]. unfold heap_bind at 1. rewrite Hbytes.
    rewrite (via_last h blk 0 (SIZE_Side L) _ (Ok tt)
               (<[(Side_order L + i)%nat := v]> blk)).
    2: { rewrite drop_0, take_ge by lia. unfold setitem.
         destruct (Nat.ltb_spec (Side_order L + i) (length blk)); [|lia].
         by rewrite (proj2 (is_byte_spec v) Hv). }
    2: { by rewrite length_insert. }
    rewrite splice_full by (by rewrite length_insert).
    rewrite IH; [|by rewrite length_insert|lia|done].
    replace (Side_order L + S i)%nat with (S (Side_order L + i)) by lia.
    rewrite splice_cons by lia. reflexivity.
Qed.

(** The two loops of [Side.initialize] on a side whose slots are zero. *)
Lemma Side_team_and_order_run (team : list PokemonInitializer)
  (blk : list Z) :
  length blk = SIZE_Side L ->
  (length team <= 6)%nat ->
  (forall k, (Side_pokemon L <= k < Side_pokemon L + 6 * SIZE_Pokemon L)%nat ->
             blk !! k = Some 0) ->
  Forall (fun data => exists w,
            Pokemon_initialize D L data (replicate (SIZE_Pokemon L) 0)
            = (Ok tt, w)) team ->
  exists ws,
    (order <- Side_init_team D L side 0 team [] ;;
     Side_write_order L side 0 order)%heap (h ++ [blk])
    = (Ok tt,
       h ++ [splice (Side_order L)
               ((fun k => Z.of_nat k + 1) <$> seq 0 (length team))
               (splice (Side_pokemon L) (concat ws) blk)])
    /\ Forall2 (fun data w =>
                  Pokemon_initialize D L data (replicate (SIZE_Pokemon L) 0)
                  = (Ok tt, w)) team ws
    /\ length (concat ws) = (length team * SIZE_Pokemon L)%nat.
Proof.
  pose proof Hside as (Hact & Hord & Hsz).
  intros Hblk HN Hzero Hvalid.
  destruct (Side_init_team_frame team 0 blk [] Hblk ltac:(lia))
    as (ws & Hrun & Hws); [intros k Hk; apply Hzero; lia|done|].
  pose proof (length_concat_records team ws Hws) as Hwsl.
  exists ws. split; [|by split].
  unfold heap_bind. rewrite Hrun. cbn [app Nat.mul Nat.add].
  rewrite Nat.add_0_r.
  rewrite Side_write_order_splice.
  - by rewrite Nat.add_0_r.
  - rewrite length_splice; [done|]. rewrite Hwsl, Hblk. nia.
  - rewrite length_fmap, length_seq. lia.
  - apply Forall_forall. intros v Hv.
    apply list_elem_of_fmap in Hv as (k & -> & Hk).
    apply elem_of_seq in Hk. lia.
Qed.

End Loops.

(** X19: for a team of [N] valid initializers, [0 <= N <= 6], [Side.new]
    succeeds; the order array of the new side holds 1, 2, ..., [N] in its
    first [N] bytes and 0 in the others, and the slots from [N] on are
    still all zero. *)
Theorem Side_new_order_and_unused_slots
  (team : list PokemonInitializer) (h : heap)
  (HN : (length team <= 6)%nat)
  (Hvalid : Forall (fun data => exists p hp,
                      Pokemon_new D L data h = (Ok p, hp)) team) :
  exists side h',
    Side_new D L (SideList team) h = (Ok side, h')
    /\ length (contents h' (Side_bytes side)) = SIZE_Side L
    /\ (forall i, (i < length team)%nat ->
          contents h' (Side_bytes side) !! (Side_order L + i)%nat
          = Some (Z.of_nat i + 1))
    /\ (forall i, (length team <= i < 6)%nat ->
          contents h' (Side_bytes side) !! (Side_order L + i)%nat = Some 0)
    /\ (forall i, (length team <= i < 6)%nat ->
          slot_bytes L (contents h' (Side_bytes side)) i
          = replicate (SIZE_Pokemon L) 0).
Proof.
  pose proof Hside as (Hact & Hord & Hsz).
  destruct (Side___init___run h) as (side & Hinit & Hbytes & _ & Hteam).
  set (zerosS := replicate (SIZE_Side L) 0).
  assert (HzS : length zerosS = SIZE_Side L) by apply length_replicate.
  destruct (Side_team_and_order_run h side Hbytes Hteam team zerosS HzS HN)
    as (ws & Hrun & _ & Hwsl).
  { intros k Hk. apply lookup_replicate_2. lia. }
  { eapply Forall_impl; [exact Hvalid|]. intros data. apply valid_member. }
  set (ord := (fun k => Z.of_nat k + 1) <$> seq 0 (length team)) in *.
  set (mid := splice (Side_pokemon L) (concat ws) zerosS) in *.
  assert (Hord_len : length ord = length team)
    by (unfold ord; by rewrite length_fmap, length_seq).
  assert (Hmid : length mid = SIZE_Side L).
  { unfold mid. rewrite length_splice; [done|]. rewrite Hwsl, HzS. nia. }
  assert (Hfin : length (splice (Side_order L) ord mid) = SIZE_Side L).
  { rewrite length_splice; [done|]. lia. }
  exists side, (h ++ [splice (Side_order L) ord mid]).
  assert (Hcontents : contents (h ++ [splice (Side_order L) ord mid])
                        (Side_bytes side)
                      = splice (Side_order L) ord mid).
  { rewrite Hbytes, contents_last, drop_0. by rewrite take_ge by lia. }
  rewrite Hcontents. split; [|split; [done|split; [|split]]].
  - unfold Side_new, heap_bind, ffi_new, heap_lift. rewrite Hinit.
    unfold Side_initialize, heap_ret. unfold heap_bind at 1 2.
    fold zerosS. unfold heap_bind in Hrun. by rewrite Hrun.
  - intros i Hi. rewrite lookup_splice by lia.
    unfold ord. rewrite list_lookup_fmap, lookup_seq_lt by lia. reflexivity.
  - intros i Hi. rewrite lookup_splice_ge by lia.
    unfold mid. rewrite lookup_splice_ge by (rewrite ?Hwsl, ?HzS; nia).
    apply lookup_replicate_2. lia.
  - intros i Hi. unfold slot_bytes. apply zero_window; [nia|].
    intros k Hk. rewrite lookup_splice_lt by nia.
    unfold mid. rewrite lookup_splice_ge by (rewrite ?Hwsl, ?HzS; nia).
    apply lookup_replicate_2. nia.
Qed.

(** X20: a team of more than six members whose first six are valid makes
    [Side.new] raise [IndexError]: the six slots are taken and there is no
    seventh. *)
Theorem Side_new_seventh_member_IndexError
  (team : list PokemonInitializer) (h : heap)
  (HN : (6 < length team)%nat)
  (Hvalid : Forall (fun data => exists p hp,
                      Pokemon_new D L data h = (Ok p, hp)) (take 6 team)) :
  exists h', Side_new D L (SideList team) h = (Raise IndexError, h').
Proof.
  pose proof Hside as (Hact & Hord & Hsz).
  destruct (Side___init___run h) as (side & Hinit & Hbytes & Hlen & Hteam).
  set (zerosS := replicate (SIZE_Side L) 0).
  assert (HzS : length zerosS = SIZE_Side L) by apply length_replicate.
  assert (Htake : length (take 6 team) = 6%nat) by (rewrite length_take; lia).
  destruct (Side_init_team_frame h side Hteam (take 6 team) 0 zerosS [] HzS)
    as (ws & Hrun & _).
  { lia. }
  { intros k Hk. apply lookup_replicate_2. lia. }
  { eapply Forall_impl; [exact Hvalid|]. intros data. apply valid_member. }
  destruct (drop 6 team) as [|seventh others] eqn:Hdrop.
  { apply (f_equal length) in Hdrop. rewrite length_drop in Hdrop.
    cbn in Hdrop. lia. }
  eexists. unfold Side_new, heap_bind, ffi_new, heap_lift. rewrite Hinit.
  unfold Side_initialize, heap_ret. unfold heap_bind at 1 2.
  fold zerosS. rewrite <- (take_drop 6 team) at 1.
  rewrite Side_init_team_app, Hrun, Htake, Hdrop.
  cbn [Side_init_team Nat.add]. unfold heap_bind, heap_lift, py_nth.
  rewrite (proj2 (lookup_ge_None (Side_team side) 6)) by lia. reflexivity.
Qed.

(** X21: when the members before it are valid, the first member of a team
    that [Pokemon.new] rejects makes [Side.new] raise the same error. *)
Theorem Side_new_raises_first_failure
  (good : list PokemonInitializer) (bad : PokemonInitializer)
  (others : list PokemonInitializer) (h : heap) (e : py_error)
  (HN : (length good < 6)%nat)
  (Hgood : Forall (fun data => exists p hp,
                     Pokemon_new D L data h = (Ok p, hp)) good)
  (Hbad : exists hb, Pokemon_new D L bad h = (Raise e, hb)) :
  exists h', Side_new D L (SideList (good ++ bad :: others)) h = (Raise e, h').
Proof.
  pose proof Hside as (Hact & Hord & Hsz).
  destruct (Side___init___run h) as (side & Hinit & Hbytes & Hlen & Hteam).
  set (zerosS := replicate (SIZE_Side L) 0).
  assert (HzS : length zerosS = SIZE_Side L) by apply length_replicate.
  destruct (Side_init_team_frame h side Hteam good 0 zerosS [] HzS)
    as (ws & Hrun & Hws).
  { lia. }
  { intros k Hk. apply lookup_replicate_2. lia. }
  { eapply Forall_impl; [exact Hgood|]. intros data. apply valid_member. }
  pose proof (length_concat_records good ws Hws) as Hwsl.
  destruct Hbad as (hb & Hbad). rewrite Pokemon_new_run in Hbad.
  destruct (Pokemon_initialize D L bad (replicate (SIZE_Pokemon L) 0))
    as [[[]|e'] w] eqn:Hw; [done|]. injection Hbad as -> _.
  set (mid := splice (Side_pokemon L + 0 * SIZE_Pokemon L) (concat ws) zerosS)
    in *.
  assert (Hmid : length mid = SIZE_Side L).
  { unfold mid. rewrite length_splice; [done|]. rewrite Hwsl, HzS. nia. }
  eexists. unfold Side_new, heap_bind, ffi_new, heap_lift. rewrite Hinit.
  unfold Side_initialize, heap_ret. unfold heap_bind at 1 2.
  fold zerosS. rewrite Side_init_team_app, Hrun.
  rewrite (Side_init_team_cons h side Hteam bad others (0 + length good) mid
             _ (Raise e) w Hmid ltac:(lia)); [reflexivity| |exact Hw].
  intros k Hk. unfold mid.
  rewrite lookup_splice_ge by (rewrite ?Hwsl, ?HzS; nia).
  apply lookup_replicate_2. lia.
Qed.

(** X22: with the two last-move bytes after the order array, [Side.new] of
    a dictionary that names a last selected and a last used move, each with
    an 8-bit id that the reverse lookup maps back, succeeds for a team of up
    to six valid members, and [last_selected_move()] and [last_used_move()]
    of the new side return the two names. *)
Theorem Side_new_last_moves_read_back
  (team : list PokemonInitializer) (selected used : string) (id1 id2 : Z)
  (h : heap)
  (Hmoves : Side_moves_layout_ok L)
  (HN : (length team <= 6)%nat)
  (Hvalid : Forall (fun data => exists p hp,
                      Pokemon_new D L data h = (Ok p, hp)) team)
  (Hsel : MOVE_IDS D !! selected = Some id1 /\ 0 <= id1 <= 255
          /\ MOVE_ID_LOOKUP D !! id1 = Some selected)
  (Huse : MOVE_IDS D !! used = Some id2 /\ 0 <= id2 <= 255
          /\ MOVE_ID_LOOKUP D !! id2 = Some used) :
  exists side h',
    Side_new D L (SideDict team (Some selected) (Some used)) h = (Ok side, h')
    /\ Side_last_selected_move_reader D L h' side = Ok selected
    /\ Side_last_used_move_reader D L h' side = Ok used.
Proof.
  pose proof Hside as (Hact & Hord & Hsz).
  destruct Hmoves as (Hm1 & Hm2 & Hne & Hlt1 & Hlt2).
  destruct Hsel as (Hid1 & Hb1 & Hback1). destruct Huse as (Hid2 & Hb2 & Hback2).
  destruct (Side___init___run h) as (side & Hinit & Hbytes & _ & Hteam).
  set (zerosS := replicate (SIZE_Side L) 0).
  assert (HzS : length zerosS = SIZE_Side L) by apply length_replicate.
  set (blk1 := <[Side_last_selected_move L := id1]> zerosS).
  set (blk2 := <[Side_last_used_move L := id2]> blk1).
  assert (Hblk1 : length blk1 = SIZE_Side L)
    by (unfold blk1; by rewrite length_insert).
  assert (Hblk2 : length blk2 = SIZE_Side L)
    by (unfold blk2; by rewrite length_insert).
  assert (Hset : forall (blk : list Z) (off : nat) (name : string) (id : Z),
            length blk = SIZE_Side L -> (off < SIZE_Side L)%nat ->
            MOVE_IDS D !! name = Some id -> 0 <= id <= 255 ->
            Side_set_move D side off (Some name) (h ++ [blk])
            = (Ok tt, h ++ [<[off := id]> blk])).
  { intros blk off name id Hblk Hoff Hid Hb.
    unfold Side_set_move, heap_bind, heap_lift, dict_get. rewrite Hid, Hbytes.
    rewrite (via_last h blk 0 (SIZE_Side L) _ (Ok tt) (<[off := id]> blk)).
    - by rewrite splice_full by (by rewrite length_insert).
    - rewrite drop_0, take_ge by lia. unfold setitem.
      destruct (Nat.ltb_spec off (length blk)); [|lia].
      by rewrite (proj2 (is_byte_spec id) Hb).
    - by rewrite length_insert. }
  destruct (Side_team_and_order_run h side Hbytes Hteam team blk2 Hblk2 HN)
    as (ws & Hrun & _ & Hwsl).
  { intros k Hk. unfold blk2, blk1.
    rewrite !list_lookup_insert_ne by lia. apply lookup_replicate_2. lia. }
  { eapply Forall_impl; [exact Hvalid|]. intros data. apply valid_member. }
  set (ord := (fun k => Z.of_nat k + 1) <$> seq 0 (length team)) in *.
  set (mid := splice (Side_pokemon L) (concat ws) blk2) in *.
  assert (Hord_len : length ord = length team)
    by (unfold ord; by rewrite length_fmap, length_seq).
  assert (Hmid : length mid = SIZE_Side L).
  { unfold mid. rewrite length_splice; [done|]. rewrite Hwsl, Hblk2. nia. }
  assert (Hfin : length (splice (Side_order L) ord mid) = SIZE_Side L).
  { rewrite length_splice; [done|]. lia. }
  assert (Hread : forall k, (Side_order L + 6 <= k)%nat ->
            splice (Side_order L) ord mid !! k = blk2 !! k).
  { intros k Hk. rewrite lookup_splice_ge by lia.
    unfold mid. apply lookup_splice_ge; rewrite ?Hwsl, ?Hblk2; nia. }
  exists side, (h ++ [splice (Side_order L) ord mid]).
  assert (Hcontents : contents (h ++ [splice (Side_order L) ord mid])
                        (Side_bytes side)
                      = splice (Side_order L) ord mid).
  { rewrite Hbytes, contents_last, drop_0. by rewrite take_ge by lia. }
  split; [|split].
  - unfold Side_new, heap_bind, ffi_new, heap_lift. rewrite Hinit.
    unfold Side_initialize, heap_ret. unfold heap_bind at 1 2 3 4.
    fold zerosS.
    rewrite (Hset zerosS _ selected id1 HzS Hlt1 Hid1 Hb1). fold blk1.
    rewrite (Hset blk1 _ used id2 Hblk1 Hlt2 Hid2 Hb2). fold blk2.
    unfold heap_bind in Hrun. by rewrite Hrun.
  - unfold Side_last_selected_move_reader, getitem, py_nth.
    rewrite Hcontents, Hread by lia. unfold blk2, blk1.
    rewrite list_lookup_insert_ne by lia.
    rewrite list_lookup_insert_eq by lia.
    cbn [res_bind]. unfold lookup_get. by rewrite Hback1.
  - unfold Side_last_used_move_reader, getitem, py_nth.
    rewrite Hcontents, Hread by lia. unfold blk2.
    rewrite list_lookup_insert_eq by lia.
    cbn [res_bind]. unfold lookup_get. by rewrite Hback2.
Qed.

(** X23: a dictionary whose last selected move is not in the move table
    makes [Side.new] raise [KeyError] for that name before anything is
    written: the array of the new side is still all zero. *)
Theorem Side_new_unknown_last_move
  (team : list PokemonInitializer) (selected : string) (used : option string)
  (h : heap)
  (Hunknown : MOVE_IDS D !! selected = None) :
  Side_new D L (SideDict team (Some selected) used) h
  = (Raise (KeyError selected), h ++ [replicate (SIZE_Side L) 0]).
Proof.
  destruct (Side___init___run h) as (side & Hinit & _).
  unfold Side_new, heap_bind, ffi_new, heap_lift. rewrite Hinit.
  unfold Side_initialize, Side_set_move, heap_bind, heap_lift, dict_get.
  by rewrite Hunknown.
Qed.

End SideMore.

Lemma gen1_side_moves_layout_ok : Side_moves_layout_ok gen1_layout.
Proof. unfold Side_moves_layout_ok. cbn. lia. Qed.

Lemma Side_new_order_and_unused_slots_witness :
  exists side h',
    Side_new sample_data gen1_layout (SideList sample_team) [] = (Ok side, h')
    /\ contents h' (Side_bytes side) !! 177%nat = Some 2
    /\ contents h' (Side_bytes side) !! 178%nat = Some 0.
Proof.
  destruct (Side_new_order_and_unused_slots sample_data gen1_layout
              gen1_layout_ok gen1_side_layout_ok sample_team [])
    as (side & h' & Hnew & _ & Hfirst & Hrest & _).
  - cbn. lia.
  - repeat constructor; eexists _, _; vm_compute; reflexivity.
  - exists side, h'. split; [exact Hnew|]. split.
    + exact (Hfirst 1%nat ltac:(cbn; lia)).
    + exact (Hrest 2%nat ltac:(cbn; lia)).
Defined.

Lemma Side_new_seventh_member_IndexError_witness :
  exists h',
    Side_new sample_data gen1_layout
      (SideList (replicate 7 (mkInit "Mew" ["Psychic"] None))) []
    = (Raise IndexError, h').
Proof.
  apply (Side_new_seventh_member_IndexError sample_data gen1_layout
           gen1_layout_ok gen1_side_layout_ok
           (replicate 7 (mkInit "Mew" ["Psychic"] None)) []).
  - cbn. lia.
  - repeat constructor; eexists _, _; vm_compute; reflexivity.
Defined.

Lemma Side_new_raises_first_failure_witness :
  exists h',
    Side_new sample_data gen1_layout
      (SideList [mkInit "Mew" ["Psychic"] None;
                 mkInit "Mew" ["Not A Move"] None;
                 mkInit "Charizard" ["Fire Blast"] None]) []
    = (Raise (KeyError "Not A Move"), h').
Proof.
  apply (Side_new_raises_first_failure sample_data gen1_layout
           gen1_layout_ok gen1_side_layout_ok
           [mkInit "Mew" ["Psychic"] None] (mkInit "Mew" ["Not A Move"] None)
           [mkInit "Charizard" ["Fire Blast"] None] []).
  - cbn. lia.
  - repeat constructor; eexists _, _; vm_compute; reflexivity.
  - eexists. vm_compute. reflexivity.
Defined.

Lemma Side_new_last_moves_read_back_witness :
  exists side h',
    Side_new sample_data gen1_layout
      (SideDict sample_team (Some "Psychic") (Some "Fire Blast")) []
    = (Ok side, h')
    /\ Side_last_selected_move_reader sample_data gen1_layout h' side
       = Ok "Psychic"%string
    /\ Side_last_used_move_reader sample_data gen1_layout h' side
       = Ok "Fire Blast"%string.
Proof.
  apply (Side_new_last_moves_read_back sample_data gen1_layout
           gen1_layout_ok gen1_side_layout_ok sample_team
           "Psychic" "Fire Blast" 94 126 []).
  - exact gen1_side_moves_layout_ok.
  - cbn. lia.
  - repeat constructor; eexists _, _; vm_compute; reflexivity.
  - split; [reflexivity|]. split; [lia|reflexivity].
  - split; [reflexivity|]. split; [lia|reflexivity].
Defined.

Lemma Side_new_unknown_last_move_witness :
  Side_new sample_data gen1_layout
    (SideDict sample_team (Some "Not A Move") None) []
  = (Raise (KeyError "Not A Move"), [replicate 184 0]).
Proof.
  apply (Side_new_unknown_last_move sample_data gen1_layout
           gen1_side_layout_ok sample_team "Not A Move" None []).
  vm_compute. reflexivity.
Defined.

(** ** More on the engine's choices, the store and the stored bytes *)

Lemma collect_choices_overrun (raw : list Z) (n : nat) :
  forall start : nat,
    (start <= length raw)%nat -> (length raw < start + n)%nat ->
    collect_choices raw (seq start n) = Raise IndexError.
Proof.
  induction n as [|n IH]; intros start Hstart Hover; [lia|].
  cbn [seq collect_choices]. unfold py_nth.
  destruct (raw !! start) as [c|] eqn:Hc; [|done].
  cbn [res_bind]. apply lookup_lt_Some in Hc.
  by rewrite IH by lia.
Qed.

Section ChoicesMore.
Variable PKMN_OPTIONS_SIZE : nat.
Variable pkmn_gen1_battle_choices : list Z -> Z -> Z -> nat -> nat * list Z.
Variable Result : Type.
Variable ChoiceType : Type.
Variable p1_choice_type : Result -> ChoiceType.
Variable p2_choice_type : Result -> ChoiceType.
Variable ChoiceType_value : ChoiceType -> Z.
Variable Player_value : Player -> Z.

(** X24: [possible_choices] never reads past the array it handed to the
    engine: a count larger than [PKMN_OPTIONS_SIZE] raises [IndexError]
    instead of returning choices the engine did not write. *)
Theorem possible_choices_overrun_IndexError
  (self : Battle) (player : Player) (previous_turn_result : Result)
  (num_choices : nat) (written : list Z)
  (Hengine :
     pkmn_gen1_battle_choices (_pkmn_battle self) (Player_value player)
       (ChoiceType_value
          (requested_kind Result ChoiceType p1_choice_type p2_choice_type
             player previous_turn_result))
       PKMN_OPTIONS_SIZE
     = (num_choices, written))
  (Hover : (PKMN_OPTIONS_SIZE < num_choices)%nat) :
  Battle_possible_choices PKMN_OPTIONS_SIZE pkmn_gen1_battle_choices Result
    ChoiceType p1_choice_type p2_choice_type ChoiceType_value Player_value
    self player previous_turn_result
  = Raise IndexError.
Proof.
  unfold Battle_possible_choices. rewrite Hengine.
  destruct (Nat.eqb_spec num_choices 0); [lia|].
  apply collect_choices_overrun; rewrite length_raw_choices_after; lia.
Qed.

End ChoicesMore.

Lemma possible_choices_overrun_IndexError_witness :
  Battle_possible_choices 2 (constant_engine 3 [1; 5; 9]) unit unit
    (fun _ => tt) (fun _ => tt) (fun _ => 1) (fun _ => 1)
    (mkBattle [] []) P1 tt
  = Raise IndexError.
Proof.
  apply (possible_choices_overrun_IndexError 2 (constant_engine 3 [1; 5; 9])
           unit unit (fun _ => tt) (fun _ => tt) (fun _ => 1) (fun _ => 1)
           (mkBattle [] []) P1 tt 3%nat [1; 5; 9]).
  - reflexivity.
  - lia.
Defined.

Section SideStore.
Variable D : StaticData.
Variable L : Layout.
Hypothesis Hlayout : Pokemon_layout_ok L.
Hypothesis Hside : Side_layout_ok L.

(** X25: [Side.new] of up to six valid members allocates exactly one array,
    of the side's size: every array that was in the store before is left as
    it was, and the side and its six team members are windows of the new
    array, none reaching past its end. *)
Theorem Side_new_allocates_one_array
  (team : list PokemonInitializer) (h : heap)
  (HN : (length team <= 6)%nat)
  (Hvalid : Forall (fun data => exists p hp,
                      Pokemon_new D L data h = (Ok p, hp)) team) :
  exists side blk,
    Side_new D L (SideList team) h = (Ok side, h ++ [blk])
    /\ length blk = SIZE_Side L
    /\ Side_bytes side = mkCdata (length h) 0 (SIZE_Side L)
    /\ length (Side_team side) = 6%nat
    /\ Forall (fun p => c_block p = length h
                        /\ (c_off p + c_len p <= SIZE_Side L)%nat)
         (Side_team side).
Proof.
  pose proof Hside as (Hact & Hord & Hsz).
  destruct (Side___init___run L Hside h)
    as (side & Hinit & Hbytes & Hlen & Hteam).
  set (zerosS := replicate (SIZE_Side L) 0).
  assert (HzS : length zerosS = SIZE_Side L) by apply length_replicate.
  destruct (Side_team_and_order_run D L Hside h side Hbytes Hteam team
              zerosS HzS HN) as (ws & Hrun & _ & Hwsl).
  { intros k Hk. apply lookup_replicate_2. lia. }
  { eapply Forall_impl; [exact Hvalid|]. intros data.
    apply (valid_member D L Hlayout). }
  eexists side, _. split; [|split; [|split; [done|split; [done|]]]].
  - unfold Side_new, heap_bind, ffi_new, heap_lift. rewrite Hinit.
    unfold Side_initialize, heap_ret. unfold heap_bind at 1 2.
    fold zerosS. unfold heap_bind in Hrun. rewrite Hrun. reflexivity.
  - rewrite !length_splice; rewrite ?length_splice, ?length_fmap,
      ?length_seq, ?Hwsl, ?HzS; nia.
  - apply Forall_lookup. intros k p Hp.
    pose proof (lookup_lt_Some _ _ _ Hp) as Hk. rewrite Hteam in Hp by lia.
    injection Hp as <-. cbn [c_block c_off c_len]. split; [done|]. nia.
Qed.

End SideStore.

Lemma Side_new_allocates_one_array_witness :
  exists side blk,
    Side_new sample_data gen1_layout (SideList sample_team) [[1; 2; 3]]
    = (Ok side, [[1; 2; 3]; blk])
    /\ length blk = 184%nat.
Proof.
  destruct (Side_new_allocates_one_array sample_data gen1_layout
              gen1_layout_ok gen1_side_layout_ok sample_team [[1; 2; 3]])
    as (side & blk & Hnew & Hlen & _).
  - cbn. lia.
  - repeat constructor; eexists _, _; vm_compute; reflexivity.
  - exists side, blk. split; [exact Hnew|exact Hlen].
Defined.

Section StoredBytes.
Variable D : StaticData.
Variable L : Layout.
Hypothesis Hlayout : Pokemon_layout_ok L.

(** X26: [initialize] never stores a status, a level, a move id or a move
    PP modulo 256: whenever it succeeds, the status and the level it used
    are in 0..255, and each of the first four names of the moveset has an
    id in 0..255 in the move table and was given a PP in 0..255. *)
Theorem initialize_stores_whole_bytes (data : PokemonInitializer)
  (b b' : list Z)
  (Hbuf : length b = SIZE_Pokemon L)
  (Hinit : Pokemon_initialize D L data b = (Ok tt, b')) :
  let x := default no_extra (extra_data data) in
  0 <= default 0 (x_status x) <= 255
  /\ 0 <= default 100 (x_level x) <= 255
  /\ forall (i : nat) (name : string),
       (i < 4)%nat -> move_names data !! i = Some name ->
       exists id pp,
         MOVE_IDS D !! name = Some id /\ 0 <= id <= 255
         /\ move_slot D (move_names data) (x_move_pp x) i = Ok (id, pp)
         /\ 0 <= pp <= 255.
Proof.
  destruct (Pokemon_initialize_Ok_inv D L Hlayout data b b' Hbuf Hinit)
    as (image & Himage & _ & _).
  unfold Pokemon_image in Himage. repeat bind_inv Himage.
  rename a into r.
  destruct (resolve_fields D data r E) as (Est & Elv & _ & Epp).
  apply check_byte_Ok in E4 as [_ Hst], E10 as [_ Hlv].
  apply is_byte_spec in Hst, Hlv. cbn zeta. rewrite <- Est, <- Elv.
  split; [done|]. split; [done|]. intros i name Hi Hname.
  rewrite <- Epp.
  assert (Hslot : exists l, checked_slot D (move_names data) (r_move_pp r) i
                            = Ok l).
  { destruct i as [|[|[|[|i]]]]; [by eexists..|lia]. }
  destruct Hslot as (l & Hl).
  apply checked_slot_Ok in Hl as ([id pp] & Hslot & _ & Hid & Hpp).
  cbn [fst snd] in Hid, Hpp. apply is_byte_spec in Hid, Hpp.
  exists id, pp.
  assert (Hmid : MOVE_IDS D !! name = Some id).
  { unfold move_slot in Hslot.
    pose proof (lookup_lt_Some _ _ _ Hname) as Hlt.
    destruct (Nat.leb_spec (length (move_names data)) i); [lia|].
    unfold py_nth in Hslot. rewrite Hname in Hslot. cbn [res_bind] in Hslot.
    unfold dict_get in Hslot at 1.
    destruct (MOVE_IDS D !! name) as [id'|]; [|done].
    cbn [res_bind] in Hslot. bind_inv Hslot. by injection Hslot as -> _. }
  split; [done|]. split; [done|]. split; [done|done].
Qed.

(** X27: the species [None] stands for an empty slot: initialized without
    the extra dictionary it has all five stats and its HP at 0, the types
    Normal and Normal, status 0 and level 100 (the type table has at most
    16 entries, one nibble each). *)
Theorem None_species_is_blank (names : list string) (b b' : list Z)
  (Hbuf : length b = SIZE_Pokemon L)
  (Hinit : Pokemon_initialize D L (mkInit "None" names None) b = (Ok tt, b'))
  (HT : (length (TYPES D) <= 16)%nat) :
  Pokemon_stats_reader L b' = Ok (mkStats 0 0 0 0 0)
  /\ Pokemon_hp_reader L b' = Ok 0
  /\ Pokemon_types_reader D L b' = Ok ("Normal", "Normal")%string
  /\ Pokemon_status_reader L b' = Ok 0
  /\ Pokemon_level_reader L b' = Ok 100.
Proof.
  set (r := mkResolved 0 0 100 (mkStats 0 0 0 0 0)
              ("Normal", "Normal")%string None).
  assert (Hr : resolve D (mkInit "None" names None) = Ok r) by reflexivity.
  rewrite (stats_read_back D L Hlayout _ b b' r Hbuf Hinit Hr)
    by (cbn; lia).
  rewrite (hp_read_back D L Hlayout _ b b' r Hbuf Hinit Hr) by (cbn; lia).
  destruct (types_read_back D L Hlayout _ b b' Hbuf Hinit HT)
    as (r' & Hr' & ->).
  assert (r' = r) as -> by congruence.
  destruct (Pokemon_initialize_record D L Hlayout _ b b' Hbuf Hinit)
    as (r' & s0 & s1 & s2 & s3 & sid & t1 & t2 & Hr'' & _ & _ & _ & _ & ->).
  assert (r' = r) as -> by congruence.
  destruct (readers_of_record_image D L Hlayout b r s0 s1 s2 s3 sid
              (pack_two_u4s (Z.of_nat t1) (Z.of_nat t2)) Hbuf)
    as (_ & _ & _ & _ & Hstatus & _ & _ & Hlevel).
  by rewrite Hstatus, Hlevel.
Qed.

End StoredBytes.

Lemma initialize_stores_whole_bytes_witness :
  exists id pp,
    move_slot sample_data ["Psychic"%string] (Some [5; 6; 7; 8]) 0
    = Ok (id, pp)
    /\ 0 <= id <= 255 /\ 0 <= pp <= 255.
Proof.
  destruct (initialize_stores_whole_bytes sample_data gen1_layout
              gen1_layout_ok (mew_explicit ["Psychic"] [5; 6; 7; 8])
              (replicate 24 0)
              (snd (Pokemon_initialize sample_data gen1_layout
                      (mew_explicit ["Psychic"] [5; 6; 7; 8])
                      (replicate 24 0))))
    as (_ & _ & Hslots).
  - reflexivity.
  - vm_compute. reflexivity.
  - destruct (Hslots 0%nat "Psychic"%string ltac:(lia) eq_refl)
      as (id & pp & _ & Hid & Hslot & Hpp).
    exists id, pp. split; [exact Hslot|]. split; [exact Hid|exact Hpp].
Defined.

Lemma None_species_is_blank_witness :
  Pokemon_types_reader sample_data gen1_layout
    (snd (Pokemon_initialize sample_data gen1_layout
            (mkInit "None" ["None"] None) (replicate 24 0)))
  = Ok ("Normal", "Normal")%string.
Proof.
  destruct (None_species_is_blank sample_data gen1_layout gen1_layout_ok
              ["None"%string] (replicate 24 0)
              (snd (Pokemon_initialize sample_data gen1_layout
                      (mkInit "None" ["None"] None) (replicate 24 0))))
    as (_ & _ & Htypes & _).
  - reflexivity.
  - vm_compute. reflexivity.
  - cbn. lia.
  - exact Htypes.
Defined.

(** ** Initializing a side that is already in use *)

Section SideAgain.
Variable D : StaticData.
Variable L : Layout.
Hypothesis Hlayout : Pokemon_layout_ok L.
Hypothesis Hside : Side_layout_ok L.

Section Loops.
Variable h : heap.
Variable side : Side.
Hypothesis Hbytes : Side_bytes side = mkCdata (length h) 0 (SIZE_Side L).
Hypothesis Hteam :
  forall k, (k < 6)%nat ->
    Side_team side !! k
    = Some (mkCdata (length h) (Side_pokemon L + k * SIZE_Pokemon L)
              (SIZE_Pokemon L)).

(** The team loop on a side with anything in its slots: the members are
    written over them, one record each. *)
Lemma Side_init_team_any (rest : list PokemonInitializer) :
  forall (i : nat) (blk : list Z) (order : list Z),
    length blk = SIZE_Side L ->
    (i + length rest <= 6)%nat ->
    Forall (fun data => exists w,
              Pokemon_initialize D L data (replicate (SIZE_Pokemon L) 0)
              = (Ok tt, w)) rest ->
    exists records,
      Side_init_team D L side i rest order (h ++ [blk])
      = (Ok (order ++ ((fun k => Z.of_nat k + 1) <$> seq i (length rest))),
         h ++ [splice (Side_pokemon L + i * SIZE_Pokemon L) records blk])
      /\ length records = (length rest * SIZE_Pokemon L)%nat.
Proof.
  pose proof Hside as (Hact & Hord & Hsz).
  pose proof (SIZE_Pokemon_24 L Hlayout) as H24.
  induction rest as [|data rest IH]; intros i blk order Hblk Hi Hvalid.
  - exists []. cbn. by rewrite splice_nil, app_nil_r.
  - cbn [length] in Hi.
    apply Forall_cons in Hvalid as [[w0 Hw0] Hvalid].
    destruct (Pokemon_initialize_Ok_inv D L Hlayout data
                (replicate (SIZE_Pokemon L) 0) w0
                (length_replicate _ _) Hw0)
      as (image & Himage & Hlen & _).
    set (off := (Side_pokemon L + i * SIZE_Pokemon L)%nat).
    set (window := take (SIZE_Pokemon L) (drop off blk)).
    assert (Hwin : length window = SIZE_Pokemon L).
    { unfold window. rewrite length_take, length_drop. unfold off. nia. }
    pose proof (Pokemon_initialize_image D L Hlayout data window Hwin) as Hrun.
    rewrite Himage in Hrun. destruct Hrun as [_ Hrun].
    set (w := splice (Pokemon_stats L) image window) in *.
    assert (Hwlen : length w = SIZE_Pokemon L).
    { unfold w. rewrite length_splice; [done|]. lia. }
    assert (Hstep : Side_init_team D L side i (data :: rest) order
                      (h ++ [blk])
                    = Side_init_team D L side (S i) rest
                        (order ++ [Z.of_nat i + 1])
                        (h ++ [splice off w blk])).
    { cbn [Side_init_team]. unfold heap_bind, heap_lift, py_nth.
      rewrite Hteam by lia. fold off.
      by rewrite (via_last h blk off _ _ (Ok tt) w Hrun Hwlen). }
    rewrite Hstep.
    destruct (IH (S i) (splice off w blk) (order ++ [Z.of_nat i + 1]))
      as (records & Hrest & Hreclen).
    { rewrite length_splice; [done|]. unfold off. nia. }
    { lia. }
    { exact Hvalid. }
    exists (w ++ records). split.
    + rewrite Hrest. f_equal.
      * f_equal. rewrite <- app_assoc. reflexivity.
      * f_equal. f_equal.
        replace (Side_pokemon L + S i * SIZE_Pokemon L)%nat
          with (off + length w)%nat by (unfold off; lia).
        rewrite splice_splice_app; [done|].
        rewrite Hreclen, Hwlen, Hblk. unfold off. nia.
    + rewrite length_app, Hwlen, Hreclen. cbn [length]. lia.
Qed.

End Loops.

(** X28: [Side.initialize] on a side that is already in use, with a team
    of [N] valid members, [N <= 6], writes the first [N] slots and the
    first [N] bytes of the order array (1, 2, ..., [N]) and nothing else:
    the slots and the order bytes from [N] on, and every other byte of the
    side, keep what they held, so a shorter team leaves the former members
    in place. *)
Theorem Side_initialize_leaves_the_rest
  (team : list PokemonInitializer) (h : heap) (side : Side) (blk : list Z)
  (Hinit : Side___init__ L (mkCdata (length h) 0 (SIZE_Side L)) = Ok side)
  (Hblk : length blk = SIZE_Side L)
  (HN : (length team <= 6)%nat)
  (Hvalid : Forall (fun data => exists p hp,
                      Pokemon_new D L data h = (Ok p, hp)) team) :
  exists blk',
    Side_initialize D L side (SideList team) (h ++ [blk])
    = (Ok tt, h ++ [blk'])
    /\ length blk' = SIZE_Side L
    /\ (forall i, (i < length team)%nat ->
          blk' !! (Side_order L + i)%nat = Some (Z.of_nat i + 1))
    /\ (forall k,
          (k < Side_pokemon L
           \/ Side_pokemon L + length team * SIZE_Pokemon L <= k)%nat ->
          (k < Side_order L \/ Side_order L + length team <= k)%nat ->
          blk' !! k = blk !! k).
Proof.
  pose proof Hside as (Hact & Hord & Hsz).
  destruct (Side___init___run L Hside h)
    as (side' & Hinit' & Hbytes & _ & Hteam).
  assert (side' = side) as -> by congruence.
  destruct (Side_init_team_any h side Hteam team 0 blk [] Hblk ltac:(lia))
    as (records & Hrun & Hreclen).
  { eapply Forall_impl; [exact Hvalid|]. intros data.
    apply (valid_member D L Hlayout). }
  cbn [Nat.mul Nat.add app] in Hrun. rewrite Nat.add_0_r in Hrun.
  set (ord := (fun k => Z.of_nat k + 1) <$> seq 0 (length team)) in *.
  set (mid := splice (Side_pokemon L) records blk) in *.
  assert (Hord_len : length ord = length team)
    by (unfold ord; by rewrite length_fmap, length_seq).
  assert (Hmid : length mid = SIZE_Side L).
  { unfold mid. rewrite length_splice; [done|]. rewrite Hreclen, Hblk. nia. }
  exists (splice (Side_order L) ord mid).
  split; [|split; [|split]].
  - unfold Side_initialize, heap_ret. unfold heap_bind at 1 2.
    rewrite Hrun.
    rewrite (Side_write_order_splice L h side Hbytes ord 0 mid Hmid).
    + by rewrite Nat.add_0_r.
    + lia.
    + apply Forall_forall. intros v Hv.
      apply list_elem_of_fmap in Hv as (k & -> & Hk).
      apply elem_of_seq in Hk. lia.
  - rewrite length_splice; [done|]. lia.
  - intros i Hi. rewrite lookup_splice by lia.
    unfold ord. rewrite list_lookup_fmap, lookup_seq_lt by lia. reflexivity.
  - intros k Hslots Horder.
    assert (splice (Side_order L) ord mid !! k = mid !! k) as ->.
    { destruct Horder; [apply lookup_splice_lt|apply lookup_splice_ge]; lia. }
    unfold mid.
    destruct Hslots; [apply lookup_splice_lt|apply lookup_splice_ge];
      rewrite ?Hreclen, ?Hblk; nia.
Qed.

End SideAgain.

Lemma Side_initialize_leaves_the_rest_witness :
  exists side blk',
    Side___init__ gen1_layout (mkCdata 0 0 184) = Ok side
    /\ Side_initialize sample_data gen1_layout side
         (SideList [mkInit "Mew" ["Psychic"] None]) [replicate 184 9]
       = (Ok tt, [blk'])
    /\ blk' !! 176%nat = Some 1
    /\ blk' !! 177%nat = Some 9
    /\ blk' !! 24%nat = Some 9.
Proof.
  destruct (Side___init___run gen1_layout gen1_side_layout_ok [])
    as (side & Hinit & _).
  destruct (Side_initialize_leaves_the_rest sample_data gen1_layout
              gen1_layout_ok gen1_side_layout_ok
              [mkInit "Mew" ["Psychic"] None] [] side (replicate 184 9))
    as (blk' & Hrun & _ & Horder & Hrest).
  - exact Hinit.
  - reflexivity.
  - cbn. lia.
  - repeat constructor; eexists _, _; vm_compute; reflexivity.
  - exists side, blk'. split; [exact Hinit|]. split; [exact Hrun|].
    split; [exact (Horder 0%nat ltac:(cbn; lia))|]. split.
    + rewrite (Hrest 177%nat) by (cbn; lia). reflexivity.
    + rewrite (Hrest 24%nat) by (cbn; lia). reflexivity.
Defined.

